(** * ATen native histogram (aten/src/ATen/native/Histogram.cpp)

    A shallow embedding of the CPU histogram entry points of ATen:
    input validation, output preparation, selection of the outermost bin
    edges and the orchestration of the histogramdd / histogram / histc
    entry points, together with theorems about them.

    Conventions of the embedding.
    - [int64_t] values are [Z]; loop counters and vector positions are [nat].
      The sum [bin_ct + 1] on a count given by the caller is the checked
      sum [add_int64] where it is the number of steps of a linspace.
    - [double] values are primitive binary64 floats ([PrimFloat.float]); the
      elements of a tensor are kept as the doubles they denote.
    - A tensor is a record of its dtype, its sizes and its elements in
      row-major order.
    - A failing [TORCH_CHECK] is the error [InvalidArgument] carrying the
      check that failed; a failing [TORCH_INTERNAL_ASSERT] is
      [InternalAssert].
    - Functions that only read their arguments live in the error monad
      [Res]; functions that resize or write the output tensors [hist] and
      [bin_edges] live in the monad [M], which threads the output store and
      keeps the store reached when an error is raised. *)

From Stdlib Require Import ZArith List Bool Lia Floats.
Import ListNotations.
Local Open Scope Z_scope.

(* ------------------------------------------------------------------ *)
(** * Errors and the two monads *)

(** One constructor per [TORCH_CHECK] of Histogram.cpp. *)
Inductive check_msg : Type :=
| input_rank            (* input tensor should have at least 2 dimensions *)
| bins_count            (* expected N sequences of bin edges *)
| bins_dtype (dim : nat)  (* input and bins tensors should have the same dtype *)
| bins_rank (dim : nat)   (* bins tensor should have one dimension *)
| bins_numel (dim : nat)  (* bins tensor should have at least 1 element *)
| weight_dtype          (* input and weight should have the same dtype *)
| weight_shape          (* weight should have the shape of input minus its last dim *)
| hist_dtype            (* input and hist should have the same dtype *)
| bin_edges_dtype (dim : nat) (* input and bin_edges should have the same dtype *)
| bins_positive (dim : nat)   (* bins must be > 0 *)
| range_length          (* range should have 2 * N elements *)
| range_not_finite (dim : nat)      (* dimension's range is not finite *)
| range_min_exceeds_max (dim : nat) (* min should not exceed max *)
| histc_not_finite      (* torch.histc: range is not finite *)
| histc_max_not_larger. (* torch.histc: max must be larger than min *)

(** One constructor per [TORCH_INTERNAL_ASSERT]. *)
Inductive assert_site : Type :=
| prepare_bin_ct_size
| prepare_bin_edges_size
| select_input_2d.

Inductive error : Type :=
| InvalidArgument (m : check_msg)
| InternalAssert (a : assert_site)
| NotImplemented   (* AT_DISPATCH_FLOATING_TYPES on another dtype *)
| IndexError       (* size(-1) of a 0-dim tensor, position out of range *)
| EmptyReduction   (* minimum / maximum of no element *)
| Overflow.        (* an int64_t sum that does not fit, taken as a size *)

Inductive Res (A : Type) : Type :=
| OK (a : A)
| Err (e : error).
Arguments OK {A} a.
Arguments Err {A} e.

Definition bindR {A B} (c : Res A) (k : A -> Res B) : Res B :=
  match c with
  | OK a => k a
  | Err e => Err e
  end.

Notation "'let?' x ':=' c 'in' k" := (bindR c (fun x => k))
  (at level 10, x pattern, c at level 100, k at level 200).

Definition TORCH_CHECK (cond : bool) (m : check_msg) : Res unit :=
  if cond then OK tt else Err (InvalidArgument m).

Definition TORCH_INTERNAL_ASSERT (cond : bool) (a : assert_site) : Res unit :=
  if cond then OK tt else Err (InternalAssert a).

(** [for (dim = start; dim < start + count; dim++) body(dim)] on a local
    state [S]. *)
Fixpoint for_range {S : Type} (start count : nat) (body : nat -> S -> Res S)
    (s : S) : Res S :=
  match count with
  | O => OK s
  | Datatypes.S c => let? s' := body start s in for_range (Datatypes.S start) c body s'
  end.

(** [int64_t] *)
Definition int64_min : Z := - 2 ^ 63.
Definition int64_max : Z := 2 ^ 63 - 1.

(** [a + b] on [int64_t], where the sum is handed on as a number of
    elements.  A sum that does not fit wraps around in the source, for
    [bin_ct + 1] to the negative INT64_MIN, and the callee raises on a
    negative number of elements; here the error is raised by the sum. *)
Definition add_int64 (a b : Z) : Res Z :=
  let s := a + b in
  if (int64_min <=? s) && (s <=? int64_max) then OK s else Err Overflow.

(** [v[i]] and [v[i] = x] on a vector.  [operator[]] is not checked in the
    source, where a position out of range is undefined behaviour; here it
    is the error [IndexError], and nothing is said of what the source does
    past it. *)
Definition vec_at {A} (v : list A) (i : nat) : Res A :=
  match nth_error v i with
  | Some x => OK x
  | None => Err IndexError
  end.

Fixpoint vec_set {A} (v : list A) (i : nat) (x : A) : list A :=
  match v, i with
  | [], _ => []
  | _ :: v', O => x :: v'
  | y :: v', Datatypes.S i' => y :: vec_set v' i' x
  end.

(* ------------------------------------------------------------------ *)
(** * Tensors *)

Inductive ScalarType : Type :=
| Byte | Char | Short | Int | Long | Half | Float | Double | Bool | BFloat16.

Definition ScalarType_eq_dec (a b : ScalarType) : {a = b} + {a <> b}.
Proof. decide equality. Defined.

Definition dtype_eqb (a b : ScalarType) : bool :=
  if ScalarType_eq_dec a b then true else false.

Record Tensor : Type := mkTensor {
  dtype : ScalarType;
  sizes : list Z;
  data : list float
}.

(** [t.dim()] *)
Definition dim (t : Tensor) : Z := Z.of_nat (length (sizes t)).

(** [t.numel()] *)
Definition numel (t : Tensor) : Z := fold_right Z.mul 1 (sizes t).

(** [t.size(-1)] *)
Definition size_m1 (t : Tensor) : Res Z :=
  match sizes t with
  | [] => Err IndexError
  | _ :: _ => OK (last (sizes t) 0)
  end.

(** [a == b] on [std::vector<int64_t>] *)
Fixpoint sizes_eqb (a b : list Z) : bool :=
  match a, b with
  | [], [] => true
  | x :: a', y :: b' => (x =? y) && sizes_eqb a' b'
  | _, _ => false
  end.

(** [at::empty({0}, options)] *)
Definition empty0 (dt : ScalarType) : Tensor := mkTensor dt [0] [].

(** [t.reshape(shape)] of a contiguous tensor: a view on the same elements.
    At every call site the product of [shape] is [t.numel()]. *)
Definition reshape (t : Tensor) (shape : list Z) : Tensor :=
  mkTensor (dtype t) shape (data t).

(* ------------------------------------------------------------------ *)
(** * Input validation *)

(** The body of the loop over [dim] of [histogramdd_check_inputs]. *)
Definition check_bins_dim (input : Tensor) (bins : list Tensor) (dim_ : nat)
    (_ : unit) : Res unit :=
  let? dim_bins := vec_at bins dim_ in
  let? _ := TORCH_CHECK (dtype_eqb (dtype input) (dtype dim_bins)) (bins_dtype dim_) in
  let? _ := TORCH_CHECK (dim dim_bins =? 1) (bins_rank dim_) in
  TORCH_CHECK (0 <? numel dim_bins) (bins_numel dim_).

(** The sizes that a weight tensor is compared by: a scalar is [{1}]. *)
Definition weight_sizes_of (w : Tensor) : list Z :=
  match sizes w with
  | [] => [1]
  | _ :: _ => sizes w
  end.

Definition histogramdd_check_inputs (input : Tensor) (bins : list Tensor)
    (weight : option Tensor) : Res unit :=
  let? _ := TORCH_CHECK (2 <=? dim input) input_rank in
  let? N := size_m1 input in
  let? _ := TORCH_CHECK (Z.of_nat (length bins) =? N) bins_count in
  let? _ := for_range 0 (Z.to_nat N) (check_bins_dim input bins) tt in
  match weight with
  | Some w =>
      let? _ := TORCH_CHECK (dtype_eqb (dtype input) (dtype w)) weight_dtype in
      let input_sizes := removelast (sizes input) in
      let weight_sizes := weight_sizes_of w in
      TORCH_CHECK (sizes_eqb input_sizes weight_sizes) weight_shape
  | None => OK tt
  end.

(* ------------------------------------------------------------------ *)
(** * The output store *)

(** The two accumulation kernels behind [DEFINE_DISPATCH]. *)
Inductive stub : Type :=
| histogramdd_stub
| histogramdd_linear_stub (local_search : bool).

(** The arguments of one call of a kernel.  The record is ghost state: it
    lets a theorem speak about what an entry point handed to the kernel. *)
Record KernelCall : Type := mkCall {
  k_stub : stub;
  k_self : Tensor;
  k_weight : option Tensor;
  k_density : bool;
  k_bin_edges : list Tensor
}.

(** The tensors an [_out] entry point receives by reference and mutates.
    For the one-dimensional entry points, whose [bin_edges] is a single
    [Tensor&] viewed as a [TensorList], [bin_edges] holds one tensor. *)
Record Store : Type := mkStore {
  hist : Tensor;
  bin_edges : list Tensor;
  calls : list KernelCall
}.

Definition M (A : Type) : Type := Store -> Res A * Store.

Definition ret {A} (a : A) : M A := fun st => (OK a, st).

Definition bind {A B} (c : M A) (k : A -> M B) : M B :=
  fun st =>
    match c st with
    | (OK a, st') => k a st'
    | (Err e, st') => (Err e, st')
    end.

Notation "x <- c ;; k" := (bind c (fun x => k))
  (at level 61, c at next level, right associativity).
Notation "c ;; k" := (bind c (fun _ => k))
  (at level 61, right associativity).

Definition lift {A} (r : Res A) : M A := fun st => (r, st).

Definition get_hist : M Tensor := fun st => (OK (hist st), st).

Definition set_hist (t : Tensor) : M unit :=
  fun st => (OK tt, mkStore t (bin_edges st) (calls st)).

Definition get_bin_edges : M (list Tensor) := fun st => (OK (bin_edges st), st).

Definition set_bin_edge (i : nat) (t : Tensor) : M unit :=
  fun st => (OK tt, mkStore (hist st) (vec_set (bin_edges st) i t) (calls st)).

Definition log_call (c : KernelCall) : M unit :=
  fun st => (OK tt, mkStore (hist st) (bin_edges st) (calls st ++ [c])).

(** A [for] loop whose body mutates the store. *)
Fixpoint for_rangeM (start count : nat) (body : nat -> M unit) : M unit :=
  match count with
  | O => ret tt
  | S c => body start ;; for_rangeM (S start) c body
  end.

(* ------------------------------------------------------------------ *)
(** * Output preparation *)

(** Modelled from the spec: [at::native::resize_output] of
    ATen/native/Resize.h is not part of the sources at hand.  The spec
    (4.4, 6) describes it as idempotent on a buffer that already has the
    requested shape and as reallocating otherwise, preserving no prior
    contents; the fresh contents are taken to be zeros. *)
Definition resize_output (t : Tensor) (shape : list Z) : Tensor :=
  if sizes_eqb (sizes t) shape then t
  else mkTensor (dtype t) shape
         (repeat 0%float (Z.to_nat (fold_right Z.mul 1 shape))).

(** The body of the loop over [dim] of [histogramdd_prepare_out].  The sum
    [bin_ct[dim] + 1] is taken on [Z]: it is the [int64_t] sum of the
    source for every count below INT64_MAX, which the counts [numel - 1]
    of the overload on [TensorList bins] always are. *)
Definition prepare_out_dim (input : Tensor) (bin_ct : list Z) (dim_ : nat) : M unit :=
  es <- get_bin_edges ;;
  e <- lift (vec_at es dim_) ;;
  lift (TORCH_CHECK (dtype_eqb (dtype input) (dtype e)) (bin_edges_dtype dim_)) ;;
  k <- lift (vec_at bin_ct dim_) ;;
  lift (TORCH_CHECK (0 <? k) (bins_positive dim_)) ;;
  set_bin_edge dim_ (resize_output e [k + 1]).

(** [histogramdd_prepare_out(input, bin_ct, hist, bin_edges)], the
    overload on [std::vector<int64_t>]; [hist] and [bin_edges] are the
    output tensors of the store. *)
Definition histogramdd_prepare_out (input : Tensor) (bin_ct : list Z) : M unit :=
  N <- lift (size_m1 input) ;;
  lift (TORCH_INTERNAL_ASSERT (Z.of_nat (length bin_ct) =? N) prepare_bin_ct_size) ;;
  es <- get_bin_edges ;;
  lift (TORCH_INTERNAL_ASSERT (Z.of_nat (length es) =? N) prepare_bin_edges_size) ;;
  h <- get_hist ;;
  lift (TORCH_CHECK (dtype_eqb (dtype input) (dtype h)) hist_dtype) ;;
  for_rangeM 0 (Z.to_nat N) (prepare_out_dim input bin_ct) ;;
  h <- get_hist ;;
  set_hist (resize_output h bin_ct).

(** The overload on [TensorList bins]: [bin_ct[d] = bins[d].numel() - 1]. *)
Definition histogramdd_prepare_out_bins (input : Tensor) (bins : list Tensor) : M unit :=
  let bin_ct := map (fun t => numel t - 1) bins in
  histogramdd_prepare_out input bin_ct.

(* ------------------------------------------------------------------ *)
(** * Outermost bin edges *)

Local Open Scope float_scope.

(** [std::isfinite], [std::isinf], [std::isnan] *)
Definition isfinite (x : float) : bool := PrimFloat.is_finite x.
Definition isinf (x : float) : bool := PrimFloat.is_infinity x.
Definition isnan (x : float) : bool := PrimFloat.is_nan x.

(** Modelled from the spec: the reductions are missing; the smaller and the
    larger of two elements, a NaN winning over both. *)
Definition min_propagate (a b : float) : float :=
  if isnan a then a else if isnan b then b else if b <? a then b else a.

Definition max_propagate (a b : float) : float :=
  if isnan a then a else if isnan b then b else if a <? b then b else a.

(** The rows of a buffer of [m] rows of [n] elements. *)
Fixpoint rows_of (m n : nat) (d : list float) : list (list float) :=
  match m with
  | O => []
  | S m' => firstn n d :: rows_of m' n (skipn n d)
  end.

(** [f] applied position by position to two rows. *)
Fixpoint zip_with (f : float -> float -> float) (a b : list float) : list float :=
  match a, b with
  | x :: a', y :: b' => f x y :: zip_with f a' b'
  | _, _ => []
  end.

(** Modelled from the spec: [aminmax(input, 0)] is an external reduction
    (spec 6, collaborator 2): the column-wise minimum and maximum over axis
    0 of a 2-D buffer.  It is only called on a buffer with at least one
    element. *)
Definition aminmax_dim0 (input : Tensor) : Res (list float * list float) :=
  let m := Z.to_nat (hd 0%Z (sizes input)) in
  let n := Z.to_nat (last (sizes input) 0%Z) in
  match rows_of m n (data input) with
  | [] => Err EmptyReduction
  | r :: rs =>
      OK (fold_left (zip_with min_propagate) rs r,
          fold_left (zip_with max_propagate) rs r)
  end.

(** Modelled from the spec: [_aminmax(input)] is the external reduction to
    the global minimum and maximum of the data (spec 4.2, histc mode). *)
Definition _aminmax (input : Tensor) : Res (float * float) :=
  match data input with
  | [] => Err EmptyReduction
  | x :: xs => OK (fold_left min_propagate xs x, fold_left max_propagate xs x)
  end.

(** [std::copy(src, src + n, dst.begin())] *)
Definition std_copy (src : list float) (n : nat) (dst : list float) : list float :=
  firstn n src ++ skipn n dst.

(** The tensors of the embedding are contiguous, so the assertion on
    [min] and [max] holds. *)
Definition infer_bin_edges_from_input (input : Tensor) (N : nat)
    (edges : list float * list float) : Res (list float * list float) :=
  let '(leftmost_edges, rightmost_edges) := edges in
  let? (min, max) := aminmax_dim0 input in
  OK (std_copy min N leftmost_edges, std_copy max N rightmost_edges).

(** [AT_DISPATCH_FLOATING_TYPES(type, name, body)] *)
Definition AT_DISPATCH_FLOATING_TYPES {A} (t : ScalarType) (body : Res A) : Res A :=
  match t with
  | Float | Double => body
  | _ => Err NotImplemented
  end.

(** The body of the loop that slices [range] into pairs. *)
Definition slice_range_dim (range : list float) (dim_ : nat)
    (edges : list float * list float) : Res (list float * list float) :=
  let '(leftmost_edges, rightmost_edges) := edges in
  let? lo := vec_at range (2 * dim_) in
  let? hi := vec_at range (2 * dim_ + 1) in
  OK (vec_set leftmost_edges dim_ lo, vec_set rightmost_edges dim_ hi).

(** The body of the loop that validates and expands each pair. *)
Definition validate_expand_dim (dim_ : nat)
    (edges : list float * list float) : Res (list float * list float) :=
  let '(leftmost_edges, rightmost_edges) := edges in
  let? leftmost_edge := vec_at leftmost_edges dim_ in
  let? rightmost_edge := vec_at rightmost_edges dim_ in
  let? _ := TORCH_CHECK (isfinite leftmost_edge && isfinite rightmost_edge)
              (range_not_finite dim_) in
  let? _ := TORCH_CHECK (leftmost_edge <=? rightmost_edge)
              (range_min_exceeds_max dim_) in
  if leftmost_edge =? rightmost_edge then
    OK (vec_set leftmost_edges dim_ (leftmost_edge - 0.5),
        vec_set rightmost_edges dim_ (rightmost_edge + 0.5))
  else OK (leftmost_edges, rightmost_edges).

Definition select_outer_bin_edges (input : Tensor) (range : option (list float))
    : Res (list float * list float) :=
  let? _ := TORCH_INTERNAL_ASSERT (dim input =? 2)%Z select_input_2d in
  let? N := size_m1 input in
  let n := Z.to_nat N in
  let leftmost_edges := repeat 0 n in
  let rightmost_edges := repeat 1 n in
  let? edges :=
    match range with
    | Some r =>
        let? _ := TORCH_CHECK (Z.of_nat (length r) =? 2 * N)%Z range_length in
        for_range 0 n (slice_range_dim r) (leftmost_edges, rightmost_edges)
    | None =>
        if (0 <? numel input)%Z then
          AT_DISPATCH_FLOATING_TYPES (dtype input)
            (infer_bin_edges_from_input input n (leftmost_edges, rightmost_edges))
        else OK (leftmost_edges, rightmost_edges)
    end in
  for_range 0 n validate_expand_dim edges.

(** [min] and [max] are the [Scalar] arguments after [to<double>()]. *)
Definition histc_select_outer_bin_edges (input : Tensor) (min max : float)
    : Res (float * float) :=
  let leftmost_edge := min in
  let rightmost_edge := max in
  let? (leftmost_edge, rightmost_edge) :=
    if leftmost_edge =? rightmost_edge then _aminmax input
    else OK (leftmost_edge, rightmost_edge) in
  let '(leftmost_edge, rightmost_edge) :=
    if leftmost_edge =? rightmost_edge
    then (leftmost_edge - 1, rightmost_edge + 1)
    else (leftmost_edge, rightmost_edge) in
  let? _ := TORCH_CHECK
              (negb (isinf leftmost_edge || isinf rightmost_edge ||
                     isnan leftmost_edge || isnan rightmost_edge))
              histc_not_finite in
  let? _ := TORCH_CHECK (leftmost_edge <? rightmost_edge) histc_max_not_larger in
  OK (leftmost_edge, rightmost_edge).

(* ------------------------------------------------------------------ *)
(** * External collaborators of the entry points *)

Definition float_of_Z (z : Z) : float := PrimFloat.of_uint63 (Uint63.of_Z z).
Definition float_of_nat (n : nat) : float := float_of_Z (Z.of_nat n).

(** Modelled from the spec: [linspace_cpu_out] (RangeFactories.cpp) is an
    external generator (spec 6, collaborator 3) producing [steps] evenly
    spaced values between two bounds, inclusive of both ends, written into
    a caller-provided buffer.  The first half is counted up from [start],
    the second half down from [end_], so that both ends are exact. *)
Definition linspace_values (start end_ : float) (steps : Z) : list float :=
  let n := Z.to_nat steps in
  match n with
  | O => []
  | S O => [start]
  | _ =>
      let step := (end_ - start) / float_of_nat (n - 1) in
      map (fun i : nat =>
             if (i <? Nat.div n 2)%nat then start + step * float_of_nat i
             else end_ - step * float_of_nat (n - 1 - i))
          (seq 0 n)
  end.

(** Modelled from the spec: [linspace_cpu_out] is missing; the generated
    values replace the contents of the caller-provided buffer, which takes
    their length (spec 6, collaborator 3). *)
Definition linspace_cpu_out (start end_ : float) (steps : Z) (out : Tensor) : Tensor :=
  let v := linspace_values start end_ steps in
  mkTensor (dtype out) [Z.of_nat (length v)] v.

(** Modelled from the spec: [Tensor::copy_] between two tensors of the same
    shape writes the elements of the source into the destination (spec 3:
    the edge sequences are copied into the caller-visible buffers). *)
Definition copy_ (dst src : Tensor) : Tensor :=
  mkTensor (dtype dst) (sizes dst) (data src).

(* ------------------------------------------------------------------ *)
(** * The accumulation kernels *)

(** The kernels registered for [histogramdd_stub] and
    [histogramdd_linear_stub] (cpu/HistogramKernel.cpp) are not part of the
    sources at hand.  The definitions of this section follow sections 4.5,
    4.6 and 4.7 of the spec. *)

(** Modelled from the spec: the generic kernel is missing; spec 4.5 asks
    for the bin [i] with [edges[i] <= x < edges[i+1]], the final bin being
    closed on both ends. *)
Fixpoint search_bin (edges : list float) (x : float) (i : nat) : option nat :=
  match edges with
  | lo :: tl =>
      match tl with
      | hi :: rest =>
          let final := match rest with [] => true | _ :: _ => false end in
          if (lo <=? x) && ((x <? hi) || (final && (x =? hi)))
          then Some i
          else search_bin tl x (S i)
      | [] => None
      end
  | [] => None
  end.

(** Modelled from the spec: the generic kernel is missing; spec 4.5 skips
    a coordinate strictly outside [[edges[0], edges[K]]]. *)
Definition strictly_outside (edges : list float) (x : float) : bool :=
  (x <? hd 0 edges) || (last edges 0 <? x).

(** Modelled from the spec: the generic kernel is missing; the bin of a
    coordinate, if it has one (spec 4.5). *)
Definition locate_bin (edges : list float) (x : float) : option nat :=
  if strictly_outside edges x then None else search_bin edges x 0.

(** Modelled from the spec: the linear kernel is missing; the [floor] of
    spec 4.6 on a finite double. *)
Definition floor_to_Z (x : float) : Z :=
  match Prim2SF x with
  | S754_finite s m e => Z.shiftl (if s then Z.neg m else Z.pos m) e
  | _ => 0%Z
  end.

(** Modelled from the spec: the linear kernel is missing; spec 4.6 takes
    [floor((x - low) / bin_width)] clamped into [[0, K-1]], the point being
    dropped when [x] is not in [[low, high]]. *)
Definition locate_bin_linear (edges : list float) (x : float) : option nat :=
  let K := (length edges - 1)%nat in
  let low := hd 0 edges in
  let high := last edges 0 in
  if negb ((low <=? x) && (x <=? high)) then None
  else if (K =? 0)%nat then None
  else
    let bin_width := (high - low) / float_of_nat K in
    let pos := floor_to_Z ((x - low) / bin_width) in
    Some (Z.to_nat (Z.min (Z.max 0 pos) (Z.of_nat K - 1))).

(** Modelled from the spec: the kernels are missing; the per-dimension bin
    indices of a point, if every coordinate has one (spec 4.5). *)
Fixpoint locate_point (locate : list float -> float -> option nat)
    (edges : list (list float)) (xs : list float) : option (list nat) :=
  match edges, xs with
  | [], _ => Some []
  | e :: es, x :: xs' =>
      match locate e x with
      | None => None
      | Some i => option_map (cons i) (locate_point locate es xs')
      end
  | _ :: _, [] => None
  end.

(** Modelled from the spec: the kernels are missing; row-major
    linearisation over [(K_0, ..., K_{N-1})] (spec 4.5). *)
Fixpoint ravel (shape idx : list nat) (acc : nat) : nat :=
  match shape, idx with
  | k :: shape', i :: idx' => ravel shape' idx' (acc * k + i)
  | _, _ => acc
  end.

(** Modelled from the spec: the kernels are missing; the weight of a point
    is added into its cell (spec 4.5). *)
Definition add_at (cells : list float) (i : nat) (w : float) : list float :=
  match nth_error cells i with
  | Some c => vec_set cells i (c + w)
  | None => cells
  end.

(** Modelled from the spec: the kernels are missing; a point without a bin
    in some dimension is dropped, any other adds its weight to its cell
    (spec 4.5). *)
Definition accumulate_point (locate : list float -> float -> option nat)
    (edges : list (list float)) (cells : list float) (point : list float * float)
    : list float :=
  let '(xs, w) := point in
  match locate_point locate edges xs with
  | Some idx => add_at cells (ravel (map (fun e => (length e - 1)%nat) edges) idx 0) w
  | None => cells
  end.

(** Modelled from the spec: the density post-pass is missing; the widths of
    the bins of one dimension (spec 4.7). *)
Definition bin_widths (e : list float) : list float :=
  zip_with (fun hi lo => hi - lo) (tl e) e.

(** Modelled from the spec: the density post-pass is missing; the volumes
    of the cells in row-major order (spec 4.7). *)
Fixpoint cell_volumes (widths : list (list float)) : list float :=
  match widths with
  | [] => [1]
  | w :: ws => flat_map (fun a => map (fun v => a * v) (cell_volumes ws)) w
  end.

(** Modelled from the spec: the density post-pass is missing; every cell is
    divided by the total weight times its volume, and a histogram of total
    weight 0 is left as it is (spec 4.7). *)
Definition normalize (edges : list (list float)) (cells : list float) : list float :=
  let W := fold_left PrimFloat.add cells 0 in
  if W =? 0 then cells
  else zip_with (fun c v => c / (W * v)) cells (cell_volumes (map bin_widths edges)).

(** Modelled from the spec: the kernels are missing; the generic kernel
    searches the edges (4.5), the linear ones compute the bin (4.6), with
    or without the local search the spec does not describe. *)
Definition locate_of (s : stub) : list float -> float -> option nat :=
  match s with
  | histogramdd_stub => locate_bin
  | histogramdd_linear_stub _ => locate_bin_linear
  end.

(** Modelled from the spec: the kernels are missing; the histogram a
    kernel leaves in [hist]: all but the innermost dimension of the input
    are flattened to M points, the cells start from zero, every point is
    accumulated with its weight (1 without a weight tensor), and the
    density post-pass runs when asked for (spec 4.5 to 4.7). *)
Definition histogramdd_kernel (s : stub) (self : Tensor) (weight : option Tensor)
    (density : bool) (hist_ : Tensor) (bin_edges_ : list Tensor) : Tensor :=
  let edges := map data bin_edges_ in
  let N := length bin_edges_ in
  let M_ := Z.to_nat (fold_right Z.mul 1%Z (removelast (sizes self))) in
  let points := rows_of M_ N (data self) in
  let weights := match weight with
                 | Some w => data w
                 | None => repeat 1 M_
                 end in
  let zeros := map (fun _ => 0) (data hist_) in
  let cells := fold_left (accumulate_point (locate_of s) edges) (combine points weights) zeros in
  mkTensor (dtype hist_) (sizes hist_) (if density then normalize edges cells else cells).

(** A call through a dispatch stub: the kernel reads [bin_edges] and fills
    [hist] in place.  Accumulation performs no validation and cannot fail
    (spec 7). *)
Definition call_stub (s : stub) (self : Tensor) (weight : option Tensor)
    (density : bool) : M unit :=
  h <- get_hist ;;
  es <- get_bin_edges ;;
  log_call (mkCall s self weight density es) ;;
  set_hist (histogramdd_kernel s self weight density h es).

(* ------------------------------------------------------------------ *)
(** * Entry points *)

Local Open Scope Z_scope.

(** [allocate_bin_edges_tensors]: N empty tensors with the options of
    [self]. *)
Definition allocate_bin_edges_tensors (self : Tensor) : Res (list Tensor) :=
  let? _ := TORCH_CHECK (2 <=? dim self) input_rank in
  let? N := size_m1 self in
  for_range 0 (Z.to_nat N)
    (fun dim_ bin_edges_out => OK (vec_set bin_edges_out dim_ (empty0 (dtype self))))
    (repeat (mkTensor (dtype self) [] []) (Z.to_nat N)).

(** The body of [for (dim...) bin_edges[dim].copy_(bins[dim])]. *)
Definition copy_bins_dim (bins : list Tensor) (dim_ : nat) : M unit :=
  es <- get_bin_edges ;;
  e <- lift (vec_at es dim_) ;;
  b <- lift (vec_at bins dim_) ;;
  set_bin_edge dim_ (copy_ e b).

(** Versions of histogramdd in which [bins] is a [Tensor[]] defining the
    sequences of bin edges. *)
Definition histogramdd_out_cpu (self : Tensor) (bins : list Tensor)
    (weight : option Tensor) (density : bool) : M unit :=
  lift (histogramdd_check_inputs self bins weight) ;;
  histogramdd_prepare_out_bins self bins ;;
  for_rangeM 0 (length bins) (copy_bins_dim bins) ;;
  call_stub histogramdd_stub self weight density.

(** An entry point that allocates its outputs runs the [_out] version on
    the fresh store and hands the store back. *)
Definition run_fresh (hist0 : Tensor) (bin_edges0 : list Tensor) (c : M unit)
    : Res Store :=
  match c (mkStore hist0 bin_edges0 []) with
  | (OK _, st) => OK st
  | (Err e, _) => Err e
  end.

(** [histogramdd_cpu], the overload on [TensorList bins]. *)
Definition histogramdd_cpu (self : Tensor) (bins : list Tensor)
    (weight : option Tensor) (density : bool) : Res Tensor :=
  let hist0 := empty0 (dtype self) in
  let? bin_edges_out := allocate_bin_edges_tensors self in
  let? st := run_fresh hist0 bin_edges_out (histogramdd_out_cpu self bins weight density) in
  OK (hist st).

(** The body of the loop over [dim] of [histogramdd_bin_edges_out_cpu].
    [bin_ct[dim] + 1] is the [int64_t] sum.  The source reads
    [bin_ct[dim]] without comparing [bin_ct.size()] with N: on fewer than
    N counts it has undefined behaviour, and the embedding stops with
    [IndexError]. *)
Definition linspace_dim (outer_bin_edges : list float * list float)
    (bin_ct : list Z) (dim_ : nat) (bin_edges_out : list Tensor) : Res (list Tensor) :=
  let? lo := vec_at (fst outer_bin_edges) dim_ in
  let? hi := vec_at (snd outer_bin_edges) dim_ in
  let? k := vec_at bin_ct dim_ in
  let? steps := add_int64 k 1 in
  let? out := vec_at bin_edges_out dim_ in
  OK (vec_set bin_edges_out dim_ (linspace_cpu_out lo hi steps out)).

(** Versions of histogramdd in which [bins] is an [int[]] defining the
    number of bins in each dimension. *)
Definition histogramdd_bin_edges_out_cpu (self : Tensor) (bin_ct : list Z)
    (range : option (list float)) (weight : option Tensor) (density : bool)
    (bin_edges_out : list Tensor) : Res (list Tensor) :=
  let? N := size_m1 self in
  let M_ := fold_right Z.mul 1 (removelast (sizes self)) in
  let reshaped_self := reshape self [M_; N] in
  let? outer_bin_edges := select_outer_bin_edges reshaped_self range in
  for_range 0 (Z.to_nat N) (linspace_dim outer_bin_edges bin_ct) bin_edges_out.

(** [histogramdd_bin_edges_cpu] *)
Definition histogramdd_bin_edges_cpu (self : Tensor) (bin_ct : list Z)
    (range : option (list float)) (weight : option Tensor) (density : bool)
    : Res (list Tensor) :=
  let? bin_edges_out := allocate_bin_edges_tensors self in
  histogramdd_bin_edges_out_cpu self bin_ct range weight density bin_edges_out.

(** [histogramdd_out_cpu], the overload on [IntArrayRef bin_ct]. *)
Definition histogramdd_out_cpu_bin_ct (self : Tensor) (bin_ct : list Z)
    (range : option (list float)) (weight : option Tensor) (density : bool) : M unit :=
  bins <- lift (histogramdd_bin_edges_cpu self bin_ct range weight density) ;;
  lift (histogramdd_check_inputs self bins weight) ;;
  histogramdd_prepare_out_bins self bins ;;
  for_rangeM 0 (length bins) (copy_bins_dim bins) ;;
  call_stub (histogramdd_linear_stub true) self weight density.

(** [histogramdd_cpu], the overload on [IntArrayRef bin_ct]. *)
Definition histogramdd_cpu_bin_ct (self : Tensor) (bin_ct : list Z)
    (range : option (list float)) (weight : option Tensor) (density : bool)
    : Res Tensor :=
  let hist0 := empty0 (dtype self) in
  let? bin_edges_out := allocate_bin_edges_tensors self in
  let? st := run_fresh hist0 bin_edges_out
               (histogramdd_out_cpu_bin_ct self bin_ct range weight density) in
  OK (hist st).

(** [weight.has_value() ? weight.value().reshape({numel}) : weight] *)
Definition reshape_weight (weight : option Tensor) : option Tensor :=
  match weight with
  | Some w => Some (reshape w [numel w])
  | None => None
  end.

(** Versions of histogram in which [bins] is a [Tensor] defining the
    sequence of bin edges.  The store holds [hist] and the one-element
    list [bin_edges]. *)
Definition histogram_out_cpu (self bins : Tensor) (weight : option Tensor)
    (density : bool) : M unit :=
  let reshaped_self := reshape self [numel self; 1] in
  let reshaped_weight := reshape_weight weight in
  let bins_in := [bins] in
  histogramdd_out_cpu reshaped_self bins_in reshaped_weight density.

(** The pair [(hist, bin_edges)] an one-dimensional entry point returns. *)
Definition hist_and_edges (st : Store) : Res (Tensor * Tensor) :=
  let? e := vec_at (bin_edges st) 0 in
  OK (hist st, e).

(** [histogram_cpu], the overload on [const Tensor& bins]. *)
Definition histogram_cpu (self bins : Tensor) (weight : option Tensor)
    (density : bool) : Res (Tensor * Tensor) :=
  let hist0 := empty0 (dtype self) in
  let bin_edges0 := empty0 (dtype bins) in
  let? st := run_fresh hist0 [bin_edges0] (histogram_out_cpu self bins weight density) in
  hist_and_edges st.

(** [linspace_cpu_out(lo, hi, steps, bin_edges)] on the single edge tensor
    of the store. *)
Definition linspace_into_bin_edges (lo hi : float) (steps : Z) : M unit :=
  es <- get_bin_edges ;;
  e <- lift (vec_at es 0) ;;
  set_bin_edge 0 (linspace_cpu_out lo hi steps e).

(** Versions of histogram in which [bins] is an integer specifying the
    number of equal-width bins: [histogram_out_cpu], the overload on
    [int64_t bin_ct].  [bins_in] and [bins_out] both alias the output
    tensor [bin_edges].  [bin_ct + 1] is the [int64_t] sum: on the count
    INT64_MAX the call raises. *)
Definition histogram_out_cpu_bin_ct (self : Tensor) (bin_ct : Z)
    (range : option (list float)) (weight : option Tensor) (density : bool) : M unit :=
  let reshaped_self := reshape self [numel self; 1] in
  let reshaped_weight := reshape_weight weight in
  histogramdd_prepare_out reshaped_self [bin_ct] ;;
  outer_bin_edges <- lift (select_outer_bin_edges reshaped_self range) ;;
  lo <- lift (vec_at (fst outer_bin_edges) 0) ;;
  hi <- lift (vec_at (snd outer_bin_edges) 0) ;;
  steps <- lift (add_int64 bin_ct 1) ;;
  linspace_into_bin_edges lo hi steps ;;
  bins_in <- get_bin_edges ;;
  lift (histogramdd_check_inputs reshaped_self bins_in reshaped_weight) ;;
  call_stub (histogramdd_linear_stub true) reshaped_self reshaped_weight density.

(** [histogram_cpu], the overload on [int64_t bin_ct]. *)
Definition histogram_cpu_bin_ct (self : Tensor) (bin_ct : Z)
    (range : option (list float)) (weight : option Tensor) (density : bool)
    : Res (Tensor * Tensor) :=
  let hist0 := empty0 (dtype self) in
  let bin_edges_out := empty0 (dtype self) in
  let? st := run_fresh hist0 [bin_edges_out]
               (histogram_out_cpu_bin_ct self bin_ct range weight density) in
  hist_and_edges st.

(** [Tensor bin_edges = at::empty({0}, options)] as a local of an entry
    point: from here on the [bin_edges] of the store stand for the local. *)
Definition local_bin_edges (t : Tensor) : M unit :=
  fun st => (OK tt, mkStore (hist st) [t] (calls st)).

(** Narrowed interface for the legacy torch.histc function.  The caller
    passes [hist] only; [bin_edges] is a local tensor.  [bin_ct + 1] is the
    [int64_t] sum: on the count INT64_MAX the call raises. *)
Definition histogram_histc_cpu_out (self : Tensor) (bin_ct : Z) (min max : float)
    : M unit :=
  local_bin_edges (empty0 (dtype self)) ;;
  let reshaped := reshape self [numel self; 1] in
  histogramdd_prepare_out reshaped [bin_ct] ;;
  outer_bin_edges <- lift (histc_select_outer_bin_edges self min max) ;;
  steps <- lift (add_int64 bin_ct 1) ;;
  linspace_into_bin_edges (fst outer_bin_edges) (snd outer_bin_edges) steps ;;
  bins_in <- get_bin_edges ;;
  lift (histogramdd_check_inputs reshaped bins_in None) ;;
  call_stub (histogramdd_linear_stub false) reshaped None false.

(** [histogram_histc_cpu]: [hist] is allocated here, [bin_edges] inside
    [histogram_histc_cpu_out]. *)
Definition histogram_histc_cpu (self : Tensor) (bin_ct : Z) (min max : float)
    : Res Tensor :=
  let hist0 := empty0 (dtype self) in
  let? st := run_fresh hist0 [] (histogram_histc_cpu_out self bin_ct min max) in
  OK (hist st).

(* ------------------------------------------------------------------ *)
(** * Definitions used by the statements *)

(** A tensor holds as many elements as its sizes say. *)
Definition wf_tensor (t : Tensor) : Prop :=
  length (data t) = Z.to_nat (numel t) /\ Forall (fun s => 0 <= s) (sizes t).

(** The contract of input validation (spec 4.1). *)
Definition edges_ok (input b : Tensor) : Prop :=
  dtype b = dtype input /\ dim b = 1 /\ 1 <= numel b.

Definition weight_ok (input : Tensor) (weight : option Tensor) : Prop :=
  match weight with
  | None => True
  | Some w =>
      dtype w = dtype input /\ weight_sizes_of w = removelast (sizes input)
  end.

Definition inputs_valid (input : Tensor) (bins : list Tensor)
    (weight : option Tensor) : Prop :=
  2 <= dim input /\
  Z.of_nat (length bins) = last (sizes input) 0 /\
  Forall (edges_ok input) bins /\
  weight_ok input weight.

(** A loop body that rewrites [bin_edges[i]] from its old value. *)
Definition edge_update (f : nat -> Tensor -> Res Tensor) (i : nat) : M unit :=
  fun st =>
    match vec_at (bin_edges st) i with
    | Err e => (Err e, st)
    | OK t =>
        match f i t with
        | Err e => (Err e, st)
        | OK t' => (OK tt, mkStore (hist st) (vec_set (bin_edges st) i t') (calls st))
        end
    end.

(** What a loop of such bodies does to the vector, position by position:
    the outcome, and the vector as the loop leaves it. *)
Fixpoint map_idx {A} (f : nat -> A -> Res A) (i : nat) (ts : list A)
    : Res unit * list A :=
  match ts with
  | [] => (OK tt, [])
  | t :: ts' =>
      match f i t with
      | Err e => (Err e, t :: ts')
      | OK t' => let (r, ts'') := map_idx f (S i) ts' in (r, t' :: ts'')
      end
  end.

(** What [prepare_out_dim] does to [bin_edges[i]]. *)
Definition prepare_edge (input : Tensor) (bin_ct : list Z) (i : nat) (e : Tensor)
    : Res Tensor :=
  let? _ := TORCH_CHECK (dtype_eqb (dtype input) (dtype e)) (bin_edges_dtype i) in
  let? k := vec_at bin_ct i in
  let? _ := TORCH_CHECK (0 <? k) (bins_positive i) in
  OK (resize_output e [k + 1]).

(** What [copy_bins_dim] does to [bin_edges[i]]. *)
Definition copy_edge (bins : list Tensor) (i : nat) (e : Tensor) : Res Tensor :=
  let? b := vec_at bins i in
  OK (copy_ e b).

(** The shapes the spec promises: [hist] has shape [ks] and every
    [bin_edges[d]] has [ks[d] + 1] elements. *)
Definition shaped (st : Store) (ks : list Z) : Prop :=
  sizes (hist st) = ks /\
  Forall2 (fun e k => sizes e = [k + 1]) (bin_edges st) ks.

(** The tail shared by both overloads of [histogramdd_out_cpu]: validate,
    prepare the outputs, copy the edges, accumulate. *)
Definition explicit_edges_tail (s : stub) (self : Tensor) (bins : list Tensor)
    (weight : option Tensor) (density : bool) : M unit :=
  lift (histogramdd_check_inputs self bins weight) ;;
  histogramdd_prepare_out_bins self bins ;;
  for_rangeM 0 (length bins) (copy_bins_dim bins) ;;
  call_stub s self weight density.

(** The outer range as the spec words it (4.2): the consecutive pairs of a
    supplied range, else the column-wise minimum and maximum of a non-empty
    sample set, else (0, 1) for every dimension. *)
Fixpoint pairs_of_range (r : list float) : list (float * float) :=
  match r with
  | a :: b :: r' => (a, b) :: pairs_of_range r'
  | _ => []
  end.

Definition resolve_outer (input : Tensor) (range : option (list float))
    : Res (list (float * float)) :=
  let N := last (sizes input) 0 in
  match range with
  | Some r =>
      if Z.of_nat (length r) =? 2 * N then OK (pairs_of_range r)
      else Err (InvalidArgument range_length)
  | None =>
      if 0 <? numel input then
        match dtype input with
        | Float | Double =>
            let? (mins, maxs) := aminmax_dim0 input in OK (combine mins maxs)
        | _ => Err NotImplemented
        end
      else OK (repeat (0%float, 1%float) (Z.to_nat N))
  end.

(** A resolved pair is valid when both bounds are finite and low <= high. *)
Definition valid_pair (p : float * float) : bool :=
  isfinite (fst p) && isfinite (snd p) && (fst p <=? snd p)%float.

(** A pair with low == high is widened by 0.5 on each side. *)
Definition expand_pair (p : float * float) : float * float :=
  if (fst p =? snd p)%float then ((fst p - 0.5)%float, (snd p + 0.5)%float) else p.

(** What the slicing loop writes at position [i]. *)
Definition slice_pair (r : list float) (i : nat) (_ : float * float)
    : Res (float * float) :=
  let? lo := vec_at r (2 * i) in
  let? hi := vec_at r (2 * i + 1) in
  OK (lo, hi).

(** What the validation loop does to the pair at position [i]. *)
Definition validate_expand_pair (i : nat) (p : float * float) : Res (float * float) :=
  let? _ := TORCH_CHECK (isfinite (fst p) && isfinite (snd p)) (range_not_finite i) in
  let? _ := TORCH_CHECK (fst p <=? snd p)%float (range_min_exceeds_max i) in
  OK (expand_pair p).

(** What the loop of [histogramdd_bin_edges_out_cpu] writes at position [i]. *)
Definition linspace_edge (outer_bin_edges : list float * list float)
    (bin_ct : list Z) (i : nat) (out : Tensor) : Res Tensor :=
  let? lo := vec_at (fst outer_bin_edges) i in
  let? hi := vec_at (snd outer_bin_edges) i in
  let? k := vec_at bin_ct i in
  let? steps := add_int64 k 1 in
  OK (linspace_cpu_out lo hi steps out).



(** The histc policy as the spec words it (4.2): bounds given equal are
    recomputed from the data's global minimum and maximum; bounds still
    equal are widened by 1.0 on each side; a non-finite bound or
    min >= max is rejected; otherwise the bounds are returned. *)
Definition histc_resolved (input : Tensor) (min max : float) : Res (float * float) :=
  if (min =? max)%float then _aminmax input else OK (min, max).

Definition histc_expand (p : float * float) : float * float :=
  if (fst p =? snd p)%float then ((fst p - 1)%float, (snd p + 1)%float) else p.

Definition histc_policy (input : Tensor) (min max : float) : Res (float * float) :=
  let? p := histc_resolved input min max in
  let q := histc_expand p in
  if negb (isfinite (fst q) && isfinite (snd q))
  then Err (InvalidArgument histc_not_finite)
  else if (snd q <=? fst q)%float
       then Err (InvalidArgument histc_max_not_larger)
       else OK q.

(** The edge buffers after [bin_edges[dim].copy_(bins[dim])] for every
    [dim]. *)
Definition zip_copy (es bins : list Tensor) : list Tensor :=
  map (fun p => copy_ (fst p) (snd p)) (combine es bins).

(** The store a kernel call leaves. *)
Definition after_stub (s : stub) (self : Tensor) (weight : option Tensor)
    (density : bool) (st : Store) : Store :=
  mkStore (histogramdd_kernel s self weight density (hist st) (bin_edges st))
    (bin_edges st)
    (calls st ++ [mkCall s self weight density (bin_edges st)]).

(** The steps of the one-dimensional count entry points after the outer
    edges are known: generate the [bin_ct + 1] edges into [bin_edges],
    validate the inputs against them, accumulate. *)
Definition linspace_check_accumulate (s : stub) (reshaped : Tensor)
    (weight : option Tensor) (density : bool) (lo hi : float) (bin_ct : Z) : M unit :=
  steps <- lift (add_int64 bin_ct 1) ;;
  linspace_into_bin_edges lo hi steps ;;
  bins_in <- get_bin_edges ;;
  lift (histogramdd_check_inputs reshaped bins_in weight) ;;
  call_stub s reshaped weight density.

(** The errors raised by [histogramdd_prepare_out]: the checks of the
    output buffers and of the bin counts. *)
Definition from_prepare_out (e : error) : bool :=
  match e with
  | InvalidArgument hist_dtype => true
  | InvalidArgument (bin_edges_dtype _) => true
  | InvalidArgument (bins_positive _) => true
  | InternalAssert prepare_bin_ct_size => true
  | InternalAssert prepare_bin_edges_size => true
  | _ => false
  end.

(** "All validation other than the output-buffer check precedes any
    mutation of hist or bin_edges": a run that fails with an error that
    does not come from output preparation leaves the store as it was. *)
Definition validation_precedes_mutation (run : M unit) : Prop :=
  forall st e st',
    run st = (Err e, st') -> from_prepare_out e = false -> st' = st.

(** The arguments of a kernel call apart from the kernel chosen. *)
Definition call_args (c : KernelCall) : Tensor * option Tensor * bool * list Tensor :=
  (k_self c, k_weight c, k_density c, k_bin_edges c).



(** A tensor without its elements: its dtype and its sizes. *)
Definition without_elements (t : Tensor) : Tensor :=
  mkTensor (dtype t) (sizes t) [].

(** The check of [histogramdd_check_inputs] that an edge tensor which is
    not [edges_ok] fails first: dtype, then rank, then number of
    elements. *)
Definition bins_violation (input b : Tensor) (d : nat) : check_msg :=
  if negb (dtype_eqb (dtype input) (dtype b)) then bins_dtype d
  else if negb (dim b =? 1) then bins_rank d
  else bins_numel d.

(** The outputs of a one-dimensional entry point on a bin count once
    [histogramdd_prepare_out] has run: [hist] has [bin_ct] elements and the
    edge tensor [bin_ct + 1]. *)
Definition prepared (st : Store) (e0 : Tensor) (bin_ct : Z) : Store :=
  mkStore (resize_output (hist st) [bin_ct]) [resize_output e0 [bin_ct + 1]] (calls st).

(** The same outputs once the [bin_ct + 1] edges between [lo] and [hi] have
    been generated into the edge tensor. *)
Definition generated (st : Store) (e0 : Tensor) (bin_ct : Z) (lo hi : float) : Store :=
  mkStore (resize_output (hist st) [bin_ct])
    [linspace_cpu_out lo hi (bin_ct + 1) (resize_output e0 [bin_ct + 1])] (calls st).










(* ------------------------------------------------------------------ *)
(** * Basic facts *)

(** One step of a run in [M]: the bind of a lifted computation, and the
    bind of a read of the store. *)
Ltac step_lift := unfold bind at 1; unfold lift at 1.
Ltac step_get :=
  unfold bind at 1; first [unfold get_bin_edges at 1 | unfold get_hist at 1].


Lemma add_int64_OK (a b s : Z) :
  add_int64 a b = OK s -> s = a + b /\ int64_min <= a + b <= int64_max.
Proof.
  unfold add_int64. cbv zeta.
  destruct ((int64_min <=? a + b) && (a + b <=? int64_max)) eqn:E; [|discriminate].
  intro H. injection H as <-. apply andb_true_iff in E. destruct E as [E1 E2].
  apply Z.leb_le in E1, E2. auto.
Qed.

Lemma add_int64_fits (a b : Z) :
  int64_min <= a + b <= int64_max -> add_int64 a b = OK (a + b).
Proof.
  intros [H1 H2]. unfold add_int64. cbv zeta.
  now rewrite (proj2 (Z.leb_le _ _) H1), (proj2 (Z.leb_le _ _) H2).
Qed.

Lemma add_int64_Err (a b : Z) (e : error) :
  add_int64 a b = Err e ->
  e = Overflow /\ (a + b < int64_min \/ int64_max < a + b).
Proof.
  unfold add_int64. cbv zeta.
  destruct (int64_min <=? a + b) eqn:E1; cbn [andb].
  - destruct (a + b <=? int64_max) eqn:E2; [discriminate|].
    intro H. injection H as <-. apply Z.leb_gt in E2. auto.
  - intro H. injection H as <-. apply Z.leb_gt in E1. auto.
Qed.

(** The successor of a positive count fits unless the count is
    INT64_MAX. *)
Lemma add_int64_succ (k : Z) :
  0 <= k -> k < int64_max -> add_int64 k 1 = OK (k + 1).
Proof.
  intros H1 H2. apply add_int64_fits. unfold int64_min, int64_max in *. lia.
Qed.

(** A run that got past [bin_ct + 1]: the sum is [k + 1] and fits. *)
Ltac sum_fits k Hfit :=
  let steps := fresh "steps" in
  let eo := fresh "eo" in
  let Ea := fresh "Ea" in
  destruct (add_int64 k 1) as [steps|eo] eqn:Ea; try discriminate;
  apply add_int64_OK in Ea; destruct Ea as [-> Hfit].

Lemma dtype_eqb_true (a b : ScalarType) : dtype_eqb a b = true <-> a = b.
Proof.
  unfold dtype_eqb. destruct (ScalarType_eq_dec a b); split; congruence.
Qed.

Lemma sizes_eqb_true (a b : list Z) : sizes_eqb a b = true <-> a = b.
Proof.
  revert b. induction a as [|x a IH]; intros [|y b]; simpl; split; intro H;
    try congruence; try discriminate.
  - apply andb_true_iff in H. destruct H as [H1 H2].
    apply Z.eqb_eq in H1. apply IH in H2. congruence.
  - injection H as -> ->. rewrite Z.eqb_refl. simpl. now apply IH.
Qed.

Lemma vec_at_OK {A} (v : list A) (i : nat) (x : A) :
  vec_at v i = OK x <-> nth_error v i = Some x.
Proof.
  unfold vec_at. destruct (nth_error v i); split; congruence.
Qed.

Lemma vec_at_lt {A} (v : list A) (i : nat) :
  (i < length v)%nat -> exists x, vec_at v i = OK x /\ nth_error v i = Some x.
Proof.
  intro H. unfold vec_at. destruct (nth_error v i) eqn:E.
  - eauto.
  - apply nth_error_None in E. lia.
Qed.

Lemma length_vec_set {A} (v : list A) (i : nat) (x : A) :
  length (vec_set v i x) = length v.
Proof.
  revert i. induction v as [|y v IH]; intros [|i]; simpl; auto.
Qed.

Lemma skipn_nth_error {A} (v : list A) (i : nat) (x : A) :
  nth_error v i = Some x -> skipn i v = x :: skipn (S i) v.
Proof.
  revert i. induction v as [|y v IH]; intros [|i] H; simpl in *; try discriminate.
  - congruence.
  - now apply IH.
Qed.

Lemma firstn_S_nth_error {A} (v : list A) (i : nat) (x : A) :
  nth_error v i = Some x -> firstn (S i) v = firstn i v ++ [x].
Proof.
  revert i. induction v as [|y v IH]; intros [|i] H; simpl in *; try discriminate.
  - congruence.
  - f_equal. now apply IH.
Qed.

Lemma firstn_vec_set {A} (v : list A) (i : nat) (x : A) :
  firstn i (vec_set v i x) = firstn i v.
Proof.
  revert i. induction v as [|y v IH]; intros [|i]; simpl; auto.
  f_equal. apply IH.
Qed.

Lemma skipn_S_vec_set {A} (v : list A) (i : nat) (x : A) :
  skipn (S i) (vec_set v i x) = skipn (S i) v.
Proof.
  revert i. induction v as [|y v IH]; intros [|i]; simpl; auto.
  apply IH.
Qed.

Lemma nth_error_vec_set {A} (v : list A) (i : nat) (x : A) :
  (i < length v)%nat -> nth_error (vec_set v i x) i = Some x.
Proof.
  revert i. induction v as [|y v IH]; intros [|i] H; simpl in *; try lia; auto.
  apply IH. lia.
Qed.

(** The loop over a unit state succeeds exactly when every body does. *)
Lemma for_range_unit_OK (body : nat -> unit -> Res unit) (count start : nat) :
  for_range start count body tt = OK tt <->
  (forall i, (start <= i < start + count)%nat -> body i tt = OK tt).
Proof.
  revert start. induction count as [|c IH]; intro start; simpl.
  - split; auto. intros _ i Hi. lia.
  - split.
    + intros H i Hi. destruct (body start tt) as [[]|e] eqn:E; simpl in H; try discriminate.
      destruct (Nat.eq_dec i start) as [->|Hne]; auto.
      apply (proj1 (IH (S start)) H). lia.
    + intro H. rewrite (H start) by lia. simpl. apply IH. intros i Hi. apply H. lia.
Qed.

Lemma for_range_unit_Err (body : nat -> unit -> Res unit) (count start : nat) (e : error) :
  for_range start count body tt = Err e ->
  exists i, (start <= i < start + count)%nat /\ body i tt = Err e.
Proof.
  revert start. induction count as [|c IH]; intro start; simpl.
  - discriminate.
  - destruct (body start tt) as [[]|e'] eqn:E; simpl.
    + intro H. apply IH in H. destruct H as [i [Hi Hb]]. exists i. split; auto. lia.
    + intro H. injection H as ->. exists start. split; auto. lia.
Qed.

(* ------------------------------------------------------------------ *)
(** * Input validation: proofs *)

Lemma Forall_by_index {A} (P : A -> Prop) (l : list A) :
  Forall P l <->
  (forall i, (i < length l)%nat -> exists b, nth_error l i = Some b /\ P b).
Proof.
  rewrite Forall_forall. split.
  - intros H i Hi. destruct (nth_error l i) as [b|] eqn:E.
    + exists b. split; auto. apply H. eapply nth_error_In; eauto.
    + apply nth_error_None in E. lia.
  - intros H x Hx. apply In_nth_error in Hx. destruct Hx as [i Hi].
    assert (Hlt : (i < length l)%nat) by (apply nth_error_Some; congruence).
    destruct (H i Hlt) as [b [Hb Pb]]. congruence.
Qed.

Lemma check_bins_dim_OK (input : Tensor) (bins : list Tensor) (i : nat) :
  check_bins_dim input bins i tt = OK tt <->
  exists b, nth_error bins i = Some b /\ edges_ok input b.
Proof.
  unfold check_bins_dim, vec_at, edges_ok, TORCH_CHECK.
  destruct (nth_error bins i) as [b|]; simpl.
  - destruct (dtype_eqb (dtype input) (dtype b)) eqn:E1; simpl.
    + apply dtype_eqb_true in E1.
      destruct (dim b =? 1) eqn:E2; simpl.
      * apply Z.eqb_eq in E2.
        destruct (0 <? numel b) eqn:E3; simpl.
        -- apply Z.ltb_lt in E3. split; auto. intros _. exists b. repeat split; auto. lia.
        -- apply Z.ltb_ge in E3. split; try discriminate.
           intros [b' [Hb [_ [_ H]]]]. injection Hb as <-. lia.
      * apply Z.eqb_neq in E2. split; try discriminate.
        intros [b' [Hb [_ [H _]]]]. injection Hb as <-. contradiction.
    + split; try discriminate.
      intros [b' [Hb [H _]]]. injection Hb as <-.
      symmetry in H. apply dtype_eqb_true in H. congruence.
  - split; try discriminate. intros [b [Hb _]]. discriminate.
Qed.

Lemma check_bins_dim_Err (input : Tensor) (bins : list Tensor) (i : nat) (e : error) :
  (i < length bins)%nat ->
  check_bins_dim input bins i tt = Err e -> exists m, e = InvalidArgument m.
Proof.
  intros Hi. unfold check_bins_dim.
  destruct (vec_at_lt bins i Hi) as [b [Hb _]]. rewrite Hb. simpl.
  unfold TORCH_CHECK.
  destruct (dtype_eqb (dtype input) (dtype b)); simpl;
    [destruct (dim b =? 1); simpl; [destruct (0 <? numel b); simpl|]|];
    intro H; try discriminate; injection H as <-; eauto.
Qed.

Lemma dim_ge_2_size_m1 (t : Tensor) :
  2 <= dim t -> size_m1 t = OK (last (sizes t) 0).
Proof.
  unfold dim, size_m1. destruct (sizes t); simpl; auto. lia.
Qed.

Lemma histogramdd_check_inputs_OK (input : Tensor) (bins : list Tensor)
    (weight : option Tensor) :
  histogramdd_check_inputs input bins weight = OK tt <-> inputs_valid input bins weight.
Proof.
  unfold histogramdd_check_inputs, inputs_valid.
  unfold TORCH_CHECK at 1.
  destruct (2 <=? dim input) eqn:E1; simpl.
  2:{ apply Z.leb_gt in E1. split; try discriminate. intros [H _]. lia. }
  apply Z.leb_le in E1. rewrite (dim_ge_2_size_m1 _ E1). simpl.
  unfold TORCH_CHECK at 1.
  destruct (Z.of_nat (length bins) =? last (sizes input) 0) eqn:E2; simpl.
  2:{ apply Z.eqb_neq in E2. split; try discriminate. intros [_ [H _]]. contradiction. }
  apply Z.eqb_eq in E2.
  assert (Hn : Z.to_nat (last (sizes input) 0) = length bins) by lia.
  rewrite Hn.
  destruct (for_range 0 (length bins) (check_bins_dim input bins) tt) as [[]|e] eqn:E3; simpl.
  - assert (HF : Forall (edges_ok input) bins).
    { apply Forall_by_index. intros i Hi. apply check_bins_dim_OK.
      apply (proj1 (for_range_unit_OK _ _ _) E3). lia. }
    destruct weight as [w|]; simpl.
    + unfold TORCH_CHECK.
      destruct (dtype_eqb (dtype input) (dtype w)) eqn:E4; simpl.
      * apply dtype_eqb_true in E4.
        destruct (sizes_eqb (removelast (sizes input)) (weight_sizes_of w)) eqn:E5.
        -- apply sizes_eqb_true in E5. split; auto; intros _; repeat split; auto.
        -- split; try discriminate. intros [_ [_ [_ [_ H]]]].
           symmetry in H. apply sizes_eqb_true in H. congruence.
      * split; try discriminate. intros [_ [_ [_ [H _]]]].
        symmetry in H. apply dtype_eqb_true in H. congruence.
    + split; auto; intros _; repeat split; auto.
  - split; try discriminate. intros [_ [_ [HF _]]].
    assert (H : for_range 0 (length bins) (check_bins_dim input bins) tt = OK tt).
    { apply for_range_unit_OK. intros i Hi. apply check_bins_dim_OK.
      apply (proj1 (Forall_by_index _ _) HF). lia. }
    congruence.
Qed.

Lemma histogramdd_check_inputs_Err (input : Tensor) (bins : list Tensor)
    (weight : option Tensor) (e : error) :
  histogramdd_check_inputs input bins weight = Err e -> exists m, e = InvalidArgument m.
Proof.
  unfold histogramdd_check_inputs.
  unfold TORCH_CHECK at 1.
  destruct (2 <=? dim input) eqn:E1; simpl.
  2:{ intro H. injection H as <-. eauto. }
  apply Z.leb_le in E1. rewrite (dim_ge_2_size_m1 _ E1). simpl.
  unfold TORCH_CHECK at 1.
  destruct (Z.of_nat (length bins) =? last (sizes input) 0) eqn:E2; simpl.
  2:{ intro H. injection H as <-. eauto. }
  apply Z.eqb_eq in E2.
  assert (Hn : Z.to_nat (last (sizes input) 0) = length bins) by lia.
  rewrite Hn.
  destruct (for_range 0 (length bins) (check_bins_dim input bins) tt) as [[]|e'] eqn:E3; simpl.
  - destruct weight as [w|]; simpl; try discriminate.
    unfold TORCH_CHECK.
    destruct (dtype_eqb (dtype input) (dtype w)); simpl;
      [destruct (sizes_eqb _ _)|]; intro H; try discriminate; injection H as <-; eauto.
  - intro H. injection H as <-.
    apply for_range_unit_Err in E3. destruct E3 as [i [Hi Hb]].
    eapply check_bins_dim_Err; eauto. lia.
Qed.


(* ------------------------------------------------------------------ *)
(** * Loops that rewrite a vector position by position *)

Lemma store_eta (st : Store) : mkStore (hist st) (bin_edges st) (calls st) = st.
Proof. now destruct st. Qed.

Section Pointwise.

(** A loop whose body rewrites position [i] of a vector from its old value
    by [f i]. *)
Context {A : Type} (f : nat -> A -> Res A).

(** A successful pass has rewritten every position. *)
Lemma map_idx_OK (ts ts' : list A) (i : nat) (u : unit) :
  map_idx f i ts = (OK u, ts') ->
  length ts' = length ts /\
  forall j t, nth_error ts j = Some t ->
    exists t', f (i + j)%nat t = OK t' /\ nth_error ts' j = Some t'.
Proof.
  revert i ts'. induction ts as [|t ts IH]; intros i ts' H; simpl in H.
  - injection H as _ <-. split; auto. intros [|j] t Hj; discriminate.
  - destruct (f i t) as [t1|e] eqn:E; try discriminate.
    destruct (map_idx f (S i) ts) as [r ts1] eqn:E1.
    injection H as -> <-. destruct (IH _ _ E1) as [Hl Hn]. split.
    + simpl. now rewrite Hl.
    + intros [|j] t0 Hj; simpl in *.
      * injection Hj as <-. exists t1. rewrite Nat.add_0_r. auto.
      * destruct (Hn j t0 Hj) as [t' [H1 H2]]. exists t'.
        replace (i + S j)%nat with (S i + j)%nat by lia. auto.
Qed.

(** A pass stops at the first position whose rewriting fails; the
    positions before it are rewritten, the others are left as they were. *)
Lemma map_idx_Err (ts ts' : list A) (i : nat) (e : error) :
  map_idx f i ts = (Err e, ts') ->
  exists j t, nth_error ts j = Some t /\ f (i + j)%nat t = Err e /\
    length ts' = length ts /\
    (forall j' t0, (j' < j)%nat -> nth_error ts j' = Some t0 ->
       exists t', f (i + j')%nat t0 = OK t' /\ nth_error ts' j' = Some t') /\
    (forall j', (j <= j')%nat -> nth_error ts' j' = nth_error ts j').
Proof.
  revert i ts'. induction ts as [|t ts IH]; intros i ts' H; simpl in H.
  - discriminate.
  - destruct (f i t) as [t1|e1] eqn:E.
    + destruct (map_idx f (S i) ts) as [r ts1] eqn:E1.
      injection H as -> <-. destruct (IH _ _ E1) as [j [t0 [H1 [H2 [H3 [H4 H5]]]]]].
      exists (S j), t0. simpl. repeat split; auto.
      * replace (i + S j)%nat with (S i + j)%nat by lia. auto.
      * intros [|j'] t2 Hlt Hj'; simpl in *.
        -- injection Hj' as <-. exists t1. rewrite Nat.add_0_r. auto.
        -- destruct (H4 j' t2 ltac:(lia) Hj') as [t' [Ha Hb]]. exists t'.
           replace (i + S j')%nat with (S i + j')%nat by lia. auto.
      * intros [|j'] Hle; try lia. simpl. apply H5. lia.
    + injection H as <- <-. exists O, t. simpl. rewrite Nat.add_0_r.
      repeat split; auto. intros j' t0 Hlt. lia.
Qed.

(** A pass fails with the error of the first position that cannot be
    rewritten. *)
Lemma map_idx_first_Err (ts : list A) (i d : nat)
    (t : A) (e : error) :
  nth_error ts d = Some t -> f (i + d)%nat t = Err e ->
  (forall j t0, (j < d)%nat -> nth_error ts j = Some t0 ->
     exists t', f (i + j)%nat t0 = OK t') ->
  fst (map_idx f i ts) = Err e.
Proof.
  revert i d. induction ts as [|t0 ts IH]; intros i [|d] Hn Hf Hbefore;
    simpl in Hn; try discriminate.
  - injection Hn as ->. rewrite Nat.add_0_r in Hf. cbn [map_idx]. now rewrite Hf.
  - cbn [map_idx].
    destruct (Hbefore O t0 ltac:(lia) eq_refl) as [t' Ht']. rewrite Nat.add_0_r in Ht'.
    rewrite Ht'.
    assert (H : fst (map_idx f (S i) ts) = Err e).
    { apply (IH (S i) d); auto.
      - now replace (S i + d)%nat with (i + S d)%nat by lia.
      - intros j t1 Hj Ht1. replace (S i + j)%nat with (i + S j)%nat by lia.
        apply Hbefore; [lia|exact Ht1]. }
    destruct (map_idx f (S i) ts). exact H.
Qed.

Lemma for_range_pointwise
    (body : nat -> list A -> Res (list A)) :
  (forall i v x, nth_error v i = Some x ->
     body i v = let? y := f i x in OK (vec_set v i y)) ->
  forall (count start : nat) (v : list A),
    length v = (start + count)%nat ->
    for_range start count body v =
    match map_idx f start (skipn start v) with
    | (OK _, ys) => OK (firstn start v ++ ys)
    | (Err e, _) => Err e
    end.
Proof.
  intros Hbody. induction count as [|c IH]; intros start v Hlen; simpl.
  - rewrite skipn_all2 by lia. simpl. rewrite firstn_all2 by lia. now rewrite app_nil_r.
  - destruct (vec_at_lt v start ltac:(lia)) as [t [_ Hn]].
    rewrite (Hbody _ _ _ Hn). rewrite (skipn_nth_error _ _ _ Hn). cbn [map_idx].
    destruct (f start t) as [t'|e] eqn:E; cbn [bindR]; auto.
    rewrite IH by (rewrite length_vec_set; lia).
    rewrite skipn_S_vec_set.
    rewrite (firstn_S_nth_error _ _ t') by (apply nth_error_vec_set; lia).
    rewrite firstn_vec_set.
    destruct (map_idx f (S start) (skipn (S start) v)) as [[u|e] ts]; auto.
    now rewrite <- app_assoc.
Qed.

End Pointwise.

Lemma for_rangeM_edge_update (f : nat -> Tensor -> Res Tensor) (body : nat -> M unit) :
  (forall i st, body i st = edge_update f i st) ->
  forall (count start : nat) (st : Store),
    length (bin_edges st) = (start + count)%nat ->
    for_rangeM start count body st =
    (fst (map_idx f start (skipn start (bin_edges st))),
     mkStore (hist st)
       (firstn start (bin_edges st) ++ snd (map_idx f start (skipn start (bin_edges st))))
       (calls st)).
Proof.
  intros Hbody. induction count as [|c IH]; intros start st Hlen; simpl.
  - rewrite skipn_all2 by lia. simpl. rewrite firstn_all2 by lia.
    rewrite app_nil_r. unfold ret. now rewrite store_eta.
  - unfold bind. rewrite Hbody. unfold edge_update.
    destruct (vec_at_lt (bin_edges st) start ltac:(lia)) as [t [Ht Hn]]. rewrite Ht.
    rewrite (skipn_nth_error _ _ _ Hn). cbn [map_idx].
    destruct (f start t) as [t'|e] eqn:E; cbn [fst snd].
    + rewrite IH by (simpl; rewrite length_vec_set; lia).
      cbn [bin_edges hist calls].
      rewrite skipn_S_vec_set.
      rewrite (firstn_S_nth_error _ _ t') by (apply nth_error_vec_set; lia).
      rewrite firstn_vec_set.
      destruct (map_idx f (S start) (skipn (S start) (bin_edges st))) as [r ts].
      cbn [fst snd]. now rewrite <- app_assoc.
    + rewrite <- (skipn_nth_error _ _ _ Hn). rewrite firstn_skipn. now rewrite store_eta.
Qed.

Lemma nth_error_combine {A B} (l : list A) (r : list B) (i : nat) (a : A) (b : B) :
  nth_error l i = Some a -> nth_error r i = Some b ->
  nth_error (combine l r) i = Some (a, b).
Proof.
  revert r i. induction l as [|x l IH]; intros [|y r] [|i] Ha Hb; simpl in *;
    try discriminate; try congruence.
  now apply IH.
Qed.

Lemma combine_vec_set {A B} (l : list A) (r : list B) (i : nat) (a : A) (b : B) :
  combine (vec_set l i a) (vec_set r i b) = vec_set (combine l r) i (a, b).
Proof.
  revert r i. induction l as [|x l IH]; intros [|y r] [|i]; simpl; auto.
  f_equal. apply IH.
Qed.

Lemma map_fst_combine {A B} (l : list A) (r : list B) :
  length l = length r -> map fst (combine l r) = l.
Proof.
  revert r. induction l as [|x l IH]; intros [|y r] H; simpl in *; try discriminate; auto.
  f_equal. apply IH. lia.
Qed.

Lemma map_snd_combine {A B} (l : list A) (r : list B) :
  length l = length r -> map snd (combine l r) = r.
Proof.
  revert r. induction l as [|x l IH]; intros [|y r] H; simpl in *; try discriminate; auto.
  f_equal. apply IH. lia.
Qed.

(** The same for a loop over two vectors of the same length. *)
Lemma for_range_pointwise2 {A B} (f : nat -> A * B -> Res (A * B))
    (body : nat -> list A * list B -> Res (list A * list B)) :
  (forall i l r a b, nth_error l i = Some a -> nth_error r i = Some b ->
     body i (l, r) = let? y := f i (a, b) in OK (vec_set l i (fst y), vec_set r i (snd y))) ->
  forall (count start : nat) (l : list A) (r : list B),
    length l = (start + count)%nat -> length r = (start + count)%nat ->
    for_range start count body (l, r) =
    match map_idx f start (skipn start (combine l r)) with
    | (OK _, ps) => OK (firstn start l ++ map fst ps, firstn start r ++ map snd ps)
    | (Err e, _) => Err e
    end.
Proof.
  intros Hbody. induction count as [|c IH]; intros start l r Hl Hr; simpl.
  - rewrite skipn_all2 by (rewrite length_combine; lia). simpl.
    rewrite !firstn_all2 by lia. now rewrite !app_nil_r.
  - destruct (vec_at_lt l start ltac:(lia)) as [a [_ Ha]].
    destruct (vec_at_lt r start ltac:(lia)) as [b [_ Hb]].
    rewrite (Hbody _ _ _ _ _ Ha Hb).
    rewrite (skipn_nth_error _ _ _ (nth_error_combine _ _ _ _ _ Ha Hb)). cbn [map_idx].
    destruct (f start (a, b)) as [[a' b']|e] eqn:E; cbn [bindR fst snd]; auto.
    rewrite IH by (rewrite length_vec_set; lia).
    rewrite combine_vec_set, skipn_S_vec_set.
    rewrite (firstn_S_nth_error _ _ a') by (apply nth_error_vec_set; lia).
    rewrite (firstn_S_nth_error _ _ b') by (apply nth_error_vec_set; lia).
    rewrite !firstn_vec_set.
    destruct (map_idx f (S start) (skipn (S start) (combine l r))) as [[u|e] ts]; auto.
    simpl. now rewrite <- !app_assoc.
Qed.

(* ------------------------------------------------------------------ *)
(** * Output preparation: proofs *)

Lemma prepare_out_dim_eq (input : Tensor) (bin_ct : list Z) (i : nat) (st : Store) :
  prepare_out_dim input bin_ct i st = edge_update (prepare_edge input bin_ct) i st.
Proof.
  unfold prepare_out_dim, edge_update, prepare_edge, bind, get_bin_edges, lift,
    set_bin_edge, TORCH_CHECK.
  destruct (vec_at (bin_edges st) i) as [e|]; cbn [bindR]; auto.
  destruct (dtype_eqb (dtype input) (dtype e)); cbn [bindR]; auto.
  destruct (vec_at bin_ct i) as [k|]; cbn [bindR]; auto.
  destruct (0 <? k); cbn [bindR]; auto.
Qed.

Lemma copy_bins_dim_eq (bins : list Tensor) (i : nat) (st : Store) :
  copy_bins_dim bins i st = edge_update (copy_edge bins) i st.
Proof.
  unfold copy_bins_dim, edge_update, copy_edge, bind, get_bin_edges, lift, set_bin_edge.
  destruct (vec_at (bin_edges st) i) as [e|]; cbn [bindR]; auto.
  destruct (vec_at bins i) as [b|]; cbn [bindR]; auto.
Qed.

(** What [histogramdd_prepare_out] returns and the store it leaves. *)
Lemma histogramdd_prepare_out_eq (input : Tensor) (bin_ct : list Z) (st : Store) :
  histogramdd_prepare_out input bin_ct st =
  match size_m1 input with
  | Err e => (Err e, st)
  | OK N =>
      if negb (Z.of_nat (length bin_ct) =? N)
      then (Err (InternalAssert prepare_bin_ct_size), st)
      else if negb (Z.of_nat (length (bin_edges st)) =? N)
      then (Err (InternalAssert prepare_bin_edges_size), st)
      else if negb (dtype_eqb (dtype input) (dtype (hist st)))
      then (Err (InvalidArgument hist_dtype), st)
      else
        match map_idx (prepare_edge input bin_ct) 0 (bin_edges st) with
        | (OK _, es) => (OK tt, mkStore (resize_output (hist st) bin_ct) es (calls st))
        | (Err e, es) => (Err e, mkStore (hist st) es (calls st))
        end
  end.
Proof.
  unfold histogramdd_prepare_out. step_lift.
  destruct (size_m1 input) as [N|e]; auto.
  step_lift. unfold TORCH_INTERNAL_ASSERT at 1.
  destruct (Z.of_nat (length bin_ct) =? N) eqn:E1; cbn [negb]; auto.
  step_get. step_lift. unfold TORCH_INTERNAL_ASSERT at 1.
  destruct (Z.of_nat (length (bin_edges st)) =? N) eqn:E2; cbn [negb]; auto.
  step_get. step_lift. unfold TORCH_CHECK at 1.
  destruct (dtype_eqb (dtype input) (dtype (hist st))); cbn [negb]; auto.
  unfold bind at 1. apply Z.eqb_eq in E2.
  rewrite (for_rangeM_edge_update (prepare_edge input bin_ct))
    by (try apply prepare_out_dim_eq; simpl; lia).
  cbn [skipn firstn app].
  destruct (map_idx (prepare_edge input bin_ct) 0 (bin_edges st)) as [[[]|e] es];
    cbn [fst snd]; auto.
Qed.

(** The same when the two internal assertions hold. *)
Lemma histogramdd_prepare_out_run (input : Tensor) (bin_ct : list Z) (st : Store) (N : Z) :
  size_m1 input = OK N ->
  Z.of_nat (length bin_ct) = N ->
  Z.of_nat (length (bin_edges st)) = N ->
  histogramdd_prepare_out input bin_ct st =
  if dtype_eqb (dtype input) (dtype (hist st)) then
    match map_idx (prepare_edge input bin_ct) 0 (bin_edges st) with
    | (OK _, es) => (OK tt, mkStore (resize_output (hist st) bin_ct) es (calls st))
    | (Err e, es) => (Err e, mkStore (hist st) es (calls st))
    end
  else (Err (InvalidArgument hist_dtype), st).
Proof.
  intros HN Hct Hes. rewrite histogramdd_prepare_out_eq, HN.
  rewrite (proj2 (Z.eqb_eq _ _) Hct), (proj2 (Z.eqb_eq _ _) Hes). cbn [negb].
  destruct (dtype_eqb (dtype input) (dtype (hist st))); reflexivity.
Qed.

Lemma sizes_resize_output (t : Tensor) (shape : list Z) :
  sizes (resize_output t shape) = shape.
Proof.
  unfold resize_output. destruct (sizes_eqb (sizes t) shape) eqn:E; auto.
  now apply sizes_eqb_true.
Qed.

Lemma dtype_resize_output (t : Tensor) (shape : list Z) :
  dtype (resize_output t shape) = dtype t.
Proof.
  unfold resize_output. destruct (sizes_eqb (sizes t) shape); auto.
Qed.

Lemma prepare_edge_OK (input : Tensor) (bin_ct : list Z) (i : nat) (e e' : Tensor) :
  prepare_edge input bin_ct i e = OK e' ->
  dtype e = dtype input /\
  exists k, nth_error bin_ct i = Some k /\ 0 < k /\ e' = resize_output e [k + 1].
Proof.
  unfold prepare_edge, TORCH_CHECK, vec_at.
  destruct (dtype_eqb (dtype input) (dtype e)) eqn:E1; cbn [bindR]; try discriminate.
  destruct (nth_error bin_ct i) as [k|]; cbn [bindR]; try discriminate.
  destruct (0 <? k) eqn:E2; cbn [bindR]; try discriminate.
  intro H. injection H as <-. apply dtype_eqb_true in E1. apply Z.ltb_lt in E2.
  split; auto. exists k. auto.
Qed.

Lemma prepare_edge_Err (input : Tensor) (bin_ct : list Z) (i : nat) (e : Tensor) (err : error) :
  (i < length bin_ct)%nat ->
  prepare_edge input bin_ct i e = Err err ->
  err = InvalidArgument (bin_edges_dtype i) /\ dtype e <> dtype input \/
  err = InvalidArgument (bins_positive i) /\ dtype e = dtype input /\
    exists k, nth_error bin_ct i = Some k /\ k <= 0.
Proof.
  intro Hi. unfold prepare_edge, TORCH_CHECK.
  destruct (dtype_eqb (dtype input) (dtype e)) eqn:E1; cbn [bindR].
  - destruct (vec_at_lt bin_ct i Hi) as [k [Hk Hn]]. rewrite Hk. cbn [bindR].
    destruct (0 <? k) eqn:E2; cbn [bindR]; try discriminate.
    intro H. injection H as <-. right. apply dtype_eqb_true in E1. apply Z.ltb_ge in E2.
    repeat split; auto. exists k. auto.
  - intro H. injection H as <-. left. split; auto.
    intro Hd. symmetry in Hd. apply dtype_eqb_true in Hd. congruence.
Qed.

Lemma Forall2_by_index {A B} (P : A -> B -> Prop) (l : list A) (r : list B) :
  length l = length r ->
  (forall i a b, nth_error l i = Some a -> nth_error r i = Some b -> P a b) ->
  Forall2 P l r.
Proof.
  revert r. induction l as [|x l IH]; intros [|y r] Hlen H; simpl in *; try discriminate.
  - constructor.
  - constructor.
    + apply (H O); reflexivity.
    + apply IH; [lia|]. intros i a b Ha Hb. apply (H (S i)); auto.
Qed.

Lemma prepare_out_shaped (input : Tensor) (bin_ct : list Z) (st st' : Store) (N : Z) :
  size_m1 input = OK N ->
  Z.of_nat (length bin_ct) = N ->
  Z.of_nat (length (bin_edges st)) = N ->
  histogramdd_prepare_out input bin_ct st = (OK tt, st') ->
  shaped st' bin_ct /\ calls st' = calls st /\
  dtype (hist st') = dtype input /\
  Forall (fun e => dtype e = dtype input) (bin_edges st') /\
  Forall (fun k => 0 < k) bin_ct.
Proof.
  intros HN Hct Hes. rewrite (histogramdd_prepare_out_run _ _ _ _ HN Hct Hes).
  destruct (dtype_eqb (dtype input) (dtype (hist st))) eqn:Eh; try discriminate.
  apply dtype_eqb_true in Eh.
  destruct (map_idx (prepare_edge input bin_ct) 0 (bin_edges st)) as [[[]|e] es] eqn:E;
    try discriminate.
  intro H. injection H as <-. destruct (map_idx_OK _ _ _ _ _ E) as [Hl Hn].
  unfold shaped. cbn [hist bin_edges calls].
  rewrite dtype_resize_output, sizes_resize_output.
  assert (Hlen : length es = length bin_ct) by lia.
  repeat split; auto.
  - apply Forall2_by_index; auto. intros i a k Ha Hk.
    destruct (nth_error (bin_edges st) i) as [t|] eqn:Et.
    2:{ apply nth_error_None in Et. assert (i < length es)%nat by (apply nth_error_Some; congruence). lia. }
    destruct (Hn _ _ Et) as [t' [Hf Ht']]. simpl in Hf.
    apply prepare_edge_OK in Hf. destruct Hf as [_ [k' [Hk' [_ ->]]]].
    assert (a = resize_output t [k' + 1]) by congruence. subst a.
    rewrite sizes_resize_output. congruence.
  - apply Forall_by_index. intros i Hi.
    destruct (nth_error es i) as [a|] eqn:Ea.
    2:{ apply nth_error_None in Ea. lia. }
    exists a. split; auto.
    destruct (nth_error (bin_edges st) i) as [t|] eqn:Et.
    2:{ apply nth_error_None in Et. lia. }
    destruct (Hn _ _ Et) as [t' [Hf Ht']]. simpl in Hf.
    apply prepare_edge_OK in Hf. destruct Hf as [Hd [k' [Hk' [_ ->]]]].
    assert (a = resize_output t [k' + 1]) by congruence. subst a.
    now rewrite dtype_resize_output.
  - apply Forall_by_index. intros i Hi.
    destruct (nth_error bin_ct i) as [k|] eqn:Ek.
    2:{ apply nth_error_None in Ek. lia. }
    exists k. split; auto.
    destruct (nth_error (bin_edges st) i) as [t|] eqn:Et.
    2:{ apply nth_error_None in Et. lia. }
    destruct (Hn _ _ Et) as [t' [Hf Ht']]. simpl in Hf.
    apply prepare_edge_OK in Hf. destruct Hf as [Hd [k' [Hk' [Hpos ->]]]].
    congruence.
Qed.

(** When a bin count is not positive or an output buffer has another dtype
    than the input, preparation fails on a [TORCH_CHECK]. *)
Lemma prepare_out_rejects (input : Tensor) (bin_ct : list Z) (st : Store) (N : Z) :
  size_m1 input = OK N ->
  Z.of_nat (length bin_ct) = N ->
  Z.of_nat (length (bin_edges st)) = N ->
  Exists (fun k => k <= 0) bin_ct \/
  dtype (hist st) <> dtype input \/
  Exists (fun e => dtype e <> dtype input) (bin_edges st) ->
  exists m st', histogramdd_prepare_out input bin_ct st = (Err (InvalidArgument m), st').
Proof.
  intros HN Hct Hes Hbad. rewrite (histogramdd_prepare_out_run _ _ _ _ HN Hct Hes).
  destruct (dtype_eqb (dtype input) (dtype (hist st))) eqn:Eh; [|eauto].
  apply dtype_eqb_true in Eh.
  destruct (map_idx (prepare_edge input bin_ct) 0 (bin_edges st)) as [[[]|e] es] eqn:E.
  - exfalso. destruct (map_idx_OK _ _ _ _ _ E) as [Hl Hn].
    destruct Hbad as [Hbad|[Hbad|Hbad]].
    + apply Exists_exists in Hbad. destruct Hbad as [k [Hin Hk]].
      apply In_nth_error in Hin. destruct Hin as [i Hi].
      assert (Hlt : (i < length bin_ct)%nat) by (apply nth_error_Some; congruence).
      destruct (nth_error (bin_edges st) i) as [t|] eqn:Et.
      2:{ apply nth_error_None in Et. lia. }
      destruct (Hn _ _ Et) as [t' [Hf _]]. simpl in Hf.
      apply prepare_edge_OK in Hf. destruct Hf as [_ [k' [Hk' [Hpos _]]]].
      assert (k = k') by congruence. lia.
    + congruence.
    + apply Exists_exists in Hbad. destruct Hbad as [t [Hin Ht]].
      apply In_nth_error in Hin. destruct Hin as [i Hi].
      destruct (Hn _ _ Hi) as [t' [Hf _]]. simpl in Hf.
      apply prepare_edge_OK in Hf. tauto.
  - destruct (map_idx_Err _ _ _ _ _ E) as [j [t [Hj [Hf _]]]]. simpl in Hf.
    assert (Hlt : (j < length bin_ct)%nat).
    { assert (j < length (bin_edges st))%nat by (apply nth_error_Some; congruence). lia. }
    destruct (prepare_edge_Err _ _ _ _ _ Hlt Hf) as [[-> _]|[-> _]]; eauto.
Qed.

(* ------------------------------------------------------------------ *)
(** * Outermost bin edges: proofs *)

Lemma vec_set_same {A} (v : list A) (i : nat) (x : A) :
  nth_error v i = Some x -> vec_set v i x = v.
Proof.
  revert i. induction v as [|y v IH]; intros [|i] H; simpl in *; try discriminate; auto.
  - congruence.
  - f_equal. now apply IH.
Qed.

Lemma validate_expand_dim_eq (i : nat) (l r : list float) (a b : float) :
  nth_error l i = Some a -> nth_error r i = Some b ->
  validate_expand_dim i (l, r) =
  let? y := validate_expand_pair i (a, b) in OK (vec_set l i (fst y), vec_set r i (snd y)).
Proof.
  intros Ha Hb. unfold validate_expand_dim, validate_expand_pair, expand_pair.
  rewrite (proj2 (vec_at_OK _ _ _) Ha), (proj2 (vec_at_OK _ _ _) Hb).
  cbn [bindR fst snd]. unfold TORCH_CHECK.
  destruct (isfinite a && isfinite b); cbn [bindR]; auto.
  destruct (a <=? b)%float; cbn [bindR]; auto.
  destruct (a =? b)%float; cbn [fst snd]; auto.
  now rewrite (vec_set_same _ _ _ Ha), (vec_set_same _ _ _ Hb).
Qed.

Lemma slice_range_dim_eq (rg : list float) (i : nat) (l r : list float) (a b : float) :
  slice_range_dim rg i (l, r) =
  let? y := slice_pair rg i (a, b) in OK (vec_set l i (fst y), vec_set r i (snd y)).
Proof.
  unfold slice_range_dim, slice_pair.
  destruct (vec_at rg (2 * i)); cbn [bindR]; auto.
  destruct (vec_at rg (2 * i + 1)); cbn [bindR]; auto.
Qed.

Lemma validate_expand_pair_cases (i : nat) (p : float * float) :
  (valid_pair p = true -> validate_expand_pair i p = OK (expand_pair p)) /\
  (valid_pair p = false -> exists m, validate_expand_pair i p = Err (InvalidArgument m)).
Proof.
  unfold validate_expand_pair, valid_pair, TORCH_CHECK.
  destruct (isfinite (fst p) && isfinite (snd p)); cbn [bindR andb].
  - destruct (fst p <=? snd p)%float; cbn [bindR]; split; try discriminate; eauto.
  - split; try discriminate; eauto.
Qed.

Lemma map_idx_validate (ps : list (float * float)) (i : nat) :
  (forallb valid_pair ps = true ->
   map_idx validate_expand_pair i ps = (OK tt, map expand_pair ps)) /\
  (forallb valid_pair ps = false ->
   exists m ps', map_idx validate_expand_pair i ps = (Err (InvalidArgument m), ps')).
Proof.
  revert i. induction ps as [|p ps IH]; intro i; cbn [map_idx forallb map].
  - split; auto. discriminate.
  - destruct (validate_expand_pair_cases i p) as [Hv1 Hv2].
    destruct (valid_pair p); cbn [andb].
    + rewrite (Hv1 eq_refl). destruct (IH (S i)) as [H1 H2]. split; intro H.
      * now rewrite (H1 H).
      * destruct (H2 H) as [m [ps' ->]]. eauto.
    + destruct (Hv2 eq_refl) as [m ->]. split; [discriminate|eauto].
Qed.

Lemma length_pairs_of_range (n : nat) (r : list float) :
  length r = (2 * n)%nat -> length (pairs_of_range r) = n.
Proof.
  revert r. induction n as [|n IH]; intros r H.
  - destruct r; simpl in *; auto. discriminate.
  - destruct r as [|a [|b r]]; simpl in *; try lia. f_equal. apply IH. lia.
Qed.

Lemma map_idx_slice (rg : list float) (ps : list (float * float)) (i : nat) :
  length (skipn (2 * i) rg) = (2 * length ps)%nat ->
  map_idx (slice_pair rg) i ps = (OK tt, pairs_of_range (skipn (2 * i) rg)).
Proof.
  revert i. induction ps as [|p ps IH]; intros i H.
  - simpl in *. destruct (skipn (i + (i + 0)) rg); simpl in *; auto. discriminate.
  - cbn [map_idx]. unfold slice_pair at 1.
    destruct (skipn (2 * i) rg) as [|a [|b rest]] eqn:E; simpl in H; try lia.
    assert (Ha : nth_error rg (2 * i) = Some a).
    { rewrite <- (Nat.add_0_r (2 * i)), <- nth_error_skipn, E. reflexivity. }
    assert (Hb : nth_error rg (2 * i + 1) = Some b).
    { rewrite <- nth_error_skipn, E. reflexivity. }
    rewrite (proj2 (vec_at_OK _ _ _) Ha), (proj2 (vec_at_OK _ _ _) Hb). cbn [bindR].
    assert (Er : skipn (2 * S i) rg = rest).
    { replace (2 * S i)%nat with (2 + 2 * i)%nat by lia.
      rewrite <- skipn_skipn, E. reflexivity. }
    rewrite IH by (rewrite Er; lia). rewrite Er. reflexivity.
Qed.

Lemma combine_fst_snd {A B} (ps : list (A * B)) :
  combine (map fst ps) (map snd ps) = ps.
Proof.
  induction ps as [|[a b] ps IH]; simpl; auto. now rewrite IH.
Qed.

Lemma combine_repeat {A B} (a : A) (b : B) (n : nat) :
  combine (repeat a n) (repeat b n) = repeat (a, b) n.
Proof.
  induction n as [|n IH]; simpl; auto. now rewrite IH.
Qed.

Lemma rows_of_lengths (m n : nat) (d : list float) :
  length d = (m * n)%nat -> Forall (fun row => length row = n) (rows_of m n d).
Proof.
  revert d. induction m as [|m IH]; intros d H; simpl.
  - constructor.
  - constructor.
    + rewrite length_firstn. simpl in H. lia.
    + apply IH. rewrite length_skipn. simpl in H. lia.
Qed.

Lemma length_zip_with (f : float -> float -> float) (a b : list float) :
  length a = length b -> length (zip_with f a b) = length a.
Proof.
  revert b. induction a as [|x a IH]; intros [|y b] H; simpl in *; try discriminate; auto.
Qed.

Lemma length_fold_zip_with (f : float -> float -> float) (rs : list (list float))
    (r : list float) (n : nat) :
  Forall (fun row => length row = n) rs -> length r = n ->
  length (fold_left (zip_with f) rs r) = n.
Proof.
  revert r. induction rs as [|x rs IH]; intros r HF Hr; simpl; auto.
  inversion HF; subst. apply IH; auto. rewrite length_zip_with; congruence.
Qed.

Lemma aminmax_dim0_length (input : Tensor) (M_ N : Z) (mins maxs : list float) :
  wf_tensor input -> sizes input = [M_; N] ->
  aminmax_dim0 input = OK (mins, maxs) ->
  length mins = Z.to_nat N /\ length maxs = Z.to_nat N.
Proof.
  intros [Hd Hs] Hsz. unfold aminmax_dim0. rewrite Hsz. cbn [hd last].
  unfold numel in Hd. rewrite Hsz in Hd, Hs. cbn [fold_right] in Hd.
  inversion Hs as [|? ? HM Hs']; subst. inversion Hs' as [|? ? HN _]; subst.
  assert (Hlen : length (data input) = (Z.to_nat M_ * Z.to_nat N)%nat).
  { rewrite Hd, Z.mul_1_r. apply Z2Nat.inj_mul; auto. }
  pose proof (rows_of_lengths _ _ _ Hlen) as HF.
  destruct (rows_of (Z.to_nat M_) (Z.to_nat N) (data input)) as [|r rs]; try discriminate.
  inversion HF; subst. intro H. injection H as <- <-.
  split; apply length_fold_zip_with; auto.
Qed.

Lemma std_copy_all (src dst : list float) (n : nat) :
  length src = n -> length dst = n -> std_copy src n dst = src.
Proof.
  intros Hs Hd. unfold std_copy. rewrite firstn_all2 by lia.
  rewrite skipn_all2 by lia. apply app_nil_r.
Qed.

Lemma dim_2_sizes (t : Tensor) :
  dim t = 2 -> exists M_ N, sizes t = [M_; N].
Proof.
  unfold dim. destruct (sizes t) as [|a [|b [|c l]]]; simpl; intro H; try lia. eauto.
Qed.

(** The validation loop, on the resolved pairs. *)
Lemma validate_loop (ps : list (float * float)) :
  for_range 0 (length ps) validate_expand_dim (map fst ps, map snd ps) =
  match map_idx validate_expand_pair 0 ps with
  | (OK _, qs) => OK (map fst qs, map snd qs)
  | (Err e, _) => Err e
  end.
Proof.
  rewrite (for_range_pointwise2 validate_expand_pair)
    by (try apply validate_expand_dim_eq; rewrite length_map; reflexivity).
  cbn [skipn firstn app]. now rewrite combine_fst_snd.
Qed.

(** [select_outer_bin_edges] resolves the pairs as the spec words it and
    then validates and expands them in order. *)
Lemma select_outer_bin_edges_eq (input : Tensor) (range : option (list float)) :
  wf_tensor input -> dim input = 2 ->
  select_outer_bin_edges input range =
  let? ps := resolve_outer input range in
  match map_idx validate_expand_pair 0 ps with
  | (OK _, qs) => OK (map fst qs, map snd qs)
  | (Err e, _) => Err e
  end.
Proof.
  intros Hwf Hdim. destruct (dim_2_sizes _ Hdim) as [M_ [N Hsz]].
  unfold select_outer_bin_edges, resolve_outer, TORCH_INTERNAL_ASSERT.
  rewrite (proj2 (Z.eqb_eq _ _) Hdim). cbn [bindR].
  unfold size_m1. rewrite Hsz. cbn [last bindR].
  assert (HN : 0 <= N).
  { destruct Hwf as [_ Hs]. rewrite Hsz in Hs. inversion Hs as [|? ? _ Hs']; subst.
    now inversion Hs'. }
  destruct range as [r|].
  - unfold TORCH_CHECK. destruct (Z.of_nat (length r) =? 2 * N) eqn:E; cbn [bindR]; auto.
    apply Z.eqb_eq in E.
    assert (Hr : length r = (2 * Z.to_nat N)%nat) by lia.
    rewrite (for_range_pointwise2 (slice_pair r))
      by (try (intros; apply slice_range_dim_eq); rewrite repeat_length; reflexivity).
    cbn [skipn firstn app]. rewrite combine_repeat.
    rewrite map_idx_slice
      by (change (2 * 0)%nat with 0%nat; cbn [skipn]; rewrite repeat_length; lia).
    change (2 * 0)%nat with 0%nat. cbn [skipn bindR].
    rewrite <- (length_pairs_of_range _ _ Hr) at 1.
    apply validate_loop.
  - destruct (0 <? numel input) eqn:E.
    + unfold AT_DISPATCH_FLOATING_TYPES, infer_bin_edges_from_input.
      destruct (dtype input); cbn [bindR]; auto;
        (destruct (aminmax_dim0 input) as [[mins maxs]|e] eqn:Ea; cbn [bindR]; auto;
         destruct (aminmax_dim0_length _ _ _ _ _ Hwf Hsz Ea) as [Hl1 Hl2];
         rewrite !std_copy_all by (auto; apply repeat_length);
         rewrite <- (map_fst_combine mins maxs) at 1 by lia;
         rewrite <- (map_snd_combine mins maxs) at 2 by lia;
         replace (Z.to_nat N) with (length (combine mins maxs))
           by (rewrite length_combine; lia);
         apply validate_loop).
    + cbn [bindR].
      rewrite <- (map_fst_combine (repeat 0%float (Z.to_nat N)) (repeat 1%float (Z.to_nat N)))
        at 1 by (now rewrite !repeat_length).
      rewrite <- (map_snd_combine (repeat 0%float (Z.to_nat N)) (repeat 1%float (Z.to_nat N)))
        at 2 by (now rewrite !repeat_length).
      rewrite combine_repeat.
      replace (Z.to_nat N) with (length (repeat (0%float, 1%float) (Z.to_nat N))) at 1
        by apply repeat_length.
      apply validate_loop.
Qed.

Lemma nth_error_pairs_of_range (r : list float) (d : nat) (lo hi : float) :
  nth_error (pairs_of_range r) d = Some (lo, hi) ->
  nth_error r (2 * d) = Some lo /\ nth_error r (2 * d + 1) = Some hi.
Proof.
  revert r. induction d as [|d IH]; intros [|a [|b r]] H; simpl in H; try discriminate.
  - injection H as <- <-. auto.
  - replace (2 * S d)%nat with (S (S (2 * d))) by lia.
    replace (S (S (2 * d)) + 1)%nat with (S (S (2 * d + 1))) by lia.
    simpl. now apply IH.
Qed.

Lemma resolve_outer_length (input : Tensor) (range : option (list float))
    (ps : list (float * float)) (M_ N : Z) :
  wf_tensor input -> sizes input = [M_; N] ->
  resolve_outer input range = OK ps -> length ps = Z.to_nat N.
Proof.
  intros Hwf Hsz. unfold resolve_outer. rewrite Hsz. cbn [last].
  destruct range as [r|].
  - destruct (Z.of_nat (length r) =? 2 * N) eqn:E; try discriminate.
    apply Z.eqb_eq in E. intro H. injection H as <-.
    apply length_pairs_of_range. lia.
  - destruct (0 <? numel input).
    + destruct (dtype input); try discriminate;
        (destruct (aminmax_dim0 input) as [[mins maxs]|e] eqn:Ea; cbn [bindR];
         try discriminate; intro H; injection H as <-;
         destruct (aminmax_dim0_length _ _ _ _ _ Hwf Hsz Ea) as [Hl1 Hl2];
         rewrite length_combine; lia).
    + intro H. injection H as <-. apply repeat_length.
Qed.

(** C3.  On an (M, N) sample set, [select_outer_bin_edges] resolves the
    per-dimension (low, high) pairs as follows: a supplied range whose
    length is not 2N is rejected with [InvalidArgument]; a supplied range
    of length 2N is sliced into its N consecutive pairs; without a range,
    a non-empty sample set gives the column-wise minimum and maximum, an
    empty one gives (0, 1) for every dimension.  Every resolved pair is
    then validated: if all are finite with low <= high the call returns
    them (a pair with low == high widened as C4 says), otherwise it fails
    with [InvalidArgument].  An empty (0, 1) sample set with one bin and no
    range yields edges [0.0, 1.0] and hist [0]. *)
Theorem select_outer_bin_edges_resolves :
  forall (input : Tensor) (range : option (list float)),
    wf_tensor input -> dim input = 2 ->
    let N := last (sizes input) 0 in
    (forall r, range = Some r -> Z.of_nat (length r) <> 2 * N ->
       select_outer_bin_edges input range = Err (InvalidArgument range_length)) /\
    (forall r, range = Some r -> Z.of_nat (length r) = 2 * N ->
       resolve_outer input range = OK (pairs_of_range r) /\
       Z.of_nat (length (pairs_of_range r)) = N /\
       forall d lo hi, nth_error (pairs_of_range r) d = Some (lo, hi) ->
         nth_error r (2 * d) = Some lo /\ nth_error r (2 * d + 1) = Some hi) /\
    (range = None -> 0 < numel input -> dtype input = Float \/ dtype input = Double ->
       resolve_outer input range =
       let? (mins, maxs) := aminmax_dim0 input in OK (combine mins maxs)) /\
    (range = None -> numel input <= 0 ->
       resolve_outer input range = OK (repeat (0%float, 1%float) (Z.to_nat N))) /\
    (forall e, resolve_outer input range = Err e ->
       select_outer_bin_edges input range = Err e) /\
    (forall ps, resolve_outer input range = OK ps ->
       if forallb valid_pair ps
       then select_outer_bin_edges input range =
            OK (map fst (map expand_pair ps), map snd (map expand_pair ps))
       else exists m, select_outer_bin_edges input range = Err (InvalidArgument m)) /\
    histogram_cpu_bin_ct (mkTensor Double [0; 1] []) 1 None None false =
      OK (mkTensor Double [1] [0%float], mkTensor Double [2] [0%float; 1%float]) /\
    histogramdd_cpu_bin_ct (mkTensor Double [0; 1] []) [1] None None false =
      OK (mkTensor Double [1] [0%float]).
Proof.
  intros input range Hwf Hdim N.
  pose proof (select_outer_bin_edges_eq input range Hwf Hdim) as Heq.
  split; [|split; [|split; [|split; [|split; [|split; [|split]]]]]].
  - intros r -> Hlen. rewrite Heq. unfold resolve_outer. fold N.
    now rewrite (proj2 (Z.eqb_neq _ _) Hlen).
  - intros r -> Hlen. split; [|split].
    + unfold resolve_outer. fold N. now rewrite (proj2 (Z.eqb_eq _ _) Hlen).
    + rewrite (length_pairs_of_range (Z.to_nat N)); lia.
    + apply nth_error_pairs_of_range.
  - intros -> Hn Hdt. unfold resolve_outer.
    rewrite (proj2 (Z.ltb_lt _ _) Hn). destruct Hdt as [-> | ->]; reflexivity.
  - intros -> Hn. unfold resolve_outer. now rewrite (proj2 (Z.ltb_ge _ _) Hn).
  - intros e He. rewrite Heq, He. reflexivity.
  - intros ps Hps. rewrite Heq, Hps. cbn [bindR].
    destruct (map_idx_validate ps 0) as [H1 H2].
    destruct (forallb valid_pair ps).
    + now rewrite (H1 eq_refl).
    + destruct (H2 eq_refl) as [m [ps' ->]]. eauto.
  - vm_compute. reflexivity.
  - vm_compute. reflexivity.
Qed.

(** An instance of C3: a range of two numbers on a 3 x 1 sample set. *)
Lemma select_outer_bin_edges_resolves_witness :
  select_outer_bin_edges (mkTensor Double [3; 1] [0; 0; 1]%float) (Some [0; 1]%float) =
  OK ([0%float], [1%float]).
Proof.
  pose proof (select_outer_bin_edges_resolves
                (mkTensor Double [3; 1] [0; 0; 1]%float) (Some [0; 1]%float)) as H.
  assert (Hwf : wf_tensor (mkTensor Double [3; 1] [0; 0; 1]%float)).
  { split; [reflexivity|]. repeat constructor; simpl; lia. }
  specialize (H Hwf eq_refl).
  destruct H as [_ [_ [_ [_ [_ [H _]]]]]].
  exact (H [(0%float, 1%float)] eq_refl).
Defined.

(* ------------------------------------------------------------------ *)
(** * Edge materialisation in count+range mode: proofs *)

Lemma map_idx_const {A} (c : A) (l : list A) (i : nat) :
  map_idx (fun _ _ => OK c) i l = (OK tt, repeat c (length l)).
Proof.
  revert i. induction l as [|x l IH]; intro i; simpl; auto. now rewrite IH.
Qed.

Lemma allocate_bin_edges_tensors_eq (self : Tensor) :
  allocate_bin_edges_tensors self =
  if 2 <=? dim self
  then OK (repeat (empty0 (dtype self)) (Z.to_nat (last (sizes self) 0)))
  else Err (InvalidArgument input_rank).
Proof.
  unfold allocate_bin_edges_tensors, TORCH_CHECK.
  destruct (2 <=? dim self) eqn:E; cbn [bindR]; auto.
  apply Z.leb_le in E. rewrite (dim_ge_2_size_m1 _ E). cbn [bindR].
  rewrite (for_range_pointwise (fun _ _ => OK (empty0 (dtype self))))
    by (try reflexivity; now rewrite repeat_length).
  cbn [skipn firstn app]. rewrite map_idx_const. now rewrite repeat_length.
Qed.

Lemma linspace_dim_eq (outer : list float * list float) (bin_ct : list Z)
    (i : nat) (v : list Tensor) (x : Tensor) :
  nth_error v i = Some x ->
  linspace_dim outer bin_ct i v =
  let? y := linspace_edge outer bin_ct i x in OK (vec_set v i y).
Proof.
  intro H. unfold linspace_dim, linspace_edge.
  destruct (vec_at (fst outer) i); cbn [bindR]; auto.
  destruct (vec_at (snd outer) i); cbn [bindR]; auto.
  destruct (vec_at bin_ct i) as [k|]; cbn [bindR]; auto.
  destruct (add_int64 k 1); cbn [bindR]; auto.
  now rewrite (proj2 (vec_at_OK _ _ _) H).
Qed.

Lemma reshape_MN_wf (self : Tensor) :
  wf_tensor self -> 2 <= dim self ->
  wf_tensor (reshape self [fold_right Z.mul 1 (removelast (sizes self)); last (sizes self) 0]).
Proof.
  intros [Hd Hs] Hdim. unfold wf_tensor, reshape, numel in *. cbn [data sizes fold_right].
  assert (Hne : sizes self <> []).
  { unfold dim in Hdim. destruct (sizes self); simpl in *; [lia|discriminate]. }
  rewrite (app_removelast_last 0 Hne) in Hd, Hs.
  rewrite fold_right_app in Hd. cbn [fold_right] in Hd.
  apply Forall_app in Hs. destruct Hs as [Hs1 Hs2]. inversion Hs2; subst.
  assert (Hfold : forall (l : list Z) (c : Z),
             fold_right Z.mul c l = fold_right Z.mul 1 l * c).
  { induction l as [|x l IH]; intro c; cbn [fold_right]; [ring|]. rewrite IH. ring. }
  assert (Hnn : 0 <= fold_right Z.mul 1 (removelast (sizes self))).
  { clear - Hs1. induction Hs1; simpl; [lia|]. apply Z.mul_nonneg_nonneg; auto. }
  split.
  - rewrite Hd, Hfold. reflexivity.
  - repeat constructor; auto.
Qed.

(** The edges [histogramdd_bin_edges_cpu] materialises. *)
Lemma histogramdd_bin_edges_cpu_OK (self : Tensor) (bin_ct : list Z)
    (range : option (list float)) (weight : option Tensor) (density : bool)
    (bins : list Tensor) :
  histogramdd_bin_edges_cpu self bin_ct range weight density = OK bins ->
  let N := last (sizes self) 0 in
  let M_ := fold_right Z.mul 1 (removelast (sizes self)) in
  2 <= dim self /\
  exists ls rs,
    select_outer_bin_edges (reshape self [M_; N]) range = OK (ls, rs) /\
    length bins = Z.to_nat N /\
    forall j, (j < Z.to_nat N)%nat ->
      exists lo hi k,
        nth_error ls j = Some lo /\ nth_error rs j = Some hi /\
        nth_error bin_ct j = Some k /\
        nth_error bins j = Some (linspace_cpu_out lo hi (k + 1) (empty0 (dtype self))).
Proof.
  intros H N M_. unfold histogramdd_bin_edges_cpu in H.
  rewrite allocate_bin_edges_tensors_eq in H.
  destruct (2 <=? dim self) eqn:E; cbn [bindR] in H; try discriminate.
  apply Z.leb_le in E. split; auto.
  unfold histogramdd_bin_edges_out_cpu in H.
  rewrite (dim_ge_2_size_m1 _ E) in H. cbn [bindR] in H. fold N M_ in H.
  destruct (select_outer_bin_edges (reshape self [M_; N]) range) as [[ls rs]|e] eqn:Es;
    cbn [bindR] in H; try discriminate.
  exists ls, rs. split; auto.
  rewrite (for_range_pointwise (linspace_edge (ls, rs) bin_ct)) in H
    by (try apply linspace_dim_eq; now rewrite repeat_length).
  cbn [skipn firstn app] in H.
  destruct (map_idx (linspace_edge (ls, rs) bin_ct) 0 (repeat (empty0 (dtype self)) (Z.to_nat N)))
    as [[u|e] ys] eqn:Em; try discriminate.
  injection H as <-. destruct (map_idx_OK _ _ _ _ _ Em) as [Hl Hn].
  rewrite repeat_length in Hl. split; auto.
  intros j Hj.
  assert (Hr : nth_error (repeat (empty0 (dtype self)) (Z.to_nat N)) j = Some (empty0 (dtype self))).
  { now apply nth_error_repeat. }
  destruct (Hn _ _ Hr) as [t' [Hf Ht']]. cbn [Nat.add] in Hf.
  unfold linspace_edge in Hf. cbn [fst snd] in Hf. unfold vec_at in Hf.
  destruct (nth_error ls j) as [lo|]; cbn [bindR] in Hf; try discriminate.
  destruct (nth_error rs j) as [hi|]; cbn [bindR] in Hf; try discriminate.
  destruct (nth_error bin_ct j) as [k|]; cbn [bindR] in Hf; try discriminate.
  destruct (add_int64 k 1) as [steps|] eqn:Ea; cbn [bindR] in Hf; try discriminate.
  apply add_int64_OK in Ea. destruct Ea as [-> _].
  injection Hf as <-. exists lo, hi, k. auto.
Qed.

(** C4.  In the count+range pipeline a dimension whose resolved bounds
    satisfy low == high gets the pair (low - 0.5, high + 0.5), every other
    dimension keeps its pair, and these are the bounds from which the edges
    of that dimension are generated.  Samples [[5.0]] with one bin and no
    range yield edges [4.5, 5.5] and hist [1]. *)
Theorem degenerate_range_expanded_by_half :
  forall (self : Tensor) (bin_ct : list Z) (range : option (list float))
         (weight : option Tensor) (density : bool)
         (ps : list (float * float)) (bins : list Tensor),
    wf_tensor self ->
    let N := last (sizes self) 0 in
    let M_ := fold_right Z.mul 1 (removelast (sizes self)) in
    resolve_outer (reshape self [M_; N]) range = OK ps ->
    histogramdd_bin_edges_cpu self bin_ct range weight density = OK bins ->
    (forall d l r,
        nth_error ps d = Some (l, r) ->
        exists k e,
          nth_error bin_ct d = Some k /\ nth_error bins d = Some e /\
          data e = if (l =? r)%float
                   then linspace_values (l - 0.5)%float (r + 0.5)%float (k + 1)
                   else linspace_values l r (k + 1)) /\
    histogram_cpu_bin_ct (mkTensor Double [1; 1] [5%float]) 1 None None false =
      OK (mkTensor Double [1] [1%float], mkTensor Double [2] [4.5%float; 5.5%float]) /\
    histogramdd_cpu_bin_ct (mkTensor Double [1; 1] [5%float]) [1] None None false =
      OK (mkTensor Double [1] [1%float]).
Proof.
  intros self bin_ct range weight density ps bins Hwf N M_ Hps Hbins.
  split; [|split; vm_compute; reflexivity].
  subst N M_.
  pose proof (histogramdd_bin_edges_cpu_OK _ _ _ _ _ _ Hbins) as Hb. cbv zeta in Hb.
  destruct Hb as [Hdim [ls [rs [Hsel [Hlen Hn]]]]].
  pose proof (reshape_MN_wf _ Hwf Hdim) as Hwf'.
  rewrite (select_outer_bin_edges_eq _ _ Hwf' eq_refl) in Hsel.
  rewrite Hps in Hsel. cbn [bindR] in Hsel.
  destruct (map_idx validate_expand_pair 0 ps) as [[u|e] qs] eqn:Em; try discriminate.
  injection Hsel as <- <-.
  destruct (map_idx_OK _ _ _ _ _ Em) as [Hl Hq].
  intros d l r Hd. destruct (Hq _ _ Hd) as [q [Hf Hqd]]. cbn [Nat.add] in Hf.
  assert (Hq' : q = expand_pair (l, r)).
  { destruct (validate_expand_pair_cases d (l, r)) as [H1 H2].
    destruct (valid_pair (l, r)).
    - rewrite (H1 eq_refl) in Hf. congruence.
    - destruct (H2 eq_refl) as [m Hm]. congruence. }
  assert (Hdlt : (d < Z.to_nat (last (sizes self) 0%Z))%nat).
  { rewrite <- (resolve_outer_length _ _ _ _ _ Hwf' eq_refl Hps).
    apply nth_error_Some. congruence. }
  destruct (Hn d Hdlt) as [lo [hi [k [Hlo [Hhi [Hk Hb]]]]]].
  rewrite nth_error_map, Hqd in Hlo, Hhi. cbn [option_map] in Hlo, Hhi.
  injection Hlo as <-. injection Hhi as <-.
  exists k, (linspace_cpu_out (fst q) (snd q) (k + 1) (empty0 (dtype self))).
  repeat split; auto. cbn [linspace_cpu_out data]. rewrite Hq'. unfold expand_pair.
  cbn [fst snd]. destruct (l =? r)%float; reflexivity.
Qed.

(** An instance of C4: the sample set [[5.0]] with one bin and no range. *)
Lemma degenerate_range_expanded_by_half_witness :
  exists k e,
    nth_error [1] 0 = Some k /\
    nth_error [mkTensor Double [2] [4.5; 5.5]%float] 0 = Some e /\
    data e = linspace_values (5 - 0.5)%float (5 + 0.5)%float (k + 1).
Proof.
  assert (Hwf : wf_tensor (mkTensor Double [1; 1] [5%float])).
  { split; [reflexivity|]. repeat constructor; simpl; lia. }
  exact (proj1 (degenerate_range_expanded_by_half
                  (mkTensor Double [1; 1] [5%float]) [1] None None false
                  [(5%float, 5%float)] [mkTensor Double [2] [4.5; 5.5]%float]
                  Hwf eq_refl eq_refl) 0%nat 5%float 5%float eq_refl).
Defined.


(* ------------------------------------------------------------------ *)
(** * The order on doubles *)

Lemma SFcompare_antisym (x y : spec_float) :
  SFcompare y x = option_map CompOpp (SFcompare x y).
Proof.
  destruct x as [sx|sx| |sx mx ex], y as [sy|sy| |sy my ey]; simpl;
    try destruct sx; try destruct sy; simpl; try reflexivity;
    rewrite (Z.compare_antisym ey ex); destruct (ey ?= ex)%Z; simpl; try reflexivity;
    change (Pos.compare_cont Eq my mx) with (Pos.compare my mx);
    change (Pos.compare_cont Eq mx my) with (Pos.compare mx my);
    rewrite (Pos.compare_antisym my mx); destruct (my ?= mx)%positive; reflexivity.
Qed.

Lemma SFcompare_defined (x y : spec_float) :
  SFeqb x x = true -> SFeqb y y = true -> exists c, SFcompare x y = Some c.
Proof.
  destruct x as [sx|sx| |sx mx ex], y as [sy|sy| |sy my ey]; simpl;
    intros Hx Hy; try discriminate; eauto.
Qed.

Lemma SFeqb_refl (x : spec_float) : x <> S754_nan -> SFeqb x x = true.
Proof.
  unfold SFeqb. destruct x as [sx|sx| |sx mx ex]; simpl; intro H.
  - reflexivity.
  - now destruct sx.
  - congruence.
  - rewrite Z.compare_refl.
    change (Pos.compare_cont Eq mx mx) with (Pos.compare mx mx).
    rewrite Pos.compare_refl. now destruct sx.
Qed.





Local Open Scope float_scope.

Lemma is_nan_SFeqb (x : float) :
  isnan x = false <-> SFeqb (Prim2SF x) (Prim2SF x) = true.
Proof.
  unfold isnan, is_nan. rewrite eqb_spec.
  destruct (SFeqb (Prim2SF x) (Prim2SF x)); simpl; split; congruence.
Qed.

Lemma ltb_negb_leb (a b : float) :
  isnan a = false -> isnan b = false -> (a <? b) = negb (b <=? a).
Proof.
  intros Ha Hb. apply is_nan_SFeqb in Ha, Hb.
  rewrite ltb_spec, leb_spec. unfold SFltb, SFleb.
  rewrite (SFcompare_antisym (Prim2SF a) (Prim2SF b)).
  destruct (SFcompare_defined _ _ Ha Hb) as [c ->]. now destruct c.
Qed.





Lemma ltb_leb (a b : float) : (a <? b) = true -> (a <=? b) = true.
Proof.
  rewrite ltb_spec, leb_spec. unfold SFltb, SFleb.
  destruct (SFcompare (Prim2SF a) (Prim2SF b)) as [[]|]; simpl; try discriminate; auto.
Qed.

Lemma ltb_eqb_false (a b : float) : (a <? b) = true -> (a =? b) = false.
Proof.
  rewrite ltb_spec, eqb_spec. unfold SFltb, SFeqb.
  destruct (SFcompare (Prim2SF a) (Prim2SF b)) as [[]|]; simpl; try discriminate; auto.
Qed.

Lemma isfinite_not_nan (x : float) : isfinite x = true -> isnan x = false.
Proof.
  unfold isfinite, is_finite, isnan. destruct (is_nan x); simpl; auto.
Qed.

Local Close Scope float_scope.

(* ------------------------------------------------------------------ *)
(** * The histc policy: proofs *)

Lemma histc_checks (l r : float) :
  (let? _ := TORCH_CHECK
               (negb (isinf l || isinf r || isnan l || isnan r)) histc_not_finite in
   let? _ := TORCH_CHECK (l <? r)%float histc_max_not_larger in
   OK (l, r)) =
  if negb (isfinite l && isfinite r)
  then Err (InvalidArgument histc_not_finite)
  else if (r <=? l)%float
       then Err (InvalidArgument histc_max_not_larger)
       else OK (l, r).
Proof.
  unfold TORCH_CHECK, isfinite, is_finite, isinf, isnan.
  destruct (is_nan l) eqn:Enl; destruct (is_infinity l); destruct (is_nan r) eqn:Enr;
    destruct (is_infinity r); cbn [negb orb andb bindR]; try reflexivity.
  rewrite (ltb_negb_leb l r Enl Enr).
  destruct (r <=? l)%float; reflexivity.
Qed.

(** C5.  [histc_select_outer_bin_edges] follows the histc policy: if the
    given min equals max both are recomputed from the global minimum and
    maximum of the data; if they are still equal the pair is widened by 1.0
    on each side; the result is rejected with [InvalidArgument] if a bound
    is not finite or if min >= max, and returned unchanged otherwise.  A
    returned pair is finite with min < max. *)
Theorem histc_outer_edges_policy :
  forall (input : Tensor) (min max : float),
    histc_select_outer_bin_edges input min max = histc_policy input min max /\
    (forall l r, histc_select_outer_bin_edges input min max = OK (l, r) ->
       isfinite l = true /\ isfinite r = true /\ (l <? r)%float = true).
Proof.
  intros input min max.
  assert (Heq : histc_select_outer_bin_edges input min max = histc_policy input min max).
  { unfold histc_select_outer_bin_edges, histc_policy, histc_resolved, histc_expand.
    destruct (if (min =? max)%float then _aminmax input else OK (min, max))
      as [[l r]|e]; cbn [bindR fst snd]; auto.
    destruct (l =? r)%float; cbn [fst snd]; apply histc_checks. }
  split; auto.
  intros l r. unfold histc_select_outer_bin_edges.
  destruct (if (min =? max)%float then _aminmax input else OK (min, max))
    as [[l0 r0]|e]; cbn [bindR]; try discriminate.
  destruct (if (l0 =? r0)%float then ((l0 - 1)%float, (r0 + 1)%float) else (l0, r0))
    as [l1 r1].
  unfold TORCH_CHECK, isfinite, is_finite, isinf, isnan.
  destruct (is_nan l1) eqn:E1; destruct (is_infinity l1) eqn:E2;
    destruct (is_nan r1) eqn:E3; destruct (is_infinity r1) eqn:E4;
    cbn [negb orb andb bindR]; try discriminate.
  destruct (l1 <? r1)%float eqn:E; cbn [bindR]; try discriminate.
  intro H. injection H as <- <-. rewrite E1, E2, E3, E4. auto.
Qed.

(** An instance of C5: equal bounds 0, 0 on samples between 0 and 3. *)
Lemma histc_outer_edges_policy_witness :
  isfinite 0%float = true /\ isfinite 3%float = true /\ (0 <? 3)%float = true.
Proof.
  exact (proj2 (histc_outer_edges_policy
                  (mkTensor Double [5] [0; 0.5; 1; 2; 3]%float) 0%float 0%float)
           0%float 3%float eq_refl).
Defined.

(* ------------------------------------------------------------------ *)
(** * The entry points on edge tensors: proofs *)

Lemma call_stub_run (s : stub) (self : Tensor) (weight : option Tensor)
    (density : bool) (st : Store) :
  call_stub s self weight density st = (OK tt, after_stub s self weight density st).
Proof. reflexivity. Qed.

Lemma prepare_out_inv_OK (input : Tensor) (bin_ct : list Z) (st st' : Store) (u : unit) :
  histogramdd_prepare_out input bin_ct st = (OK u, st') ->
  exists N, size_m1 input = OK N /\
            Z.of_nat (length bin_ct) = N /\
            Z.of_nat (length (bin_edges st)) = N.
Proof.
  rewrite histogramdd_prepare_out_eq.
  destruct (size_m1 input) as [N|e]; try discriminate.
  destruct (Z.of_nat (length bin_ct) =? N) eqn:E1; try discriminate.
  destruct (Z.of_nat (length (bin_edges st)) =? N) eqn:E2; try discriminate.
  intros _. exists N. apply Z.eqb_eq in E1, E2. auto.
Qed.

Lemma nth_error_ext_from {A} (l l' : list A) :
  length l' = length l ->
  (forall j, nth_error l' j = nth_error l j) -> l' = l.
Proof.
  revert l'. induction l as [|x l IH]; intros [|y l'] Hlen H; simpl in *;
    try discriminate; auto.
  f_equal.
  - specialize (H O). simpl in H. congruence.
  - apply IH; [lia|]. intro j. apply (H (S j)).
Qed.

(** A failing preparation leaves [hist] untouched; on an input of
    innermost dimension at most 1 it leaves the whole store untouched. *)
Lemma prepare_out_Err_store (input : Tensor) (bin_ct : list Z) (st st' : Store) (e : error) :
  histogramdd_prepare_out input bin_ct st = (Err e, st') ->
  hist st' = hist st /\ calls st' = calls st /\
  length (bin_edges st') = length (bin_edges st) /\
  (forall N, size_m1 input = OK N -> N <= 1 -> st' = st).
Proof.
  rewrite histogramdd_prepare_out_eq.
  destruct (size_m1 input) as [N|e0] eqn:EN.
  2:{ intro H. injection H as _ <-. auto. }
  destruct (Z.of_nat (length bin_ct) =? N) eqn:E1; cbn [negb].
  2:{ intro H. injection H as _ <-. auto. }
  destruct (Z.of_nat (length (bin_edges st)) =? N) eqn:E2; cbn [negb].
  2:{ intro H. injection H as _ <-. auto. }
  apply Z.eqb_eq in E1, E2.
  destruct (dtype_eqb (dtype input) (dtype (hist st))); cbn [negb].
  2:{ intro H. injection H as _ <-. auto. }
  destruct (map_idx (prepare_edge input bin_ct) 0 (bin_edges st)) as [[u|e1] es] eqn:Em;
    try discriminate.
  intro H. injection H as _ <-. cbn [hist calls bin_edges].
  destruct (map_idx_Err _ _ _ _ _ Em) as [j [t [Hj [Hf [Hlen [_ Hrest]]]]]].
  repeat split; auto.
  intros N' HN' Hle. assert (N' = N) by congruence. subst N'.
  assert (Hj0 : j = O).
  { assert (j < length (bin_edges st))%nat by (apply nth_error_Some; congruence). lia. }
  subst j.
  assert (es = bin_edges st).
  { apply nth_error_ext_from; auto. intro j. apply Hrest. lia. }
  subst es. apply store_eta.
Qed.

Lemma length_Forall2 {A B} (P : A -> B -> Prop) (l : list A) (r : list B) :
  Forall2 P l r -> length l = length r.
Proof. induction 1; simpl; auto. Qed.

Lemma map_idx_copy (bins es : list Tensor) (i : nat) :
  length es = length (skipn i bins) ->
  map_idx (copy_edge bins) i es = (OK tt, zip_copy es (skipn i bins)).
Proof.
  revert i. induction es as [|e es IH]; intros i H.
  - reflexivity.
  - destruct (skipn i bins) as [|b rest] eqn:E; simpl in H; try discriminate.
    assert (Hb : nth_error bins i = Some b).
    { rewrite <- (Nat.add_0_r i), <- nth_error_skipn, E. reflexivity. }
    assert (Er : skipn (S i) bins = rest).
    { rewrite (skipn_nth_error _ _ _ Hb) in E. congruence. }
    cbn [map_idx]. unfold copy_edge at 1.
    rewrite (proj2 (vec_at_OK _ _ _) Hb). cbn [bindR].
    rewrite IH by (rewrite Er; lia). rewrite Er. reflexivity.
Qed.

Lemma copy_loop_run (bins : list Tensor) (st : Store) :
  length (bin_edges st) = length bins ->
  for_rangeM 0 (length bins) (copy_bins_dim bins) st =
  (OK tt, mkStore (hist st) (zip_copy (bin_edges st) bins) (calls st)).
Proof.
  intro H.
  rewrite (for_rangeM_edge_update (copy_edge bins)) by (try apply copy_bins_dim_eq; auto).
  cbn [skipn firstn app]. now rewrite map_idx_copy.
Qed.

(** The run of the tail shared by the two overloads of
    [histogramdd_out_cpu]. *)
Lemma explicit_edges_tail_run (s : stub) (self : Tensor) (bins : list Tensor)
    (weight : option Tensor) (density : bool) (st : Store) :
  explicit_edges_tail s self bins weight density st =
  match histogramdd_check_inputs self bins weight with
  | Err e => (Err e, st)
  | OK _ =>
      match histogramdd_prepare_out_bins self bins st with
      | (Err e, st1) => (Err e, st1)
      | (OK _, st1) =>
          (OK tt,
           after_stub s self weight density
             (mkStore (hist st1) (zip_copy (bin_edges st1) bins) (calls st1)))
      end
  end.
Proof.
  unfold explicit_edges_tail.
  step_lift.
  destruct (histogramdd_check_inputs self bins weight) as [u|e]; auto.
  unfold bind at 1.
  destruct (histogramdd_prepare_out_bins self bins st) as [[[]|e] st1] eqn:Ep; auto.
  unfold histogramdd_prepare_out_bins in Ep.
  destruct (prepare_out_inv_OK _ _ _ _ _ Ep) as [N [HN [Hct Hes]]].
  destruct (prepare_out_shaped _ _ _ _ _ HN Hct Hes Ep) as [[_ HF] _].
  apply length_Forall2 in HF. rewrite length_map in HF.
  unfold bind at 1. rewrite (copy_loop_run _ _ HF).
  apply call_stub_run.
Qed.

Lemma sizes_zip_copy (es bins : list Tensor) :
  length es = length bins -> map sizes (zip_copy es bins) = map sizes es.
Proof.
  unfold zip_copy. revert bins.
  induction es as [|e es IH]; intros [|b bins] H; simpl in *; try discriminate; auto.
  f_equal. apply IH. lia.
Qed.

Lemma data_zip_copy (es bins : list Tensor) :
  length es = length bins -> map data (zip_copy es bins) = map data bins.
Proof.
  unfold zip_copy. revert bins.
  induction es as [|e es IH]; intros [|b bins] H; simpl in *; try discriminate; auto.
  f_equal. apply IH. lia.
Qed.

Lemma Forall2_sizes (es es' : list Tensor) (ks : list Z) :
  map sizes es' = map sizes es ->
  Forall2 (fun e k => sizes e = [k + 1]) es ks ->
  Forall2 (fun e k => sizes e = [k + 1]) es' ks.
Proof.
  intros Hm HF. revert es' Hm.
  induction HF as [|e k es ks He HF IH]; intros [|e' es'] Hm; simpl in Hm;
    try discriminate; constructor.
  - injection Hm as Hs _. congruence.
  - apply IH. now injection Hm.
Qed.

(** A successful run of the shared tail. *)
Lemma explicit_edges_tail_OK (s : stub) (self : Tensor) (bins : list Tensor)
    (weight : option Tensor) (density : bool) (st st' : Store) (u : unit) :
  explicit_edges_tail s self bins weight density st = (OK u, st') ->
  inputs_valid self bins weight /\
  exists st1,
    histogramdd_prepare_out_bins self bins st = (OK tt, st1) /\
    length (bin_edges st1) = length bins /\
    shaped st1 (map (fun t => numel t - 1) bins) /\
    Forall (fun k => 0 < k) (map (fun t => numel t - 1) bins) /\
    calls st1 = calls st /\
    st' = after_stub s self weight density
            (mkStore (hist st1) (zip_copy (bin_edges st1) bins) (calls st1)).
Proof.
  rewrite explicit_edges_tail_run.
  destruct (histogramdd_check_inputs self bins weight) as [[]|e] eqn:Ec; try discriminate.
  apply histogramdd_check_inputs_OK in Ec.
  destruct (histogramdd_prepare_out_bins self bins st) as [[[]|e] st1] eqn:Ep;
    try discriminate.
  intro H. injection H as <-. split; auto. exists st1.
  unfold histogramdd_prepare_out_bins in Ep.
  destruct (prepare_out_inv_OK _ _ _ _ _ Ep) as [N [HN [Hct Hes]]].
  destruct (prepare_out_shaped _ _ _ _ _ HN Hct Hes Ep) as [Hsh [Hc [_ [_ Hpos]]]].
  pose proof (length_Forall2 _ _ _ (proj2 Hsh)) as Hlen. rewrite length_map in Hlen.
  repeat split; auto; apply Hsh.
Qed.

Lemma shaped_after_copy (s : stub) (self : Tensor) (bins : list Tensor)
    (weight : option Tensor) (density : bool) (st1 : Store) (ks : list Z) :
  length (bin_edges st1) = length bins -> shaped st1 ks ->
  shaped (after_stub s self weight density
            (mkStore (hist st1) (zip_copy (bin_edges st1) bins) (calls st1))) ks.
Proof.
  intros Hlen [Hh He]. split.
  - exact Hh.
  - cbn [after_stub bin_edges].
    apply (Forall2_sizes (bin_edges st1)); [now apply sizes_zip_copy | exact He].
Qed.

Lemma histogramdd_out_cpu_bin_ct_run (self : Tensor) (bin_ct : list Z)
    (range : option (list float)) (weight : option Tensor) (density : bool) (st : Store) :
  histogramdd_out_cpu_bin_ct self bin_ct range weight density st =
  match histogramdd_bin_edges_cpu self bin_ct range weight density with
  | Err e => (Err e, st)
  | OK bins => explicit_edges_tail (histogramdd_linear_stub true) self bins weight density st
  end.
Proof.
  unfold histogramdd_out_cpu_bin_ct. step_lift.
  destruct (histogramdd_bin_edges_cpu self bin_ct range weight density); reflexivity.
Qed.

Lemma length_linspace_values (lo hi : float) (steps : Z) :
  length (linspace_values lo hi steps) = Z.to_nat steps.
Proof.
  unfold linspace_values. destruct (Z.to_nat steps) as [|[|n]]; simpl; auto.
  now rewrite length_map, length_seq.
Qed.

Lemma numel_linspace_cpu_out (lo hi : float) (steps : Z) (out : Tensor) :
  numel (linspace_cpu_out lo hi steps out) = Z.of_nat (Z.to_nat steps).
Proof.
  unfold numel, linspace_cpu_out. cbn [sizes fold_right].
  rewrite length_linspace_values. lia.
Qed.

(** In count mode the bin counts derived from the generated edges are the
    requested ones. *)
Lemma bin_counts_of_generated_edges (self : Tensor) (bin_ct : list Z)
    (range : option (list float)) (weight : option Tensor) (density : bool)
    (bins : list Tensor) :
  histogramdd_bin_edges_cpu self bin_ct range weight density = OK bins ->
  Forall (fun k => 0 < k) (map (fun t => numel t - 1) bins) ->
  map (fun t => numel t - 1) bins = firstn (Z.to_nat (last (sizes self) 0)) bin_ct.
Proof.
  intros Hb Hpos. pose proof (histogramdd_bin_edges_cpu_OK _ _ _ _ _ _ Hb) as H.
  cbv zeta in H. destruct H as [_ [ls [rs [_ [Hlen Hn]]]]].
  set (n := Z.to_nat (last (sizes self) 0)) in *.
  assert (Hct : (n <= length bin_ct)%nat).
  { destruct (Nat.eq_dec n 0) as [->|Hne]; [lia|].
    destruct (Hn (n - 1)%nat ltac:(lia)) as [_ [_ [k [_ [_ [Hk _]]]]]].
    assert (n - 1 < length bin_ct)%nat by (apply nth_error_Some; congruence).
    lia. }
  apply nth_error_ext_from.
  - rewrite length_map, length_firstn. lia.
  - intro j. rewrite nth_error_firstn, nth_error_map.
    destruct (j <? n)%nat eqn:E.
    + apply Nat.ltb_lt in E. destruct (Hn j E) as [lo [hi [k [_ [_ [Hk Hbj]]]]]].
      rewrite Hbj, Hk. cbn [option_map]. f_equal.
      rewrite numel_linspace_cpu_out.
      assert (Hin : In (numel (linspace_cpu_out lo hi (k + 1) (empty0 (dtype self))) - 1)
                       (map (fun t => numel t - 1) bins)).
      { apply in_map_iff. eexists. split; [reflexivity|].
        eapply nth_error_In; eauto. }
      rewrite Forall_forall in Hpos. apply Hpos in Hin.
      rewrite numel_linspace_cpu_out in Hin. lia.
    + apply Nat.ltb_ge in E.
      rewrite (proj2 (nth_error_None bins j)) by lia. reflexivity.
Qed.

(* ------------------------------------------------------------------ *)
(** * The one-dimensional count entry points: proofs *)

Lemma numel_nonneg (t : Tensor) : wf_tensor t -> 0 <= numel t.
Proof.
  intros [_ Hs]. unfold numel. induction Hs; simpl; [lia|].
  apply Z.mul_nonneg_nonneg; auto.
Qed.

Lemma reshape_1d_wf (self : Tensor) :
  wf_tensor self -> wf_tensor (reshape self [numel self; 1]).
Proof.
  intro Hwf. pose proof (numel_nonneg _ Hwf) as Hn. destruct Hwf as [Hd Hs].
  split.
  - cbn [reshape data numel sizes fold_right]. rewrite Hd. f_equal. ring.
  - cbn [reshape sizes]. repeat constructor; auto. lia.
Qed.

Lemma select_outer_lengths (input : Tensor) (range : option (list float))
    (ls rs : list float) (M_ N : Z) :
  wf_tensor input -> sizes input = [M_; N] ->
  select_outer_bin_edges input range = OK (ls, rs) ->
  length ls = Z.to_nat N /\ length rs = Z.to_nat N.
Proof.
  intros Hwf Hsz.
  assert (Hdim : dim input = 2) by (unfold dim; now rewrite Hsz).
  rewrite (select_outer_bin_edges_eq _ _ Hwf Hdim).
  destruct (resolve_outer input range) as [ps|e] eqn:Er; cbn [bindR]; try discriminate.
  destruct (map_idx validate_expand_pair 0 ps) as [[u|e] qs] eqn:Em; try discriminate.
  intro H. injection H as <- <-.
  destruct (map_idx_OK _ _ _ _ _ Em) as [Hl _].
  rewrite !length_map, Hl. split; eapply resolve_outer_length; eauto.
Qed.

Lemma prepare_out_1d_OK (input : Tensor) (k : Z) (st st1 : Store) (u : unit) :
  size_m1 input = OK 1 ->
  histogramdd_prepare_out input [k] st = (OK u, st1) ->
  exists e0, bin_edges st = [e0] /\ 0 < k /\ dtype e0 = dtype input /\
             dtype (hist st) = dtype input /\
             st1 = mkStore (resize_output (hist st) [k])
                     [resize_output e0 [k + 1]] (calls st).
Proof.
  intros HN H. destruct (prepare_out_inv_OK _ _ _ _ _ H) as [N [HN' [Hct Hes]]].
  rewrite HN in HN'. injection HN' as <-.
  rewrite (histogramdd_prepare_out_run _ _ _ _ HN Hct Hes) in H.
  destruct (bin_edges st) as [|e0 [|e1 l]] eqn:Eb; simpl in Hes; try lia.
  destruct (dtype_eqb (dtype input) (dtype (hist st))) eqn:Eh; try discriminate.
  cbn [map_idx] in H. unfold prepare_edge, TORCH_CHECK in H.
  destruct (dtype_eqb (dtype input) (dtype e0)) eqn:Ee; cbn [bindR] in H; try discriminate.
  cbn [vec_at nth_error bindR] in H.
  destruct (0 <? k) eqn:Ek; cbn [bindR] in H; try discriminate.
  injection H as <-. exists e0.
  apply dtype_eqb_true in Eh, Ee. apply Z.ltb_lt in Ek. repeat split; auto.
Qed.

Lemma linspace_check_accumulate_run (s : stub) (reshaped : Tensor)
    (weight : option Tensor) (density : bool) (lo hi : float) (k : Z)
    (h e1 : Tensor) (c : list KernelCall) :
  linspace_check_accumulate s reshaped weight density lo hi k (mkStore h [e1] c) =
  match add_int64 k 1 with
  | Err e => (Err e, mkStore h [e1] c)
  | OK steps =>
      match histogramdd_check_inputs reshaped [linspace_cpu_out lo hi steps e1] weight with
      | Err e => (Err e, mkStore h [linspace_cpu_out lo hi steps e1] c)
      | OK _ => (OK tt, after_stub s reshaped weight density
                          (mkStore h [linspace_cpu_out lo hi steps e1] c))
      end
  end.
Proof.
  unfold linspace_check_accumulate, linspace_into_bin_edges, bind, get_bin_edges,
    lift, set_bin_edge. cbn [bin_edges hist calls vec_at nth_error vec_set].
  destruct (add_int64 k 1) as [steps|e]; [|reflexivity].
  cbn [bin_edges hist calls vec_at nth_error vec_set].
  destruct (histogramdd_check_inputs reshaped [linspace_cpu_out lo hi steps e1] weight);
    reflexivity.
Qed.

Lemma histogram_out_cpu_bin_ct_run (self : Tensor) (k : Z)
    (range : option (list float)) (weight : option Tensor) (density : bool) (st : Store) :
  wf_tensor self ->
  histogram_out_cpu_bin_ct self k range weight density st =
  match histogramdd_prepare_out (reshape self [numel self; 1]) [k] st with
  | (Err e, st1) => (Err e, st1)
  | (OK _, st1) =>
      match select_outer_bin_edges (reshape self [numel self; 1]) range with
      | Err e => (Err e, st1)
      | OK (ls, rs) =>
          linspace_check_accumulate (histogramdd_linear_stub true)
            (reshape self [numel self; 1]) (reshape_weight weight) density
            (hd 0%float ls) (hd 0%float rs) k st1
      end
  end.
Proof.
  intro Hwf. unfold histogram_out_cpu_bin_ct.
  unfold bind at 1.
  destruct (histogramdd_prepare_out (reshape self [numel self; 1]) [k] st)
    as [[u|e] st1]; auto.
  step_lift.
  destruct (select_outer_bin_edges (reshape self [numel self; 1]) range)
    as [[ls rs]|e] eqn:Es; auto.
  destruct (select_outer_lengths _ _ _ _ _ _ (reshape_1d_wf _ Hwf) eq_refl Es) as [Hl Hr].
  destruct ls as [|lo [|? ?]]; simpl in Hl; try discriminate.
  destruct rs as [|hi [|? ?]]; simpl in Hr; try discriminate.
  reflexivity.
Qed.

Lemma histogram_histc_cpu_out_run (self : Tensor) (k : Z) (min max : float) (st : Store) :
  histogram_histc_cpu_out self k min max st =
  match histogramdd_prepare_out (reshape self [numel self; 1]) [k]
          (mkStore (hist st) [empty0 (dtype self)] (calls st)) with
  | (Err e, st1) => (Err e, st1)
  | (OK _, st1) =>
      match histc_select_outer_bin_edges self min max with
      | Err e => (Err e, st1)
      | OK (lo, hi) =>
          linspace_check_accumulate (histogramdd_linear_stub false)
            (reshape self [numel self; 1]) None false lo hi k st1
      end
  end.
Proof.
  unfold histogram_histc_cpu_out.
  unfold bind at 1. unfold local_bin_edges at 1.
  unfold bind at 1.
  destruct (histogramdd_prepare_out (reshape self [numel self; 1]) [k]
              (mkStore (hist st) [empty0 (dtype self)] (calls st)))
    as [[u|e] st1]; auto.
  step_lift.
  destruct (histc_select_outer_bin_edges self min max) as [[lo hi]|e]; reflexivity.
Qed.

Lemma sizes_linspace_cpu_out (lo hi : float) (k : Z) (out : Tensor) :
  0 < k -> sizes (linspace_cpu_out lo hi (k + 1) out) = [k + 1].
Proof.
  intro Hk. cbn [linspace_cpu_out sizes]. rewrite length_linspace_values.
  f_equal. lia.
Qed.

(** The store after the edges were generated in place is fully shaped. *)
Lemma shaped_1d (h e1 : Tensor) (c : list KernelCall) (lo hi : float) (k : Z) :
  0 < k -> sizes h = [k] ->
  shaped (mkStore h [linspace_cpu_out lo hi (k + 1) e1] c) [k].
Proof.
  intros Hk Hh. split; auto. cbn [bin_edges]. constructor; [|constructor].
  now apply sizes_linspace_cpu_out.
Qed.

(** After a successful preparation the generated edges pass input
    validation when there is no weight. *)
Lemma check_inputs_generated (self e1 : Tensor) (lo hi : float) (k : Z) :
  0 < k -> dtype e1 = dtype self ->
  histogramdd_check_inputs (reshape self [numel self; 1])
    [linspace_cpu_out lo hi (k + 1) e1] None = OK tt.
Proof.
  intros Hk Hd. apply histogramdd_check_inputs_OK.
  unfold inputs_valid.
  split; [unfold dim; simpl; lia|]. split; [reflexivity|]. split; [|exact I].
  constructor; [|constructor]. unfold edges_ok. cbn [reshape dtype linspace_cpu_out].
  split; [exact Hd|]. split; [reflexivity|].
  rewrite numel_linspace_cpu_out. lia.
Qed.

(* ------------------------------------------------------------------ *)
(** * Shapes of the outputs *)

Lemma shaped_after_stub (s : stub) (self : Tensor) (weight : option Tensor)
    (density : bool) (st : Store) (ks : list Z) :
  shaped st ks -> shaped (after_stub s self weight density st) ks.
Proof. intros [H1 H2]. split; auto. Qed.

Lemma histogramdd_out_cpu_tail (self : Tensor) (bins : list Tensor)
    (weight : option Tensor) (density : bool) :
  histogramdd_out_cpu self bins weight density =
  explicit_edges_tail histogramdd_stub self bins weight density.
Proof. reflexivity. Qed.

Lemma histogramdd_out_cpu_shaped (self : Tensor) (bins : list Tensor)
    (weight : option Tensor) (density : bool) (st st' : Store) :
  histogramdd_out_cpu self bins weight density st = (OK tt, st') ->
  shaped st' (map (fun b => numel b - 1) bins).
Proof.
  rewrite histogramdd_out_cpu_tail. intro H.
  destruct (explicit_edges_tail_OK _ _ _ _ _ _ _ _ H)
    as [_ [st1 [_ [Hlen [Hsh [_ [_ ->]]]]]]].
  now apply shaped_after_copy.
Qed.

Lemma histogramdd_out_cpu_bin_ct_shaped (self : Tensor) (bin_ct : list Z)
    (range : option (list float)) (weight : option Tensor) (density : bool)
    (st st' : Store) :
  histogramdd_out_cpu_bin_ct self bin_ct range weight density st = (OK tt, st') ->
  shaped st' (firstn (Z.to_nat (last (sizes self) 0)) bin_ct).
Proof.
  rewrite histogramdd_out_cpu_bin_ct_run.
  destruct (histogramdd_bin_edges_cpu self bin_ct range weight density) as [bins|e] eqn:Eb;
    try discriminate.
  intro H.
  destruct (explicit_edges_tail_OK _ _ _ _ _ _ _ _ H)
    as [_ [st1 [_ [Hlen [Hsh [Hpos [_ ->]]]]]]].
  rewrite <- (bin_counts_of_generated_edges _ _ _ _ _ _ Eb Hpos).
  now apply shaped_after_copy.
Qed.

Lemma histogram_out_cpu_bin_ct_shaped (self : Tensor) (k : Z)
    (range : option (list float)) (weight : option Tensor) (density : bool)
    (st st' : Store) :
  wf_tensor self ->
  histogram_out_cpu_bin_ct self k range weight density st = (OK tt, st') ->
  shaped st' [k].
Proof.
  intro Hwf. rewrite (histogram_out_cpu_bin_ct_run _ _ _ _ _ _ Hwf).
  destruct (histogramdd_prepare_out (reshape self [numel self; 1]) [k] st)
    as [[u|e] st1] eqn:Ep; try discriminate.
  destruct (prepare_out_1d_OK (reshape self [numel self; 1]) _ _ _ _ eq_refl Ep) as [e0 [_ [Hk [_ [_ ->]]]]].
  destruct (select_outer_bin_edges (reshape self [numel self; 1]) range)
    as [[ls rs]|e]; try discriminate.
  rewrite linspace_check_accumulate_run. sum_fits k Hfit.
  destruct (histogramdd_check_inputs _ _ _); try discriminate.
  intro H. injection H as <-. apply shaped_after_stub, shaped_1d; auto.
  apply sizes_resize_output.
Qed.

Lemma histogram_histc_cpu_out_shaped (self : Tensor) (k : Z) (min max : float)
    (st st' : Store) :
  histogram_histc_cpu_out self k min max st = (OK tt, st') -> shaped st' [k].
Proof.
  rewrite histogram_histc_cpu_out_run.
  destruct (histogramdd_prepare_out (reshape self [numel self; 1]) [k] _)
    as [[u|e] st1] eqn:Ep; try discriminate.
  destruct (prepare_out_1d_OK (reshape self [numel self; 1]) _ _ _ _ eq_refl Ep)
    as [e0 [_ [Hk [_ [_ ->]]]]].
  destruct (histc_select_outer_bin_edges self min max) as [[lo hi]|e]; try discriminate.
  rewrite linspace_check_accumulate_run. sum_fits k Hfit.
  destruct (histogramdd_check_inputs _ _ _); try discriminate.
  intro H. injection H as <-. apply shaped_after_stub, shaped_1d; auto.
  apply sizes_resize_output.
Qed.

(** C2.  Output preparation, given N bin counts and N edge buffers for an
    input of innermost dimension N, leaves [hist] with shape
    (k_0, ..., k_{N-1}) and every [bin_edges[d]] with k_d + 1 elements when
    it succeeds, and fails with [InvalidArgument] when some k_d <= 0 or
    when [hist] or an edge buffer has another dtype than the input.  Every
    entry point that returns successfully returns outputs of these shapes,
    the bin counts being the given ones in count mode and the number of
    edges minus one in explicit-edges mode. *)
Theorem output_shapes_after_success :
  (forall (input : Tensor) (bin_ct : list Z) (st : Store) (N : Z),
      size_m1 input = OK N ->
      Z.of_nat (length bin_ct) = N ->
      Z.of_nat (length (bin_edges st)) = N ->
      (forall st', histogramdd_prepare_out input bin_ct st = (OK tt, st') ->
                   shaped st' bin_ct) /\
      (Exists (fun k => k <= 0) bin_ct \/
       dtype (hist st) <> dtype input \/
       Exists (fun e => dtype e <> dtype input) (bin_edges st) ->
       exists m st',
         histogramdd_prepare_out input bin_ct st = (Err (InvalidArgument m), st'))) /\
  (forall self bins weight density st st',
      histogramdd_out_cpu self bins weight density st = (OK tt, st') ->
      shaped st' (map (fun b => numel b - 1) bins)) /\
  (forall self bins weight density st st',
      histogram_out_cpu self bins weight density st = (OK tt, st') ->
      shaped st' [numel bins - 1]) /\
  (forall self bin_ct range weight density st st',
      histogramdd_out_cpu_bin_ct self bin_ct range weight density st = (OK tt, st') ->
      shaped st' (firstn (Z.to_nat (last (sizes self) 0)) bin_ct)) /\
  (forall self bin_ct range weight density st st',
      wf_tensor self ->
      histogram_out_cpu_bin_ct self bin_ct range weight density st = (OK tt, st') ->
      shaped st' [bin_ct]) /\
  (forall self bin_ct min max st st',
      histogram_histc_cpu_out self bin_ct min max st = (OK tt, st') ->
      shaped st' [bin_ct]).
Proof.
  split; [|split; [|split; [|split; [|split]]]].
  - intros input bin_ct st N HN Hct Hes. split.
    + intros st' H. now destruct (prepare_out_shaped _ _ _ _ _ HN Hct Hes H).
    + now apply (prepare_out_rejects input bin_ct st N).
  - apply histogramdd_out_cpu_shaped.
  - intros self bins weight density st st' H.
    apply (histogramdd_out_cpu_shaped _ [bins] _ _ _ _ H).
  - apply histogramdd_out_cpu_bin_ct_shaped.
  - intros. eapply histogram_out_cpu_bin_ct_shaped; eauto.
  - apply histogram_histc_cpu_out_shaped.
Qed.

(** An instance of C2: three bins over [0, 3] for five samples. *)
Lemma output_shapes_after_success_witness :
  shaped (snd (histogram_out_cpu_bin_ct
                 (mkTensor Double [5] [0; 0.5; 1; 2; 3]%float) 3
                 (Some [0; 3]%float) None false
                 (mkStore (empty0 Double) [empty0 Double] []))) [3].
Proof.
  assert (Hwf : wf_tensor (mkTensor Double [5] [0; 0.5; 1; 2; 3]%float)).
  { split; [reflexivity|]. repeat constructor; simpl; lia. }
  apply (proj1 (proj2 (proj2 (proj2 (proj2 output_shapes_after_success))))
           (mkTensor Double [5] [0; 0.5; 1; 2; 3]%float) 3
           (Some [0; 3]%float) None false
           (mkStore (empty0 Double) [empty0 Double] []) _ Hwf).
  vm_compute. reflexivity.
Defined.

(* ------------------------------------------------------------------ *)
(** * The edges handed to the kernel *)

Lemma explicit_edges_tail_edges (s : stub) (self : Tensor) (bins : list Tensor)
    (weight : option Tensor) (density : bool) (st st' : Store) :
  explicit_edges_tail s self bins weight density st = (OK tt, st') ->
  map data (bin_edges st') = map data bins /\
  exists h,
    calls st' = calls st ++ [mkCall s self weight density (bin_edges st')] /\
    hist st' = histogramdd_kernel s self weight density h (bin_edges st').
Proof.
  intro H.
  destruct (explicit_edges_tail_OK _ _ _ _ _ _ _ _ H)
    as [_ [st1 [_ [Hlen [_ [_ [Hc ->]]]]]]].
  cbn [after_stub bin_edges calls hist]. split.
  - now apply data_zip_copy.
  - exists (hist st1). rewrite Hc. auto.
Qed.

(** C7.  In every successful call of an entry point that returns
    [bin_edges], in explicit-edges mode and in count+range mode alike, the
    edge tensors handed to the accumulation kernel are the tensors held by
    the caller-visible [bin_edges] when the call returns, and [hist] is the
    kernel's result for exactly these edges; in explicit-edges mode they
    hold the elements of the caller-supplied edges, and in N-dimensional
    count mode the elements of the generated edges. *)
Theorem binning_edges_are_returned_edges :
  (forall self bins weight density st st',
      histogramdd_out_cpu self bins weight density st = (OK tt, st') ->
      map data (bin_edges st') = map data bins /\
      exists h,
        calls st' = calls st ++
          [mkCall histogramdd_stub self weight density (bin_edges st')] /\
        hist st' = histogramdd_kernel histogramdd_stub self weight density h
                     (bin_edges st')) /\
  (forall self bins weight density st st',
      histogram_out_cpu self bins weight density st = (OK tt, st') ->
      map data (bin_edges st') = [data bins] /\
      exists h,
        calls st' = calls st ++
          [mkCall histogramdd_stub (reshape self [numel self; 1])
             (reshape_weight weight) density (bin_edges st')] /\
        hist st' = histogramdd_kernel histogramdd_stub (reshape self [numel self; 1])
                     (reshape_weight weight) density h (bin_edges st')) /\
  (forall self bin_ct range weight density st st',
      histogramdd_out_cpu_bin_ct self bin_ct range weight density st = (OK tt, st') ->
      exists bins h,
        histogramdd_bin_edges_cpu self bin_ct range weight density = OK bins /\
        map data (bin_edges st') = map data bins /\
        calls st' = calls st ++
          [mkCall (histogramdd_linear_stub true) self weight density (bin_edges st')] /\
        hist st' = histogramdd_kernel (histogramdd_linear_stub true) self weight
                     density h (bin_edges st')) /\
  (forall self bin_ct range weight density st st',
      wf_tensor self ->
      histogram_out_cpu_bin_ct self bin_ct range weight density st = (OK tt, st') ->
      exists h,
        calls st' = calls st ++
          [mkCall (histogramdd_linear_stub true) (reshape self [numel self; 1])
             (reshape_weight weight) density (bin_edges st')] /\
        hist st' = histogramdd_kernel (histogramdd_linear_stub true)
                     (reshape self [numel self; 1]) (reshape_weight weight) density h
                     (bin_edges st')).
Proof.
  split; [|split; [|split]].
  - intros self bins weight density st st'. rewrite histogramdd_out_cpu_tail.
    apply explicit_edges_tail_edges.
  - intros self bins weight density st st' H.
    apply (explicit_edges_tail_edges histogramdd_stub _ [bins] _ _ _ _ H).
  - intros self bin_ct range weight density st st'.
    rewrite histogramdd_out_cpu_bin_ct_run.
    destruct (histogramdd_bin_edges_cpu self bin_ct range weight density) as [bins|e];
      try discriminate.
    intro H. destruct (explicit_edges_tail_edges _ _ _ _ _ _ _ H) as [Hd [h [Hc Hh]]].
    exists bins, h. auto.
  - intros self k range weight density st st' Hwf.
    rewrite (histogram_out_cpu_bin_ct_run _ _ _ _ _ _ Hwf).
    destruct (histogramdd_prepare_out (reshape self [numel self; 1]) [k] st)
      as [[u|e] st1] eqn:Ep; try discriminate.
    destruct (prepare_out_1d_OK (reshape self [numel self; 1]) _ _ _ _ eq_refl Ep)
      as [e0 [_ [Hk [_ [_ ->]]]]].
    destruct (select_outer_bin_edges (reshape self [numel self; 1]) range)
      as [[ls rs]|e]; try discriminate.
    rewrite linspace_check_accumulate_run. sum_fits k Hfit.
    destruct (histogramdd_check_inputs _ _ _); try discriminate.
    intro H. injection H as <-. cbn [after_stub bin_edges calls hist]. eauto.
Qed.

(** An instance of C7: explicit edges [0, 1, 2] for five samples. *)
Lemma binning_edges_are_returned_edges_witness :
  map data (bin_edges (snd (histogram_out_cpu
                              (mkTensor Double [5] [0; 0.5; 1; 2; 3]%float)
                              (mkTensor Double [3] [0; 1; 2]%float) None false
                              (mkStore (empty0 Double) [empty0 Double] [])))) =
  [[0; 1; 2]%float].
Proof.
  apply (proj1 (proj2 binning_edges_are_returned_edges)
           (mkTensor Double [5] [0; 0.5; 1; 2; 3]%float)
           (mkTensor Double [3] [0; 1; 2]%float) None false
           (mkStore (empty0 Double) [empty0 Double] []) _).
  vm_compute. reflexivity.
Defined.

(* ------------------------------------------------------------------ *)
(** * Edge tensors with a single element *)

Lemma successful_bins_have_two_edges (s : stub) (self : Tensor) (bins : list Tensor)
    (weight : option Tensor) (density : bool) (st st' : Store) :
  explicit_edges_tail s self bins weight density st = (OK tt, st') ->
  Forall (fun b => 2 <= numel b) bins.
Proof.
  intro H.
  destruct (explicit_edges_tail_OK _ _ _ _ _ _ _ _ H) as [_ [st1 [_ [_ [_ [Hpos _]]]]]].
  rewrite Forall_forall in *. intros b Hb.
  assert (0 < numel b - 1); [|lia].
  apply Hpos. apply in_map_iff. eauto.
Qed.

(** C10.  Input validation accepts an edge tensor with a single element,
    but every explicit-edges call with such a tensor fails: when nothing
    else is wrong, output preparation rejects the derived bin count 0 with
    the "bins must be > 0" check for the first such dimension.  Hence every
    successful explicit-edges call has at least two edges in every
    dimension. *)
Theorem one_element_edges_are_rejected :
  (forall self bins weight b,
      inputs_valid self bins weight -> In b bins -> numel b = 1 ->
      histogramdd_check_inputs self bins weight = OK tt) /\
  (forall self bins weight density st,
      Exists (fun b => numel b = 1) bins ->
      exists e st', histogramdd_out_cpu self bins weight density st = (Err e, st')) /\
  (forall self bins weight density st d b,
      inputs_valid self bins weight ->
      dtype (hist st) = dtype self ->
      length (bin_edges st) = length bins ->
      Forall (fun e => dtype e = dtype self) (bin_edges st) ->
      nth_error bins d = Some b -> numel b = 1 ->
      (forall j b', (j < d)%nat -> nth_error bins j = Some b' -> numel b' <> 1) ->
      exists st',
        histogramdd_out_cpu self bins weight density st =
        (Err (InvalidArgument (bins_positive d)), st')) /\
  (forall self bins weight density st st',
      histogramdd_out_cpu self bins weight density st = (OK tt, st') ->
      Forall (fun b => 2 <= numel b) bins).
Proof.
  split; [|split; [|split]].
  - intros self bins weight b Hv _ _. now apply histogramdd_check_inputs_OK.
  - intros self bins weight density st Hex.
    destruct (histogramdd_out_cpu self bins weight density st) as [[[]|e] st'] eqn:E; eauto.
    exfalso. rewrite histogramdd_out_cpu_tail in E.
    apply successful_bins_have_two_edges in E.
    apply Exists_exists in Hex. destruct Hex as [b [Hin Hb]].
    rewrite Forall_forall in E. specialize (E b Hin). lia.
  - intros self bins weight density st d b Hv Hh Hlen Hes Hd Hb Hbefore.
    rewrite histogramdd_out_cpu_tail, explicit_edges_tail_run.
    rewrite (proj2 (histogramdd_check_inputs_OK _ _ _) Hv).
    destruct Hv as [Hdim [Hn [Hbins _]]].
    unfold histogramdd_prepare_out_bins.
    rewrite (histogramdd_prepare_out_run _ _ _ _ (dim_ge_2_size_m1 _ Hdim))
      by (rewrite ?length_map; lia).
    rewrite (proj2 (dtype_eqb_true _ _) (eq_sym Hh)).
    assert (Hfirst : fst (map_idx (prepare_edge self (map (fun t => numel t - 1) bins)) 0
                            (bin_edges st)) = Err (InvalidArgument (bins_positive d))).
    { assert (Hdl : (d < length (bin_edges st))%nat).
      { rewrite Hlen. apply nth_error_Some. congruence. }
      destruct (vec_at_lt _ _ Hdl) as [ed [_ Hed]].
      apply (map_idx_first_Err _ _ 0 d ed); auto.
      - cbn [Nat.add]. unfold prepare_edge, TORCH_CHECK.
        rewrite Forall_forall in Hes.
        rewrite (proj2 (dtype_eqb_true _ _) (eq_sym (Hes _ (nth_error_In _ _ Hed)))).
        cbn [bindR]. unfold vec_at. rewrite nth_error_map, Hd. cbn [option_map bindR].
        rewrite Hb. reflexivity.
      - intros j ej Hj Hej. cbn [Nat.add]. unfold prepare_edge, TORCH_CHECK.
        rewrite Forall_forall in Hes.
        rewrite (proj2 (dtype_eqb_true _ _) (eq_sym (Hes _ (nth_error_In _ _ Hej)))).
        cbn [bindR]. unfold vec_at. rewrite nth_error_map.
        destruct (nth_error bins j) as [bj|] eqn:Ebj.
        2:{ apply nth_error_None in Ebj.
            assert (d < length bins)%nat by (apply nth_error_Some; congruence). lia. }
        cbn [option_map bindR].
        assert (Hbj : 1 <= numel bj).
        { rewrite Forall_forall in Hbins. apply (Hbins bj (nth_error_In _ _ Ebj)). }
        pose proof (Hbefore j bj Hj Ebj) as Hne.
        rewrite (proj2 (Z.ltb_lt 0 (numel bj - 1))) by lia.
        cbn [bindR]. eauto. }
    destruct (map_idx (prepare_edge self (map (fun t => numel t - 1) bins)) 0 (bin_edges st))
      as [r es]. cbn [fst] in Hfirst. subst r. eauto.
  - intros self bins weight density st st'. rewrite histogramdd_out_cpu_tail.
    apply successful_bins_have_two_edges.
Qed.

(** An instance of C10: a single edge [5.0] for the sample [[5.0]]. *)
Lemma one_element_edges_are_rejected_witness :
  exists st',
    histogramdd_out_cpu (mkTensor Double [1; 1] [5%float])
      [mkTensor Double [1] [5%float]] None false
      (mkStore (empty0 Double) [empty0 Double] []) =
    (Err (InvalidArgument (bins_positive 0)), st').
Proof.
  apply (proj1 (proj2 (proj2 one_element_edges_are_rejected))
           (mkTensor Double [1; 1] [5%float])
           [mkTensor Double [1] [5%float]] None false
           (mkStore (empty0 Double) [empty0 Double] []) 0%nat
           (mkTensor Double [1] [5%float])).
  - unfold inputs_valid, edges_ok, weight_ok, dim, numel. simpl.
    split; [lia|]. split; [reflexivity|]. split; [|exact I].
    constructor; [|constructor]. split; [reflexivity|]. split; [reflexivity|simpl; lia].
  - reflexivity.
  - reflexivity.
  - repeat constructor.
  - reflexivity.
  - reflexivity.
  - intros j b' Hj. lia.
Defined.

(* ------------------------------------------------------------------ *)
(** * Failures and the state of the outputs *)

Lemma prepare_out_Err_kind (input : Tensor) (bin_ct : list Z) (st st' : Store)
    (e : error) (N : Z) :
  size_m1 input = OK N ->
  histogramdd_prepare_out input bin_ct st = (Err e, st') ->
  from_prepare_out e = true.
Proof.
  intros HN. rewrite histogramdd_prepare_out_eq, HN.
  destruct (Z.of_nat (length bin_ct) =? N) eqn:E1; cbn [negb].
  2:{ intro H. now injection H as <- _. }
  destruct (Z.of_nat (length (bin_edges st)) =? N) eqn:E2; cbn [negb].
  2:{ intro H. now injection H as <- _. }
  apply Z.eqb_eq in E1, E2.
  destruct (dtype_eqb (dtype input) (dtype (hist st))); cbn [negb].
  2:{ intro H. now injection H as <- _. }
  destruct (map_idx (prepare_edge input bin_ct) 0 (bin_edges st)) as [[u|e1] es] eqn:Em;
    try discriminate.
  intro H. injection H as <- _.
  destruct (map_idx_Err _ _ _ _ _ Em) as [j [t [Hj [Hf _]]]]. cbn [Nat.add] in Hf.
  assert (Hlt : (j < length bin_ct)%nat).
  { assert (j < length (bin_edges st))%nat by (apply nth_error_Some; congruence). lia. }
  destruct (prepare_edge_Err _ _ _ _ _ Hlt Hf) as [[-> _]|[-> _]]; reflexivity.
Qed.

Lemma explicit_edges_tail_Err (s : stub) (self : Tensor) (bins : list Tensor)
    (weight : option Tensor) (density : bool) (st st' : Store) (e : error) :
  explicit_edges_tail s self bins weight density st = (Err e, st') ->
  hist st' = hist st /\ calls st' = calls st /\
  (from_prepare_out e = false -> st' = st).
Proof.
  rewrite explicit_edges_tail_run.
  destruct (histogramdd_check_inputs self bins weight) as [[]|e0] eqn:Ec.
  - apply histogramdd_check_inputs_OK in Ec. destruct Ec as [Hdim _].
    destruct (histogramdd_prepare_out_bins self bins st) as [[[]|e1] st1] eqn:Ep;
      try discriminate.
    intro H. injection H as <- <-. unfold histogramdd_prepare_out_bins in Ep.
    destruct (prepare_out_Err_store _ _ _ _ _ Ep) as [Hh [Hc _]].
    repeat split; auto.
    rewrite (prepare_out_Err_kind _ _ _ _ _ _ (dim_ge_2_size_m1 _ Hdim) Ep).
    discriminate.
  - intro H. injection H as _ <-. auto.
Qed.

(** Output preparation for one dimension on buffers of the dtype of the
    input: only the bin count can be rejected. *)
Lemma prepare_out_1d_run (self h0 e0 : Tensor) (k : Z) (c : list KernelCall) :
  dtype h0 = dtype self -> dtype e0 = dtype self ->
  histogramdd_prepare_out (reshape self [numel self; 1]) [k] (mkStore h0 [e0] c) =
  if 0 <? k
  then (OK tt, mkStore (resize_output h0 [k]) [resize_output e0 [k + 1]] c)
  else (Err (InvalidArgument (bins_positive 0)), mkStore h0 [e0] c).
Proof.
  intros Hh He.
  rewrite (histogramdd_prepare_out_run _ _ _ 1) by reflexivity.
  cbn [hist bin_edges calls reshape dtype]. rewrite Hh.
  rewrite (proj2 (dtype_eqb_true _ _) eq_refl).
  cbn [map_idx]. unfold prepare_edge, TORCH_CHECK. cbn [reshape dtype]. rewrite He.
  rewrite (proj2 (dtype_eqb_true _ _) eq_refl).
  cbn [bindR vec_at nth_error].
  destruct (0 <? k); reflexivity.
Qed.


(** The failures of histogram on a bin count, in the order of the source:
    output preparation, outer-range validation, input validation. *)
Lemma histogram_out_cpu_bin_ct_prepare_Err (self : Tensor) (k : Z)
    (range : option (list float)) (weight : option Tensor) (density : bool)
    (st st1 : Store) (e : error) :
  wf_tensor self ->
  histogramdd_prepare_out (reshape self [numel self; 1]) [k] st = (Err e, st1) ->
  histogram_out_cpu_bin_ct self k range weight density st = (Err e, st).
Proof.
  intros Hwf Ep. rewrite (histogram_out_cpu_bin_ct_run _ _ _ _ _ _ Hwf), Ep.
  destruct (prepare_out_Err_store _ _ _ _ _ Ep) as [_ [_ [_ Hsame]]].
  f_equal. apply (Hsame 1); [reflexivity|lia].
Qed.

Lemma shaped_prepared (st : Store) (e0 : Tensor) (k : Z) : shaped (prepared st e0 k) [k].
Proof.
  split; [apply sizes_resize_output|].
  cbn [prepared bin_edges]. constructor; [|constructor]. apply sizes_resize_output.
Qed.

Lemma shaped_generated (st : Store) (e0 : Tensor) (k : Z) (lo hi : float) :
  0 < k -> shaped (generated st e0 k lo hi) [k].
Proof. intro Hk. apply shaped_1d; auto. apply sizes_resize_output. Qed.

Lemma histogram_out_cpu_bin_ct_later_Err (self : Tensor) (k : Z)
    (range : option (list float)) (weight : option Tensor) (density : bool)
    (st : Store) (e0 : Tensor) :
  wf_tensor self ->
  bin_edges st = [e0] -> dtype (hist st) = dtype self -> dtype e0 = dtype self ->
  0 < k -> k < int64_max ->
  (forall e,
      select_outer_bin_edges (reshape self [numel self; 1]) range = Err e ->
      histogram_out_cpu_bin_ct self k range weight density st =
      (Err e, prepared st e0 k)) /\
  (forall ls rs e,
      select_outer_bin_edges (reshape self [numel self; 1]) range = OK (ls, rs) ->
      histogramdd_check_inputs (reshape self [numel self; 1])
        [linspace_cpu_out (hd 0%float ls) (hd 0%float rs) (k + 1)
           (resize_output e0 [k + 1])] (reshape_weight weight) = Err e ->
      histogram_out_cpu_bin_ct self k range weight density st =
      (Err e, generated st e0 k (hd 0%float ls) (hd 0%float rs))).
Proof.
  intros Hwf Hes Hh He Hk Hmax.
  destruct st as [h es c]. cbn [bin_edges hist calls] in *. subst es.
  rewrite (histogram_out_cpu_bin_ct_run _ _ _ _ _ _ Hwf).
  rewrite (prepare_out_1d_run self h e0 k c Hh He), (proj2 (Z.ltb_lt _ _) Hk).
  split.
  - intros e Hsel. now rewrite Hsel.
  - intros ls rs e Hsel Hc. rewrite Hsel, linspace_check_accumulate_run.
    rewrite add_int64_succ by lia. now rewrite Hc.
Qed.

Lemma histogram_out_cpu_bin_ct_Err (self : Tensor) (k : Z)
    (range : option (list float)) (weight : option Tensor) (density : bool)
    (st st' : Store) (e : error) :
  wf_tensor self -> k < int64_max ->
  histogram_out_cpu_bin_ct self k range weight density st = (Err e, st') ->
  (st' = st /\
   exists st1,
     histogramdd_prepare_out (reshape self [numel self; 1]) [k] st = (Err e, st1)) \/
  (shaped st' [k] /\ calls st' = calls st /\
   (select_outer_bin_edges (reshape self [numel self; 1]) range = Err e \/
    histogramdd_check_inputs (reshape self [numel self; 1]) (bin_edges st')
      (reshape_weight weight) = Err e)).
Proof.
  intros Hwf Hmax. rewrite (histogram_out_cpu_bin_ct_run _ _ _ _ _ _ Hwf).
  destruct (histogramdd_prepare_out (reshape self [numel self; 1]) [k] st)
    as [[u|e0] st1] eqn:Ep.
  - destruct (prepare_out_1d_OK (reshape self [numel self; 1]) _ _ _ _ eq_refl Ep)
      as [e0 [_ [Hk [_ [_ ->]]]]].
    destruct (select_outer_bin_edges (reshape self [numel self; 1]) range)
      as [[ls rs]|e1].
    + rewrite linspace_check_accumulate_run. rewrite add_int64_succ by lia.
      destruct (histogramdd_check_inputs _ _ _) as [[]|e2] eqn:Ec; try discriminate.
      intro H. injection H as <- <-. right. cbn [bin_edges calls].
      split; [|split; auto].
      apply shaped_1d; auto. apply sizes_resize_output.
    + intro H. injection H as <- <-. right. cbn [calls].
      split; [|split; auto].
      split; [apply sizes_resize_output|].
      cbn [bin_edges]. constructor; [|constructor]. apply sizes_resize_output.
  - intro H. injection H as <- <-. left.
    destruct (prepare_out_Err_store _ _ _ _ _ Ep) as [_ [_ [_ Hsame]]].
    split; [apply (Hsame 1); [reflexivity|lia]|eauto].
Qed.

(** The failures of histc: output preparation on the local edge tensor,
    then the selection of the outer edges; the generated edges pass input
    validation. *)
Lemma histogram_histc_cpu_out_later_Err (self : Tensor) (k : Z) (min max : float)
    (st : Store) (e : error) :
  dtype (hist st) = dtype self -> 0 < k ->
  histc_select_outer_bin_edges self min max = Err e ->
  histogram_histc_cpu_out self k min max st =
  (Err e, prepared st (empty0 (dtype self)) k).
Proof.
  intros Hh Hk Hsel. rewrite histogram_histc_cpu_out_run.
  rewrite (prepare_out_1d_run self (hist st) (empty0 (dtype self)) k (calls st) Hh eq_refl).
  now rewrite (proj2 (Z.ltb_lt _ _) Hk), Hsel.
Qed.

Lemma histogram_histc_cpu_out_Err (self : Tensor) (k : Z) (min max : float)
    (st st' : Store) (e : error) :
  k < int64_max ->
  histogram_histc_cpu_out self k min max st = (Err e, st') ->
  (hist st' = hist st /\
   exists st1,
     histogramdd_prepare_out (reshape self [numel self; 1]) [k]
       (mkStore (hist st) [empty0 (dtype self)] (calls st)) = (Err e, st1)) \/
  (st' = prepared st (empty0 (dtype self)) k /\
   histc_select_outer_bin_edges self min max = Err e).
Proof.
  intro Hmax. rewrite histogram_histc_cpu_out_run.
  destruct (histogramdd_prepare_out (reshape self [numel self; 1]) [k] _)
    as [[u|e0] st1] eqn:Ep.
  - destruct (prepare_out_1d_OK (reshape self [numel self; 1]) _ _ _ _ eq_refl Ep)
      as [e0 [Hb [Hk [He0 [_ ->]]]]].
    cbn [hist bin_edges calls] in *. injection Hb as <-.
    destruct (histc_select_outer_bin_edges self min max) as [[lo hi]|e1].
    + rewrite linspace_check_accumulate_run. rewrite add_int64_succ by lia.
      rewrite check_inputs_generated; [discriminate|auto|].
      now rewrite dtype_resize_output.
    + intro H. injection H as <- <-. right. auto.
  - intro H. injection H as <- <-. left.
    destruct (prepare_out_Err_store _ _ _ _ _ Ep) as [Hh _]. split; eauto.
Qed.

(** C1, as the code has it.  In histogramdd (both overloads) and in
    histogram on an edge tensor, a failure of a check outside
    [histogramdd_prepare_out] leaves the outputs untouched, and a failure
    inside it leaves [hist] untouched.  In histogram on a bin count and in
    histc, [histogramdd_prepare_out] runs first.  A failure inside it
    leaves the outputs untouched.  When it passes (outputs of the dtype of
    the input, a positive count below INT64_MAX), a failure of outer-range
    validation returns the outputs as preparation left them, [hist]
    resized to (bin_ct) and [bin_edges] (in histc a local tensor) to
    bin_ct + 1 elements, and a failure of input validation returns them
    with the bin_ct + 1 edges generated; in histc input validation cannot
    fail.  These are the only failures. *)
Theorem failures_and_output_mutation :
  (forall self bins weight density,
      validation_precedes_mutation (histogramdd_out_cpu self bins weight density) /\
      forall st e st',
        histogramdd_out_cpu self bins weight density st = (Err e, st') ->
        hist st' = hist st) /\
  (forall self bins weight density,
      validation_precedes_mutation (histogram_out_cpu self bins weight density) /\
      forall st e st',
        histogram_out_cpu self bins weight density st = (Err e, st') ->
        hist st' = hist st) /\
  (forall self bin_ct range weight density,
      validation_precedes_mutation
        (histogramdd_out_cpu_bin_ct self bin_ct range weight density) /\
      forall st e st',
        histogramdd_out_cpu_bin_ct self bin_ct range weight density st = (Err e, st') ->
        hist st' = hist st) /\
  (forall self bin_ct range weight density st,
      wf_tensor self ->
      (forall e st1,
          histogramdd_prepare_out (reshape self [numel self; 1]) [bin_ct] st =
            (Err e, st1) ->
          histogram_out_cpu_bin_ct self bin_ct range weight density st = (Err e, st)) /\
      (forall e0,
          bin_edges st = [e0] ->
          dtype (hist st) = dtype self -> dtype e0 = dtype self ->
          0 < bin_ct -> bin_ct < int64_max ->
          shaped (prepared st e0 bin_ct) [bin_ct] /\
          (forall e,
              select_outer_bin_edges (reshape self [numel self; 1]) range = Err e ->
              histogram_out_cpu_bin_ct self bin_ct range weight density st =
              (Err e, prepared st e0 bin_ct)) /\
          (forall ls rs e,
              select_outer_bin_edges (reshape self [numel self; 1]) range =
                OK (ls, rs) ->
              histogramdd_check_inputs (reshape self [numel self; 1])
                [linspace_cpu_out (hd 0%float ls) (hd 0%float rs) (bin_ct + 1)
                   (resize_output e0 [bin_ct + 1])] (reshape_weight weight) = Err e ->
              histogram_out_cpu_bin_ct self bin_ct range weight density st =
              (Err e, generated st e0 bin_ct (hd 0%float ls) (hd 0%float rs)) /\
              shaped (generated st e0 bin_ct (hd 0%float ls) (hd 0%float rs))
                [bin_ct])) /\
      (forall e st',
          bin_ct < int64_max ->
          histogram_out_cpu_bin_ct self bin_ct range weight density st = (Err e, st') ->
          (st' = st /\
           exists st1,
             histogramdd_prepare_out (reshape self [numel self; 1]) [bin_ct] st =
               (Err e, st1)) \/
          (shaped st' [bin_ct] /\ calls st' = calls st /\
           (select_outer_bin_edges (reshape self [numel self; 1]) range = Err e \/
            histogramdd_check_inputs (reshape self [numel self; 1]) (bin_edges st')
              (reshape_weight weight) = Err e)))) /\
  (forall self bin_ct min max st,
      (forall e st1,
          histogramdd_prepare_out (reshape self [numel self; 1]) [bin_ct]
            (mkStore (hist st) [empty0 (dtype self)] (calls st)) = (Err e, st1) ->
          histogram_histc_cpu_out self bin_ct min max st = (Err e, st1) /\
          hist st1 = hist st) /\
      (dtype (hist st) = dtype self -> 0 < bin_ct -> bin_ct < int64_max ->
       shaped (prepared st (empty0 (dtype self)) bin_ct) [bin_ct] /\
       forall e,
         histc_select_outer_bin_edges self min max = Err e ->
         histogram_histc_cpu_out self bin_ct min max st =
         (Err e, prepared st (empty0 (dtype self)) bin_ct)) /\
      (forall e st',
          bin_ct < int64_max ->
          histogram_histc_cpu_out self bin_ct min max st = (Err e, st') ->
          (hist st' = hist st /\
           exists st1,
             histogramdd_prepare_out (reshape self [numel self; 1]) [bin_ct]
               (mkStore (hist st) [empty0 (dtype self)] (calls st)) = (Err e, st1)) \/
          (st' = prepared st (empty0 (dtype self)) bin_ct /\
           histc_select_outer_bin_edges self min max = Err e))).
Proof.
  assert (Htail : forall s self bins weight density,
             validation_precedes_mutation (explicit_edges_tail s self bins weight density) /\
             forall st e st',
               explicit_edges_tail s self bins weight density st = (Err e, st') ->
               hist st' = hist st).
  { intros s self bins weight density. split.
    - intros st e st' H. now apply (explicit_edges_tail_Err _ _ _ _ _ _ _ _ H).
    - intros st e st' H. now apply (explicit_edges_tail_Err _ _ _ _ _ _ _ _ H). }
  split; [|split; [|split; [|split]]].
  - intros self bins weight density. apply Htail.
  - intros self bins weight density. apply (Htail histogramdd_stub _ [bins]).
  - intros self bin_ct range weight density. split.
    + intros st e st'. rewrite histogramdd_out_cpu_bin_ct_run.
      destruct (histogramdd_bin_edges_cpu self bin_ct range weight density) as [bins|e0].
      * apply Htail.
      * intro H. now injection H as _ <-.
    + intros st e st'. rewrite histogramdd_out_cpu_bin_ct_run.
      destruct (histogramdd_bin_edges_cpu self bin_ct range weight density) as [bins|e0].
      * apply Htail.
      * intro H. now injection H as _ <-.
  - intros self k range weight density st Hwf. split; [|split].
    + intros e st1. now apply histogram_out_cpu_bin_ct_prepare_Err.
    + intros e0 Hes Hh He Hk Hmax.
      destruct (histogram_out_cpu_bin_ct_later_Err self k range weight density st e0
                  Hwf Hes Hh He Hk Hmax) as [H1 H2].
      split; [apply shaped_prepared|]. split; [exact H1|].
      intros ls rs e Hsel Hc. split; [now apply H2|now apply shaped_generated].
    + intros e st' Hmax. now apply histogram_out_cpu_bin_ct_Err.
  - intros self k mn mx st. split; [|split].
    + intros e st1 Ep. rewrite histogram_histc_cpu_out_run, Ep. split; [reflexivity|].
      now destruct (prepare_out_Err_store _ _ _ _ _ Ep) as [Hh _].
    + intros Hh Hk Hmax. split; [apply shaped_prepared|].
      intros e. now apply histogram_histc_cpu_out_later_Err.
    + intros e st' Hmax. now apply histogram_histc_cpu_out_Err.
Qed.

(** An instance of C1: an inverted range [1, 0] for three bins leaves
    [hist] with 3 elements and [bin_edges] with 4. *)
Lemma failures_and_output_mutation_witness :
  histogram_out_cpu_bin_ct (mkTensor Double [2] [1; 2]%float) 3
    (Some [1; 0]%float) None false (mkStore (empty0 Double) [empty0 Double] []) =
  (Err (InvalidArgument (range_min_exceeds_max 0)),
   mkStore (mkTensor Double [3] [0; 0; 0]%float)
     [mkTensor Double [4] [0; 0; 0; 0]%float] []).
Proof.
  assert (Hwf : wf_tensor (mkTensor Double [2] [1; 2]%float)).
  { split; [reflexivity|]. repeat constructor; simpl; lia. }
  assert (Hmax : 3 < int64_max) by reflexivity.
  exact (proj1 (proj2
           (proj1 (proj2 (proj1 (proj2 (proj2 (proj2 failures_and_output_mutation)))
                            (mkTensor Double [2] [1; 2]%float) 3 (Some [1; 0]%float)
                            None false (mkStore (empty0 Double) [empty0 Double] [])
                            Hwf))
              (empty0 Double) eq_refl eq_refl eq_refl eq_refl Hmax))
           (InvalidArgument (range_min_exceeds_max 0)) eq_refl).
Defined.

(** C1 as stated fails: with the inverted range [1, 0] the call
    histogram(self, 3, range) fails in outer-range validation, an error
    that does not come from the output-buffer check, after [hist] was
    resized to 3 elements and [bin_edges] to 4. *)
Lemma range_validation_follows_resize :
  ~ validation_precedes_mutation
      (histogram_out_cpu_bin_ct (mkTensor Double [2] [1; 2]%float) 3
         (Some [1; 0]%float) None false).
Proof.
  intro H.
  specialize (H (mkStore (empty0 Double) [empty0 Double] [])
                (InvalidArgument (range_min_exceeds_max 0))
                (mkStore (mkTensor Double [3] [0; 0; 0]%float)
                   [mkTensor Double [4] [0; 0; 0; 0]%float] [])).
  assert (Hrun : histogram_out_cpu_bin_ct (mkTensor Double [2] [1; 2]%float) 3
                   (Some [1; 0]%float) None false
                   (mkStore (empty0 Double) [empty0 Double] []) =
                 (Err (InvalidArgument (range_min_exceeds_max 0)),
                  mkStore (mkTensor Double [3] [0; 0; 0]%float)
                    [mkTensor Double [4] [0; 0; 0; 0]%float] [])).
  { vm_compute. reflexivity. }
  specialize (H Hrun eq_refl). discriminate H.
Qed.

(* ------------------------------------------------------------------ *)
(** * The one-dimensional entry points as adapters *)

Lemma select_outer_given_range (self : Tensor) (mn mx : float) :
  wf_tensor self ->
  isfinite mn = true -> isfinite mx = true -> (mn <? mx)%float = true ->
  select_outer_bin_edges (reshape self [numel self; 1]) (Some [mn; mx]) =
  OK ([mn], [mx]).
Proof.
  intros Hwf Hmn Hmx Hlt.
  rewrite (select_outer_bin_edges_eq _ _ (reshape_1d_wf _ Hwf) eq_refl).
  unfold resolve_outer. cbn [reshape sizes last length].
  change (Z.of_nat 2 =? 2 * 1) with true. cbn [pairs_of_range bindR map_idx].
  unfold validate_expand_pair, TORCH_CHECK, expand_pair. cbn [fst snd].
  rewrite Hmn, Hmx, (ltb_leb _ _ Hlt), (ltb_eqb_false _ _ Hlt). reflexivity.
Qed.

Lemma histc_select_given_range (self : Tensor) (mn mx : float) :
  isfinite mn = true -> isfinite mx = true -> (mn <? mx)%float = true ->
  histc_select_outer_bin_edges self mn mx = OK (mn, mx).
Proof.
  intros Hmn Hmx Hlt. unfold histc_select_outer_bin_edges.
  rewrite (ltb_eqb_false _ _ Hlt). cbn [bindR].
  rewrite (ltb_eqb_false _ _ Hlt). rewrite histc_checks, Hmn, Hmx. cbn [andb negb].
  pose proof (ltb_negb_leb _ _ (isfinite_not_nan _ Hmn) (isfinite_not_nan _ Hmx)) as H.
  rewrite Hlt in H. destruct (mx <=? mn)%float; [discriminate|reflexivity].
Qed.

Lemma histogram_cpu_as_histogramdd (self bins : Tensor) (weight : option Tensor)
    (density : bool) :
  match histogram_cpu self bins weight density with
  | OK (h, e) =>
      histogramdd_cpu (reshape self [numel self; 1]) [bins]
        (reshape_weight weight) density = OK h /\
      data e = data bins
  | Err err =>
      histogramdd_cpu (reshape self [numel self; 1]) [bins]
        (reshape_weight weight) density = Err err
  end.
Proof.
  unfold histogram_cpu, histogramdd_cpu, histogram_out_cpu.
  rewrite allocate_bin_edges_tensors_eq.
  change (2 <=? dim (reshape self [numel self; 1])) with true.
  change (Z.to_nat (last (sizes (reshape self [numel self; 1])) 0)) with 1%nat.
  change (dtype (reshape self [numel self; 1])) with (dtype self).
  cbn [repeat bindR].
  set (rs := reshape self [numel self; 1]).
  unfold run_fresh. rewrite !histogramdd_out_cpu_tail, !explicit_edges_tail_run.
  destruct (histogramdd_check_inputs rs [bins] (reshape_weight weight)) as [[]|e] eqn:Ec;
    cbn [bindR]; auto.
  apply histogramdd_check_inputs_OK in Ec. destruct Ec as [_ [_ [Hb _]]].
  inversion Hb as [|? ? [Hd _] _]; subst. change (dtype rs) with (dtype self) in Hd.
  rewrite Hd.
  destruct (histogramdd_prepare_out_bins rs [bins]
              (mkStore (empty0 (dtype self)) [empty0 (dtype self)] []))
    as [[u|e] st1] eqn:Ep; cbn [bindR]; auto.
  unfold histogramdd_prepare_out_bins in Ep. cbn [map] in Ep.
  destruct (prepare_out_1d_OK rs _ _ _ _ eq_refl Ep) as [e0 [_ [_ [_ [_ ->]]]]].
  cbn [after_stub bin_edges hist calls zip_copy combine map fst snd hist_and_edges
       vec_at nth_error bindR copy_ data].
  auto.
Qed.

(** C8.  The one-dimensional entry points are adapters of the
    N-dimensional pipeline.  histogram on an edge tensor is histogramdd on
    the input reshaped to (numel, 1), with the edge tensor wrapped in a
    one-element list and the weight flattened, both in the [_out] form and
    in the allocating form.  histc reshapes its input to (numel, 1) and
    runs the N-dimensional output preparation, input validation and linear
    kernel; for finite min < max it prepares the same outputs, generates
    the same edges and hands the kernel the same arguments as histogram on
    a bin count with range [min, max], no weight and no density, run on an
    empty [bin_edges] tensor. *)
Theorem one_dimensional_entry_points_are_adapters :
  (forall self bins weight density,
      histogram_out_cpu self bins weight density =
      histogramdd_out_cpu (reshape self [numel self; 1]) [bins]
        (reshape_weight weight) density) /\
  (forall w, reshape_weight (Some w) = Some (reshape w [numel w])) /\
  (forall self bins weight density,
      match histogram_cpu self bins weight density with
      | OK (h, e) =>
          histogramdd_cpu (reshape self [numel self; 1]) [bins]
            (reshape_weight weight) density = OK h /\
          data e = data bins
      | Err err =>
          histogramdd_cpu (reshape self [numel self; 1]) [bins]
            (reshape_weight weight) density = Err err
      end) /\
  (forall self bin_ct min max st,
      histogram_histc_cpu_out self bin_ct min max st =
      match histogramdd_prepare_out (reshape self [numel self; 1]) [bin_ct]
              (mkStore (hist st) [empty0 (dtype self)] (calls st)) with
      | (Err e, st1) => (Err e, st1)
      | (OK _, st1) =>
          match histc_select_outer_bin_edges self min max with
          | Err e => (Err e, st1)
          | OK (lo, hi) =>
              linspace_check_accumulate (histogramdd_linear_stub false)
                (reshape self [numel self; 1]) None false lo hi bin_ct st1
          end
      end) /\
  (forall self bin_ct min max st,
      wf_tensor self ->
      isfinite min = true -> isfinite max = true -> (min <? max)%float = true ->
      let r1 := histogram_histc_cpu_out self bin_ct min max st in
      let r2 := histogram_out_cpu_bin_ct self bin_ct (Some [min; max]) None false
                  (mkStore (hist st) [empty0 (dtype self)] (calls st)) in
      fst r1 = fst r2 /\
      bin_edges (snd r1) = bin_edges (snd r2) /\
      sizes (hist (snd r1)) = sizes (hist (snd r2)) /\
      map call_args (calls (snd r1)) = map call_args (calls (snd r2))).
Proof.
  split; [|split; [|split; [|split]]].
  - reflexivity.
  - reflexivity.
  - apply histogram_cpu_as_histogramdd.
  - apply histogram_histc_cpu_out_run.
  - intros self k mn mx st Hwf Hmn Hmx Hlt r1 r2. subst r1 r2.
    rewrite histogram_histc_cpu_out_run, (histogram_out_cpu_bin_ct_run _ _ _ _ _ _ Hwf).
    rewrite (select_outer_given_range _ _ _ Hwf Hmn Hmx Hlt).
    rewrite (histc_select_given_range self _ _ Hmn Hmx Hlt).
    destruct (histogramdd_prepare_out (reshape self [numel self; 1]) [k] _)
      as [[u|e] st1] eqn:Ep; auto.
    destruct (prepare_out_1d_OK (reshape self [numel self; 1]) _ _ _ _ eq_refl Ep)
      as [e0 [_ [_ [_ [_ ->]]]]].
    cbn [hd reshape_weight]. rewrite !linspace_check_accumulate_run.
    destruct (add_int64 k 1) as [steps|eo]; [|auto].
    destruct (histogramdd_check_inputs _ _ _); cbn [fst snd after_stub bin_edges hist calls];
      auto.
    rewrite !map_app. auto.
Qed.

(** An instance of C8: four bins over [0, 3] for five samples. *)
Lemma one_dimensional_entry_points_are_adapters_witness :
  let self := mkTensor Double [5] [0; 0.5; 1; 2; 3]%float in
  let st := mkStore (empty0 Double) [empty0 Double] [] in
  bin_edges (snd (histogram_histc_cpu_out self 4 0%float 3%float st)) =
  bin_edges (snd (histogram_out_cpu_bin_ct self 4 (Some [0; 3]%float) None false st)).
Proof.
  assert (Hwf : wf_tensor (mkTensor Double [5] [0; 0.5; 1; 2; 3]%float)).
  { split; [reflexivity|]. repeat constructor; simpl; lia. }
  exact (proj1 (proj2
           (proj2 (proj2 (proj2 (proj2 one_dimensional_entry_points_are_adapters)))
              (mkTensor Double [5] [0; 0.5; 1; 2; 3]%float) 4 0%float 3%float
              (mkStore (empty0 Double) [empty0 Double] []) Hwf eq_refl eq_refl eq_refl))).
Defined.

(* ------------------------------------------------------------------ *)
(** * Accumulation: proofs about the spec-level kernel *)

Local Open Scope float_scope.









Local Close Scope float_scope.


Local Open Scope float_scope.








Local Close Scope float_scope.









Lemma length_rows_of (m n : nat) (d : list float) : length (rows_of m n d) = m.
Proof. revert d. induction m as [|m IH]; intro d; simpl; auto. Qed.



(* ------------------------------------------------------------------ *)
(** * The embedding on the examples of the spec (section 8) *)

(** Weight scaling: samples 0, 0, 1 with weights 2, 3, 5 in two bins over
    [0, 1] give the histogram [5, 5]. *)
Example weight_scaling :
  histogram_cpu_bin_ct (mkTensor Double [3; 1] [0; 0; 1]%float) 2
    (Some [0; 1]%float) (Some (mkTensor Double [3] [2; 3; 5]%float)) false =
  OK (mkTensor Double [2] [5; 5]%float, mkTensor Double [3] [0; 0.5; 1]%float).
Proof. vm_compute. reflexivity. Qed.

(** Density: the cells times their volumes sum to 1. *)
Example density_normalization :
  histogram_cpu (mkTensor Double [5] [0; 0.5; 1; 2; 3]%float)
    (mkTensor Double [3] [0; 1; 2]%float) None true =
  OK (mkTensor Double [2] [0.5; 0.5]%float, mkTensor Double [3] [0; 1; 2]%float).
Proof. vm_compute. reflexivity. Qed.

(** histc: equal bounds are replaced by the extrema of the data. *)
Example histc_from_data :
  histogram_histc_cpu (mkTensor Double [5] [0; 0.5; 1; 2; 3]%float) 4 0%float 0%float =
  OK (mkTensor Double [4] [2; 1; 1; 1]%float).
Proof. vm_compute. reflexivity. Qed.

(** An inverted range is rejected. *)
Example inverted_range :
  histogram_cpu_bin_ct (mkTensor Double [2] [1; 2]%float) 3 (Some [1; 0]%float)
    None false = Err (InvalidArgument (range_min_exceeds_max 0)).
Proof. vm_compute. reflexivity. Qed.

(* ------------------------------------------------------------------ *)
(** * Further properties: allocation and input validation *)

Lemma for_range_ext {S : Type} (body body' : nat -> S -> Res S) :
  (forall i s, body i s = body' i s) ->
  forall count start s, for_range start count body s = for_range start count body' s.
Proof.
  intros Hext. induction count as [|c IH]; intros start s; simpl; auto.
  rewrite Hext. destruct (body' start s); simpl; auto.
Qed.

Lemma for_range_unit_first (body : nat -> unit -> Res unit) (count start d : nat)
    (e : error) :
  (start <= d < start + count)%nat ->
  (forall j, (start <= j < d)%nat -> body j tt = OK tt) ->
  body d tt = Err e ->
  for_range start count body tt = Err e.
Proof.
  revert start. induction count as [|c IH]; intros start Hd Hbefore He; [lia|].
  simpl. destruct (Nat.eq_dec start d) as [->|Hne].
  - now rewrite He.
  - rewrite Hbefore by lia. simpl. apply IH; auto; try lia.
    intros j Hj. apply Hbefore. lia.
Qed.

(** X1.  [allocate_bin_edges_tensors] fails, with the rank check, exactly
    on an input of rank below 2; otherwise it returns as many tensors as
    the innermost dimension of the input has elements, every one of them
    empty (shape [0]) and of the dtype of the input. *)
Theorem allocate_bin_edges_tensors_result :
  forall self : Tensor,
    (dim self < 2 ->
     allocate_bin_edges_tensors self = Err (InvalidArgument input_rank)) /\
    (2 <= dim self ->
     exists outs,
       allocate_bin_edges_tensors self = OK outs /\
       Z.of_nat (length outs) = Z.max 0 (last (sizes self) 0) /\
       Forall (fun t => dtype t = dtype self /\ sizes t = [0] /\ data t = []) outs).
Proof.
  intro self. rewrite allocate_bin_edges_tensors_eq. split; intro H.
  - now rewrite (proj2 (Z.leb_gt _ _) H).
  - rewrite (proj2 (Z.leb_le _ _) H). eexists. split; [reflexivity|]. split.
    + rewrite repeat_length. lia.
    + apply Forall_forall. intros t Ht. apply repeat_spec in Ht. subst t. auto.
Qed.

(** An instance of X1: a 3 x 2 input gets two empty edge tensors. *)
Lemma allocate_bin_edges_tensors_result_witness :
  exists outs,
    allocate_bin_edges_tensors (mkTensor Double [3; 2] []) = OK outs /\
    Z.of_nat (length outs) = Z.max 0 (last (sizes (mkTensor Double [3; 2] [])) 0) /\
    Forall (fun t => dtype t = Double /\ sizes t = [0] /\ data t = []) outs.
Proof.
  apply (proj2 (allocate_bin_edges_tensors_result (mkTensor Double [3; 2] []))).
  unfold dim. simpl. lia.
Defined.

(** X2.  Input validation reads dtypes and sizes only: it gives the same
    verdict, with the same error, on the tensors with their elements
    removed. *)
Theorem check_inputs_reads_no_element :
  forall (input : Tensor) (bins : list Tensor) (weight : option Tensor),
    histogramdd_check_inputs input bins weight =
    histogramdd_check_inputs (without_elements input) (map without_elements bins)
      (option_map without_elements weight).
Proof.
  intros input bins weight. unfold histogramdd_check_inputs.
  rewrite length_map.
  change (dim (without_elements input)) with (dim input).
  change (size_m1 (without_elements input)) with (size_m1 input).
  destruct (TORCH_CHECK (2 <=? dim input) input_rank); cbn [bindR]; auto.
  destruct (size_m1 input) as [N|e]; cbn [bindR]; auto.
  destruct (TORCH_CHECK (Z.of_nat (length bins) =? N) bins_count); cbn [bindR]; auto.
  rewrite (for_range_ext (check_bins_dim input bins)
             (check_bins_dim (without_elements input) (map without_elements bins))).
  - destruct (for_range 0 (Z.to_nat N) _ tt); cbn [bindR]; auto.
    destruct weight; reflexivity.
  - intros i s. unfold check_bins_dim, vec_at. rewrite nth_error_map.
    destruct (nth_error bins i); reflexivity.
Qed.

Lemma check_bins_dim_violation (input : Tensor) (bins : list Tensor) (d : nat) (b : Tensor) :
  nth_error bins d = Some b -> ~ edges_ok input b ->
  check_bins_dim input bins d tt = Err (InvalidArgument (bins_violation input b d)).
Proof.
  intros Hd Hbad. unfold check_bins_dim, bins_violation, TORCH_CHECK.
  rewrite (proj2 (vec_at_OK _ _ _) Hd). cbn [bindR].
  destruct (dtype_eqb (dtype input) (dtype b)) eqn:E1; cbn [bindR negb]; auto.
  destruct (dim b =? 1) eqn:E2; cbn [bindR negb]; auto.
  destruct (0 <? numel b) eqn:E3; cbn [bindR]; auto.
  exfalso. apply Hbad. apply dtype_eqb_true in E1. apply Z.eqb_eq in E2.
  apply Z.ltb_lt in E3. unfold edges_ok. repeat split; auto; lia.
Qed.

(** X3.  The error of input validation is that of the first check that
    fails, in the order of the source: the rank of the input; then the
    number of edge tensors; then, for the lowest dimension whose edge
    tensor is not acceptable, its dtype, its rank or its number of
    elements; and the weight only when every edge tensor is acceptable,
    its dtype before its shape. *)
Theorem check_inputs_reports_first_violation :
  forall (input : Tensor) (bins : list Tensor) (weight : option Tensor),
    (dim input < 2 ->
     histogramdd_check_inputs input bins weight = Err (InvalidArgument input_rank)) /\
    (2 <= dim input -> Z.of_nat (length bins) <> last (sizes input) 0 ->
     histogramdd_check_inputs input bins weight = Err (InvalidArgument bins_count)) /\
    (forall d b,
        2 <= dim input -> Z.of_nat (length bins) = last (sizes input) 0 ->
        nth_error bins d = Some b -> ~ edges_ok input b ->
        (forall j b', (j < d)%nat -> nth_error bins j = Some b' -> edges_ok input b') ->
        histogramdd_check_inputs input bins weight =
        Err (InvalidArgument (bins_violation input b d))) /\
    (forall w,
        2 <= dim input -> Z.of_nat (length bins) = last (sizes input) 0 ->
        Forall (edges_ok input) bins -> weight = Some w ->
        (dtype w <> dtype input ->
         histogramdd_check_inputs input bins weight = Err (InvalidArgument weight_dtype)) /\
        (dtype w = dtype input -> weight_sizes_of w <> removelast (sizes input) ->
         histogramdd_check_inputs input bins weight = Err (InvalidArgument weight_shape))).
Proof.
  intros input bins weight. unfold histogramdd_check_inputs.
  split; [|split; [|split]].
  - intro H. unfold TORCH_CHECK. now rewrite (proj2 (Z.leb_gt _ _) H).
  - intros H Hn. unfold TORCH_CHECK. rewrite (proj2 (Z.leb_le _ _) H). cbn [bindR].
    rewrite (dim_ge_2_size_m1 _ H). cbn [bindR].
    now rewrite (proj2 (Z.eqb_neq _ _) Hn).
  - intros d b H Hn Hd Hbad Hbefore. unfold TORCH_CHECK.
    rewrite (proj2 (Z.leb_le _ _) H). cbn [bindR].
    rewrite (dim_ge_2_size_m1 _ H). cbn [bindR].
    rewrite (proj2 (Z.eqb_eq _ _) Hn). cbn [bindR].
    rewrite (for_range_unit_first _ _ _ d (InvalidArgument (bins_violation input b d))).
    + reflexivity.
    + assert (d < length bins)%nat by (apply nth_error_Some; congruence). lia.
    + intros j Hj. apply check_bins_dim_OK.
      destruct (nth_error bins j) as [b'|] eqn:Eb.
      * exists b'. split; auto. apply (Hbefore j); auto. lia.
      * apply nth_error_None in Eb.
        assert (d < length bins)%nat by (apply nth_error_Some; congruence). lia.
    + now apply check_bins_dim_violation.
  - intros w H Hn Hbins ->. unfold TORCH_CHECK at 1.
    rewrite (proj2 (Z.leb_le _ _) H). cbn [bindR].
    rewrite (dim_ge_2_size_m1 _ H). cbn [bindR].
    unfold TORCH_CHECK at 1. rewrite (proj2 (Z.eqb_eq _ _) Hn). cbn [bindR].
    assert (Hloop : for_range 0 (Z.to_nat (last (sizes input) 0))
                      (check_bins_dim input bins) tt = OK tt).
    { apply for_range_unit_OK. intros i Hi. apply check_bins_dim_OK.
      apply (proj1 (Forall_by_index _ _) Hbins). lia. }
    rewrite Hloop. cbn [bindR]. unfold TORCH_CHECK. split.
    + intro Hd. destruct (dtype_eqb (dtype input) (dtype w)) eqn:E; auto.
      apply dtype_eqb_true in E. congruence.
    + intros Hd Hs. rewrite (proj2 (dtype_eqb_true _ _) (eq_sym Hd)). cbn [bindR].
      destruct (sizes_eqb (removelast (sizes input)) (weight_sizes_of w)) eqn:E; auto.
      apply sizes_eqb_true in E. congruence.
Qed.

(** An instance of X3: the second edge tensor of a 2-column input is
    two-dimensional. *)
Lemma check_inputs_reports_first_violation_witness :
  histogramdd_check_inputs (mkTensor Double [1; 2] [1; 2]%float)
    [mkTensor Double [2] [0; 1]%float; mkTensor Double [1; 2] [0; 1]%float] None =
  Err (InvalidArgument (bins_rank 1)).
Proof.
  apply (proj1 (proj2 (proj2 (check_inputs_reports_first_violation
           (mkTensor Double [1; 2] [1; 2]%float)
           [mkTensor Double [2] [0; 1]%float; mkTensor Double [1; 2] [0; 1]%float]
           None))) 1%nat (mkTensor Double [1; 2] [0; 1]%float)).
  - unfold dim. simpl. lia.
  - reflexivity.
  - reflexivity.
  - unfold edges_ok, dim. simpl. intros [_ [H _]]. lia.
  - intros [|[|j]] b' Hj Hb; try lia. simpl in Hb. injection Hb as <-.
    unfold edges_ok, dim, numel. simpl. repeat split; lia.
Defined.

(* ------------------------------------------------------------------ *)
(** * Further properties: output preparation *)

Lemma map_idx_fixed {A} (f : nat -> A -> Res A) (ts : list A) (i : nat) :
  (forall j t, nth_error ts j = Some t -> f (i + j)%nat t = OK t) ->
  map_idx f i ts = (OK tt, ts).
Proof.
  revert i. induction ts as [|t ts IH]; intros i H; cbn [map_idx]; auto.
  pose proof (H O t eq_refl) as H0. rewrite Nat.add_0_r in H0. rewrite H0.
  rewrite IH; auto.
  intros j t0 Hj. replace (S i + j)%nat with (i + S j)%nat by lia. now apply H.
Qed.

Lemma map_idx_all_OK {A} (f : nat -> A -> Res A) (ts : list A) (i : nat) :
  (forall j t, nth_error ts j = Some t -> exists t', f (i + j)%nat t = OK t') ->
  exists ts', map_idx f i ts = (OK tt, ts').
Proof.
  intro H. destruct (map_idx f i ts) as [[[]|e] ts'] eqn:E; eauto.
  destruct (map_idx_Err _ _ _ _ _ E) as [j [t [Hj [Hf _]]]].
  destruct (H j t Hj) as [t' Ht']. congruence.
Qed.

Lemma resize_output_same (t : Tensor) (shape : list Z) :
  sizes t = shape -> resize_output t shape = t.
Proof.
  intro H. unfold resize_output.
  now rewrite (proj2 (sizes_eqb_true _ _) H).
Qed.

(** Preparation leaves outputs that are already prepared as they are. *)
Lemma prepare_out_fixed (input : Tensor) (bin_ct : list Z) (st : Store) (N : Z) :
  size_m1 input = OK N ->
  Z.of_nat (length bin_ct) = N ->
  dtype (hist st) = dtype input ->
  Forall (fun e => dtype e = dtype input) (bin_edges st) ->
  Forall (fun k => 0 < k) bin_ct ->
  shaped st bin_ct ->
  histogramdd_prepare_out input bin_ct st = (OK tt, st).
Proof.
  intros HN Hct Hh He Hpos [Hsh HF].
  pose proof (length_Forall2 _ _ _ HF) as Hlen.
  rewrite (histogramdd_prepare_out_run _ _ _ N HN Hct) by lia.
  rewrite (proj2 (dtype_eqb_true _ _) (eq_sym Hh)).
  rewrite map_idx_fixed.
  - rewrite (resize_output_same _ _ Hsh). now rewrite store_eta.
  - intros j t Hj. cbn [Nat.add]. unfold prepare_edge, TORCH_CHECK.
    assert (Hd : dtype t = dtype input).
    { rewrite Forall_forall in He. apply He. eapply nth_error_In; eauto. }
    rewrite (proj2 (dtype_eqb_true _ _) (eq_sym Hd)). cbn [bindR].
    assert (Hlt : (j < length bin_ct)%nat).
    { rewrite <- Hlen. apply nth_error_Some. congruence. }
    destruct (vec_at_lt bin_ct j Hlt) as [k [Hk Hn]]. rewrite Hk. cbn [bindR].
    assert (Hkpos : 0 < k).
    { rewrite Forall_forall in Hpos. apply Hpos. eapply nth_error_In; eauto. }
    rewrite (proj2 (Z.ltb_lt _ _) Hkpos). cbn [bindR]. f_equal.
    apply resize_output_same.
    assert (HP : forall (l : list Tensor) (r : list Z),
               Forall2 (fun e k => sizes e = [k + 1]) l r ->
               forall i a b, nth_error l i = Some a -> nth_error r i = Some b ->
                             sizes a = [b + 1]).
    { induction 1; intros [|i] a b Ha Hb; simpl in *; try discriminate.
      - congruence.
      - eauto. }
    exact (HP _ _ HF j t k Hj Hn).
Qed.

(** X4.  [histogramdd_prepare_out] reallocates nothing that already has
    the requested shape: outputs of the dtype of the input, with [hist] of
    shape [bin_ct] and every [bin_edges[d]] of [bin_ct[d] + 1] elements,
    all counts positive, are left exactly as they are, contents included.
    Hence preparing twice is the same as preparing once. *)
Theorem prepare_out_keeps_prepared_outputs :
  forall (input : Tensor) (bin_ct : list Z) (st : Store),
    (forall N,
        size_m1 input = OK N ->
        Z.of_nat (length bin_ct) = N ->
        dtype (hist st) = dtype input ->
        Forall (fun e => dtype e = dtype input) (bin_edges st) ->
        Forall (fun k => 0 < k) bin_ct ->
        shaped st bin_ct ->
        histogramdd_prepare_out input bin_ct st = (OK tt, st)) /\
    (forall st1,
        histogramdd_prepare_out input bin_ct st = (OK tt, st1) ->
        histogramdd_prepare_out input bin_ct st1 = (OK tt, st1)).
Proof.
  intros input bin_ct st. split.
  - intros N. apply prepare_out_fixed.
  - intros st1 H.
    destruct (prepare_out_inv_OK _ _ _ _ _ H) as [N [HN [Hct Hes]]].
    destruct (prepare_out_shaped _ _ _ _ _ HN Hct Hes H) as [Hsh [_ [Hh [He Hpos]]]].
    now apply (prepare_out_fixed input bin_ct st1 N).
Qed.

(** An instance of X4: a prepared pair of buffers for 2 bins keeps its
    contents. *)
Lemma prepare_out_keeps_prepared_outputs_witness :
  histogramdd_prepare_out (mkTensor Double [3; 1] [1; 2; 3]%float) [2]
    (mkStore (mkTensor Double [2] [7; 8]%float)
             [mkTensor Double [3] [0; 1; 2]%float] []) =
  (OK tt, mkStore (mkTensor Double [2] [7; 8]%float)
                  [mkTensor Double [3] [0; 1; 2]%float] []).
Proof.
  apply (proj1 (prepare_out_keeps_prepared_outputs
                  (mkTensor Double [3; 1] [1; 2; 3]%float) [2]
                  (mkStore (mkTensor Double [2] [7; 8]%float)
                           [mkTensor Double [3] [0; 1; 2]%float] [])) 1).
  - reflexivity.
  - reflexivity.
  - reflexivity.
  - repeat constructor.
  - repeat constructor.
  - split; [reflexivity|]. repeat constructor.
Defined.

(** X5.  When the sizes asserted by [histogramdd_prepare_out] hold,
    [hist] has the dtype of the input and every count is below INT64_MAX,
    so that no [bin_ct[d] + 1] overflows, a failure comes from one
    dimension [d], the first whose edge buffer has another dtype or whose
    bin count is not positive.  The edge buffers before [d] have been
    resized by then, each to the [int64_t] sum [bin_ct[j] + 1]; the
    buffers from [d] on and [hist] are as they were. *)
Theorem prepare_out_failure_is_partial :
  forall (input : Tensor) (bin_ct : list Z) (st st' : Store) (e : error) (N : Z),
    size_m1 input = OK N ->
    Z.of_nat (length bin_ct) = N ->
    Z.of_nat (length (bin_edges st)) = N ->
    dtype (hist st) = dtype input ->
    Forall (fun k => k < int64_max) bin_ct ->
    histogramdd_prepare_out input bin_ct st = (Err e, st') ->
    exists d t,
      nth_error (bin_edges st) d = Some t /\
      (e = InvalidArgument (bin_edges_dtype d) /\ dtype t <> dtype input \/
       e = InvalidArgument (bins_positive d) /\ dtype t = dtype input /\
       exists k, nth_error bin_ct d = Some k /\ k <= 0) /\
      hist st' = hist st /\
      (forall j, (d <= j)%nat ->
         nth_error (bin_edges st') j = nth_error (bin_edges st) j) /\
      (forall j t0, (j < d)%nat -> nth_error (bin_edges st) j = Some t0 ->
         exists k s,
           nth_error bin_ct j = Some k /\ 0 < k /\ add_int64 k 1 = OK s /\
           dtype t0 = dtype input /\
           nth_error (bin_edges st') j = Some (resize_output t0 [s])).
Proof.
  intros input bin_ct st st' e N HN Hct Hes Hh Hmax.
  rewrite (histogramdd_prepare_out_run _ _ _ N HN Hct Hes).
  rewrite (proj2 (dtype_eqb_true _ _) (eq_sym Hh)).
  destruct (map_idx (prepare_edge input bin_ct) 0 (bin_edges st)) as [[[]|e1] es] eqn:E;
    try discriminate.
  intro H. injection H as <- <-.
  destruct (map_idx_Err _ _ _ _ _ E) as [d [t [Hd [Hf [Hl [Hbefore Hafter]]]]]].
  cbn [Nat.add] in Hf.
  assert (Hlt : (d < length bin_ct)%nat).
  { assert (d < length (bin_edges st))%nat by (apply nth_error_Some; congruence). lia. }
  exists d, t. cbn [hist bin_edges]. split; [exact Hd|]. split.
  - destruct (prepare_edge_Err _ _ _ _ _ Hlt Hf) as [[-> H1]|[-> H1]]; auto.
  - split; [reflexivity|]. split; [exact Hafter|].
    intros j t0 Hj Ht0. destruct (Hbefore j t0 Hj Ht0) as [t' [Hft Hn]].
    cbn [Nat.add] in Hft. apply prepare_edge_OK in Hft.
    destruct Hft as [Hdt [k [Hk [Hpos ->]]]]. exists k, (k + 1).
    split; [exact Hk|]. split; [exact Hpos|]. split; [|auto].
    apply add_int64_succ; [lia|].
    rewrite Forall_forall in Hmax. apply Hmax. eapply nth_error_In; eauto.
Qed.

(** An instance of X5: the second of two bin counts is zero; the first
    edge buffer has been resized to 4 elements by then. *)
Lemma prepare_out_failure_is_partial_witness :
  exists d t,
    nth_error [empty0 Double; empty0 Double] d = Some t /\
    (InvalidArgument (bins_positive 1) = InvalidArgument (bin_edges_dtype d) /\
       dtype t <> Double \/
     InvalidArgument (bins_positive 1) = InvalidArgument (bins_positive d) /\
       dtype t = Double /\
       exists k, nth_error [3; 0] d = Some k /\ k <= 0) /\
    hist (mkStore (empty0 Double)
            [mkTensor Double [4] [0; 0; 0; 0]%float; empty0 Double] []) =
    empty0 Double /\
    (forall j, (d <= j)%nat ->
       nth_error [mkTensor Double [4] [0; 0; 0; 0]%float; empty0 Double] j =
       nth_error [empty0 Double; empty0 Double] j) /\
    (forall j t0, (j < d)%nat ->
       nth_error [empty0 Double; empty0 Double] j = Some t0 ->
       exists k s,
         nth_error [3; 0] j = Some k /\ 0 < k /\ add_int64 k 1 = OK s /\
         dtype t0 = Double /\
         nth_error [mkTensor Double [4] [0; 0; 0; 0]%float; empty0 Double] j =
         Some (resize_output t0 [s])).
Proof.
  apply (prepare_out_failure_is_partial
           (mkTensor Double [1; 2] [1; 2]%float) [3; 0]
           (mkStore (empty0 Double) [empty0 Double; empty0 Double] [])
           (mkStore (empty0 Double)
              [mkTensor Double [4] [0; 0; 0; 0]%float; empty0 Double] [])
           (InvalidArgument (bins_positive 1)) 2).
  - reflexivity.
  - reflexivity.
  - reflexivity.
  - reflexivity.
  - repeat constructor.
  - reflexivity.
Defined.

(* ------------------------------------------------------------------ *)
(** * Further properties: the outermost edges *)

Lemma map_expand_pair_ordered (ps : list (float * float)) :
  Forall (fun p => (fst p <? snd p)%float = true) ps -> map expand_pair ps = ps.
Proof.
  induction 1 as [|p ps Hp _ IH]; cbn [map]; auto.
  rewrite IH. unfold expand_pair. now rewrite (ltb_eqb_false _ _ Hp).
Qed.

(** X6.  A supplied range of 2N finite bounds with low < high in every
    dimension is returned as it is, pair by pair: nothing is widened, and
    the result does not depend on the samples. *)
Theorem select_outer_keeps_proper_range :
  forall (input : Tensor) (r : list float),
    wf_tensor input -> dim input = 2 ->
    Z.of_nat (length r) = 2 * last (sizes input) 0 ->
    Forall (fun p => isfinite (fst p) = true /\ isfinite (snd p) = true /\
                     (fst p <? snd p)%float = true) (pairs_of_range r) ->
    select_outer_bin_edges input (Some r) =
    OK (map fst (pairs_of_range r), map snd (pairs_of_range r)).
Proof.
  intros input r Hwf Hdim Hlen Hall.
  rewrite (select_outer_bin_edges_eq _ _ Hwf Hdim). unfold resolve_outer.
  rewrite (proj2 (Z.eqb_eq _ _) Hlen). cbn [bindR].
  destruct (map_idx_validate (pairs_of_range r) 0) as [H1 _].
  rewrite H1.
  - rewrite map_expand_pair_ordered; auto.
    eapply Forall_impl; [|exact Hall]. intros p Hp. apply Hp.
  - apply forallb_forall. intros p Hp. rewrite Forall_forall in Hall.
    destruct (Hall p Hp) as [Ha [Hb Hc]]. unfold valid_pair.
    now rewrite Ha, Hb, (ltb_leb _ _ Hc).
Qed.

(** An instance of X6: the range (0, 1, -2, 2) for samples with two
    columns. *)
Lemma select_outer_keeps_proper_range_witness :
  select_outer_bin_edges (mkTensor Double [1; 2] [5; 6]%float)
    (Some [0; 1; -2; 2]%float) =
  OK ([0; -2]%float, [1; 2]%float).
Proof.
  apply (select_outer_keeps_proper_range (mkTensor Double [1; 2] [5; 6]%float)
           [0; 1; -2; 2]%float).
  - split; [reflexivity|]. repeat constructor; lia.
  - reflexivity.
  - reflexivity.
  - repeat constructor.
Defined.

(** X7.  The error of [select_outer_bin_edges] on resolved bounds that are
    not all valid is that of the first dimension with an invalid pair, and
    for that dimension a non-finite bound is reported before
    min > max. *)
Theorem select_outer_reports_first_invalid_pair :
  forall (input : Tensor) (range : option (list float))
         (ps : list (float * float)) (d : nat) (p : float * float),
    wf_tensor input -> dim input = 2 ->
    resolve_outer input range = OK ps ->
    nth_error ps d = Some p ->
    valid_pair p = false ->
    (forall j q, (j < d)%nat -> nth_error ps j = Some q -> valid_pair q = true) ->
    select_outer_bin_edges input range =
    Err (InvalidArgument
           (if isfinite (fst p) && isfinite (snd p)
            then range_min_exceeds_max d else range_not_finite d)).
Proof.
  intros input range ps d p Hwf Hdim Hres Hd Hbad Hbefore.
  rewrite (select_outer_bin_edges_eq _ _ Hwf Hdim), Hres. cbn [bindR].
  assert (H : fst (map_idx validate_expand_pair 0 ps) =
              Err (InvalidArgument
                     (if isfinite (fst p) && isfinite (snd p)
                      then range_min_exceeds_max d else range_not_finite d))).
  { apply (map_idx_first_Err validate_expand_pair ps 0 d p); auto.
    - cbn [Nat.add]. unfold validate_expand_pair, TORCH_CHECK.
      unfold valid_pair in Hbad.
      destruct (isfinite (fst p) && isfinite (snd p)); cbn [bindR]; auto.
      cbn [andb] in Hbad. now rewrite Hbad.
    - intros j q Hj Hq. exists (expand_pair q).
      apply (proj1 (validate_expand_pair_cases _ q)). eauto. }
  destruct (map_idx validate_expand_pair 0 ps) as [res qs]. cbn [fst] in H.
  now rewrite H.
Qed.

(** An instance of X7: the second pair of the range is (3, 1). *)
Lemma select_outer_reports_first_invalid_pair_witness :
  select_outer_bin_edges (mkTensor Double [1; 2] [5; 6]%float)
    (Some [0; 1; 3; 1]%float) =
  Err (InvalidArgument (range_min_exceeds_max 1)).
Proof.
  apply (select_outer_reports_first_invalid_pair
           (mkTensor Double [1; 2] [5; 6]%float) (Some [0; 1; 3; 1]%float)
           [(0, 1); (3, 1)]%float 1%nat (3, 1)%float).
  - split; [reflexivity|]. repeat constructor; lia.
  - reflexivity.
  - reflexivity.
  - reflexivity.
  - reflexivity.
  - intros [|j] q Hj Hq; [|lia]. injection Hq as <-. reflexivity.
Defined.

Lemma isnan_eqb_false (x y : float) :
  isnan x = true -> (x =? y)%float = false /\ (y =? x)%float = false.
Proof.
  intro H. assert (Hx : Prim2SF x = S754_nan).
  { destruct (Prim2SF x) eqn:E; auto; exfalso;
      assert (Hn : isnan x = false)
        by (apply is_nan_SFeqb; rewrite E; apply SFeqb_refl; discriminate);
      congruence. }
  rewrite !eqb_spec, Hx. split; [reflexivity|].
  unfold SFeqb. now destruct (Prim2SF y) as [[]|[]| |[] ? ?].
Qed.

(** X8.  In [histc_select_outer_bin_edges] equality of the two bounds is
    the only trigger of the recomputation from the data: a NaN bound,
    which equals nothing, is never replaced and is always rejected as not
    finite; and any two equal bounds, whatever their value, give the
    result of any other two equal bounds. *)
Theorem histc_equal_bounds_are_the_only_sentinel :
  forall (input : Tensor) (min max : float),
    (isnan min = true \/ isnan max = true ->
     histc_select_outer_bin_edges input min max =
     Err (InvalidArgument histc_not_finite)) /\
    (forall min' max' : float,
        (min =? max)%float = true -> (min' =? max')%float = true ->
        histc_select_outer_bin_edges input min max =
        histc_select_outer_bin_edges input min' max').
Proof.
  intros input mn mx. split.
  - intro H. unfold histc_select_outer_bin_edges, TORCH_CHECK.
    assert (E : (mn =? mx)%float = false).
    { destruct H as [H|H];
        [apply (isnan_eqb_false mn mx H)|apply (isnan_eqb_false mx mn H)]. }
    rewrite E. cbn [bindR]. rewrite E.
    destruct H as [H|H]; rewrite H;
      destruct (isinf mn), (isinf mx), (isnan mn), (isnan mx); reflexivity.
  - intros mn' mx' H H'. unfold histc_select_outer_bin_edges. now rewrite H, H'.
Qed.

(** An instance of X8: a NaN lower bound. *)
Lemma histc_equal_bounds_are_the_only_sentinel_witness :
  histc_select_outer_bin_edges (mkTensor Double [2] [1; 2]%float) nan 5%float =
  Err (InvalidArgument histc_not_finite).
Proof.
  apply (proj1 (histc_equal_bounds_are_the_only_sentinel
                  (mkTensor Double [2] [1; 2]%float) nan 5%float)).
  left. reflexivity.
Defined.

(* ------------------------------------------------------------------ *)
(** * Further properties: the entry points *)

Lemma nth_error_firstn_lt {A} (l : list A) (n i : nat) :
  (i < n)%nat -> nth_error (firstn n l) i = nth_error l i.
Proof.
  intro Hi. rewrite nth_error_firstn. now rewrite (proj2 (Nat.ltb_lt _ _) Hi).
Qed.

Lemma bin_edges_cpu_run (self : Tensor) (bin_ct : list Z)
    (range : option (list float)) (weight : option Tensor) (density : bool)
    (ls rs : list float) :
  wf_tensor self -> 2 <= dim self ->
  (Z.to_nat (last (sizes self) 0%Z) <= length bin_ct)%nat ->
  Forall (fun k => 0 <= k) bin_ct ->
  Forall (fun k => k < int64_max) (firstn (Z.to_nat (last (sizes self) 0%Z)) bin_ct) ->
  select_outer_bin_edges
    (reshape self [fold_right Z.mul 1 (removelast (sizes self)); last (sizes self) 0])
    range = OK (ls, rs) ->
  exists bins, histogramdd_bin_edges_cpu self bin_ct range weight density = OK bins.
Proof.
  intros Hwf Hdim Hct Hnn Hmax Hsel.
  destruct (select_outer_lengths _ _ _ _ _ _ (reshape_MN_wf _ Hwf Hdim) eq_refl Hsel)
    as [Hls Hrs].
  unfold histogramdd_bin_edges_cpu. rewrite allocate_bin_edges_tensors_eq.
  rewrite (proj2 (Z.leb_le _ _) Hdim). cbn [bindR].
  unfold histogramdd_bin_edges_out_cpu. rewrite (dim_ge_2_size_m1 _ Hdim). cbn [bindR].
  rewrite Hsel. cbn [bindR].
  rewrite (for_range_pointwise (linspace_edge (ls, rs) bin_ct))
    by (try apply linspace_dim_eq; now rewrite repeat_length).
  cbn [skipn firstn app].
  destruct (map_idx_all_OK (linspace_edge (ls, rs) bin_ct)
              (repeat (empty0 (dtype self)) (Z.to_nat (last (sizes self) 0))) 0)
    as [ys Hys].
  - intros j t Hj. cbn [Nat.add].
    assert (Hlt : (j < Z.to_nat (last (sizes self) 0%Z))%nat).
    { rewrite <- (repeat_length (empty0 (dtype self))). apply nth_error_Some. congruence. }
    unfold linspace_edge. cbn [fst snd].
    destruct (vec_at_lt ls j ltac:(lia)) as [lo [-> _]].
    destruct (vec_at_lt rs j ltac:(lia)) as [hi [-> _]].
    destruct (vec_at_lt bin_ct j ltac:(lia)) as [k [-> Hk]].
    cbn [bindR]. rewrite add_int64_succ.
    + cbn [bindR]. eauto.
    + rewrite Forall_forall in Hnn. apply Hnn. eapply nth_error_In; eauto.
    + rewrite Forall_forall in Hmax. apply Hmax.
      apply (nth_error_In _ j). now rewrite nth_error_firstn_lt.
  - rewrite Hys. eauto.
Qed.

(** Every count that was read had a successor that fits. *)
Lemma bin_edges_cpu_fits (self : Tensor) (bin_ct : list Z)
    (range : option (list float)) (weight : option Tensor) (density : bool)
    (bins : list Tensor) :
  histogramdd_bin_edges_cpu self bin_ct range weight density = OK bins ->
  Forall (fun k => k < int64_max) (firstn (Z.to_nat (last (sizes self) 0%Z)) bin_ct).
Proof.
  intro H. unfold histogramdd_bin_edges_cpu in H.
  rewrite allocate_bin_edges_tensors_eq in H.
  destruct (2 <=? dim self) eqn:E; cbn [bindR] in H; try discriminate.
  apply Z.leb_le in E. unfold histogramdd_bin_edges_out_cpu in H.
  rewrite (dim_ge_2_size_m1 _ E) in H. cbn [bindR] in H.
  destruct (select_outer_bin_edges _ range) as [[ls rs]|e]; cbn [bindR] in H;
    try discriminate.
  rewrite (for_range_pointwise (linspace_edge (ls, rs) bin_ct)) in H
    by (try apply linspace_dim_eq; now rewrite repeat_length).
  cbn [skipn firstn app] in H.
  destruct (map_idx (linspace_edge (ls, rs) bin_ct) 0 _) as [[u|e] ys] eqn:Em;
    try discriminate.
  destruct (map_idx_OK _ _ _ _ _ Em) as [_ Hn].
  apply Forall_forall. intros k Hk. apply In_nth_error in Hk. destruct Hk as [j Hj].
  assert (Hlt : (j < Z.to_nat (last (sizes self) 0%Z))%nat).
  { assert (Hl : (j < length (firstn (Z.to_nat (last (sizes self) 0%Z)) bin_ct))%nat)
      by (apply nth_error_Some; congruence).
    rewrite length_firstn in Hl. lia. }
  rewrite nth_error_firstn_lt in Hj by exact Hlt.
  assert (Hr : nth_error (repeat (empty0 (dtype self)) (Z.to_nat (last (sizes self) 0))) j
               = Some (empty0 (dtype self))) by now apply nth_error_repeat.
  destruct (Hn _ _ Hr) as [t' [Hf _]]. cbn [Nat.add] in Hf.
  unfold linspace_edge in Hf. cbn [fst snd] in Hf. unfold vec_at in Hf.
  destruct (nth_error ls j); cbn [bindR] in Hf; try discriminate.
  destruct (nth_error rs j); cbn [bindR] in Hf; try discriminate.
  rewrite Hj in Hf. cbn [bindR] in Hf.
  destruct (add_int64 k 1) as [steps|] eqn:Ea; cbn [bindR] in Hf; try discriminate.
  apply add_int64_OK in Ea. unfold int64_max in *. lia.
Qed.

(** X9.  [histogramdd_bin_edges_cpu] validates neither the bin counts nor
    the weight: with a count for every dimension, none of them negative,
    it succeeds exactly when the input has rank at least 2, the outer
    edges can be selected and, for each of the N counts, [bin_ct[d] + 1]
    fits [int64_t], that is, no count is INT64_MAX.  It then returns one
    edge tensor for each dimension, one-dimensional, of the dtype of the
    input, with [bin_ct[d] + 1] elements, one element for a count of
    zero. *)
Theorem bin_edges_cpu_succeeds_iff :
  forall (self : Tensor) (bin_ct : list Z) (range : option (list float))
         (weight : option Tensor) (density : bool),
    wf_tensor self ->
    (Z.to_nat (last (sizes self) 0%Z) <= length bin_ct)%nat ->
    Forall (fun k => 0 <= k) bin_ct ->
    ((exists bins,
         histogramdd_bin_edges_cpu self bin_ct range weight density = OK bins) <->
     2 <= dim self /\
     (exists ls rs,
        select_outer_bin_edges
          (reshape self [fold_right Z.mul 1 (removelast (sizes self));
                         last (sizes self) 0]) range = OK (ls, rs)) /\
     Forall (fun k => k < int64_max)
       (firstn (Z.to_nat (last (sizes self) 0%Z)) bin_ct)) /\
    (forall bins,
        histogramdd_bin_edges_cpu self bin_ct range weight density = OK bins ->
        length bins = Z.to_nat (last (sizes self) 0) /\
        forall d b k,
          nth_error bins d = Some b -> nth_error bin_ct d = Some k ->
          dtype b = dtype self /\ sizes b = [k + 1]).
Proof.
  intros self bin_ct range weight density Hwf Hct Hnn. split; [split|].
  - intros [bins H]. pose proof (histogramdd_bin_edges_cpu_OK _ _ _ _ _ _ H) as H'.
    cbv zeta in H'. destruct H' as [Hdim [ls [rs [Hsel _]]]].
    split; [exact Hdim|]. split; [eauto|]. exact (bin_edges_cpu_fits _ _ _ _ _ _ H).
  - intros [Hdim [[ls [rs Hsel]] Hmax]].
    now apply (bin_edges_cpu_run _ _ _ _ _ ls rs).
  - intros bins H. pose proof (histogramdd_bin_edges_cpu_OK _ _ _ _ _ _ H) as H'.
    cbv zeta in H'. destruct H' as [_ [ls [rs [_ [Hlen Hn]]]]]. split; auto.
    intros d b k Hb Hk.
    assert (Hd : (d < Z.to_nat (last (sizes self) 0%Z))%nat).
    { rewrite <- Hlen. apply nth_error_Some. congruence. }
    destruct (Hn d Hd) as [lo [hi [k' [_ [_ [Hk' Hb']]]]]].
    assert (k' = k) by congruence. subst k'.
    assert (b = linspace_cpu_out lo hi (k + 1) (empty0 (dtype self))) by congruence.
    subst b. split; [reflexivity|].
    cbn [linspace_cpu_out sizes]. rewrite length_linspace_values. f_equal.
    assert (0 <= k).
    { rewrite Forall_forall in Hnn. apply Hnn. eapply nth_error_In; eauto. }
    lia.
Qed.

(** An instance of X9: no bins at all in the only dimension. *)
Lemma bin_edges_cpu_succeeds_iff_witness :
  exists bins,
    histogramdd_bin_edges_cpu (mkTensor Double [1; 1] [5]%float) [0]
      (Some [0; 1]%float) None false = OK bins.
Proof.
  apply (proj2 (proj1 (bin_edges_cpu_succeeds_iff
                         (mkTensor Double [1; 1] [5]%float) [0]
                         (Some [0; 1]%float) None false
                         (conj eq_refl
                            (Forall_cons 1 (Z.le_0_1)
                               (Forall_cons 1 (Z.le_0_1) (Forall_nil _))))
                         (le_n 1)
                         (Forall_cons 0 (Z.le_refl 0) (Forall_nil _))))).
  split; [|split].
  - unfold dim. simpl. lia.
  - exists [0%float], [1%float]. reflexivity.
  - repeat constructor.
Defined.

(** When the tail shared by the explicit-edges entry points succeeds. *)
Lemma explicit_edges_tail_succeeds_iff (s : stub) (self : Tensor) (bins : list Tensor)
    (weight : option Tensor) (density : bool) (st : Store) :
  (exists st', explicit_edges_tail s self bins weight density st = (OK tt, st')) <->
  inputs_valid self bins weight /\
  Z.of_nat (length (bin_edges st)) = last (sizes self) 0 /\
  dtype (hist st) = dtype self /\
  Forall (fun e => dtype e = dtype self) (bin_edges st) /\
  Forall (fun b => 2 <= numel b) bins.
Proof.
  split.
  - intros [st' H].
    destruct (explicit_edges_tail_OK _ _ _ _ _ _ _ _ H)
      as [Hv [st1 [Hp [_ [_ [Hpos _]]]]]].
    split; [exact Hv|]. unfold histogramdd_prepare_out_bins in Hp.
    destruct (prepare_out_inv_OK _ _ _ _ _ Hp) as [N [HN [Hct Hes]]].
    rewrite (dim_ge_2_size_m1 _ (proj1 Hv)) in HN. injection HN as <-.
    split; [exact Hes|].
    rewrite (histogramdd_prepare_out_run _ _ _ _ (dim_ge_2_size_m1 _ (proj1 Hv)) Hct Hes)
      in Hp.
    destruct (dtype_eqb (dtype self) (dtype (hist st))) eqn:Eh; try discriminate.
    apply dtype_eqb_true in Eh. split; [auto|].
    destruct (map_idx (prepare_edge self (map (fun t => numel t - 1) bins)) 0
                (bin_edges st)) as [[[]|e] es] eqn:E; try discriminate.
    destruct (map_idx_OK _ _ _ _ _ E) as [_ Hn]. split.
    + apply Forall_forall. intros t Ht. apply In_nth_error in Ht.
      destruct Ht as [j Hj]. destruct (Hn _ _ Hj) as [t' [Hf _]].
      apply prepare_edge_OK in Hf. tauto.
    + rewrite Forall_map in Hpos. eapply Forall_impl; [|exact Hpos].
      intros b Hb. cbv beta in Hb. lia.
  - intros [Hv [Hes [Hh [He Hb]]]]. rewrite explicit_edges_tail_run.
    rewrite (proj2 (histogramdd_check_inputs_OK _ _ _) Hv).
    unfold histogramdd_prepare_out_bins.
    assert (Hct : Z.of_nat (length (map (fun t => numel t - 1) bins)) =
                  last (sizes self) 0).
    { rewrite length_map. apply Hv. }
    rewrite (histogramdd_prepare_out_run _ _ _ _ (dim_ge_2_size_m1 _ (proj1 Hv)) Hct Hes).
    rewrite (proj2 (dtype_eqb_true _ _) (eq_sym Hh)).
    destruct (map_idx_all_OK (prepare_edge self (map (fun t => numel t - 1) bins))
                (bin_edges st) 0) as [es Hmap].
    + intros j t Hj. cbn [Nat.add]. unfold prepare_edge, TORCH_CHECK.
      assert (Hd : dtype t = dtype self).
      { rewrite Forall_forall in He. apply He. eapply nth_error_In; eauto. }
      rewrite (proj2 (dtype_eqb_true _ _) (eq_sym Hd)). cbn [bindR].
      assert (Hlt : (j < length (map (fun t => (numel t - 1)%Z) bins))%nat).
      { assert (j < length (bin_edges st))%nat by (apply nth_error_Some; congruence). lia. }
      destruct (vec_at_lt _ j Hlt) as [k [Hk Hn]]. rewrite Hk. cbn [bindR].
      assert (Hkpos : 0 < k).
      { apply nth_error_In in Hn. apply in_map_iff in Hn. destruct Hn as [b [<- Hin]].
        rewrite Forall_forall in Hb. specialize (Hb b Hin). lia. }
      rewrite (proj2 (Z.ltb_lt _ _) Hkpos). cbn [bindR]. eauto.
    + rewrite Hmap. eauto.
Qed.

(** X10.  [histogramdd_out_cpu] on explicit edges completes exactly when
    the inputs are valid, every edge tensor has at least two elements, and
    the caller's outputs are one edge tensor for each dimension, all of
    the dtype of the input, as is [hist]; the accumulation kernel raises no
    error of its own.  With valid inputs and another number of output edge
    tensors it stops on the internal assertion and touches no output. *)
Theorem histogramdd_out_cpu_completes_iff :
  forall (self : Tensor) (bins : list Tensor) (weight : option Tensor)
         (density : bool) (st : Store),
    ((exists st', histogramdd_out_cpu self bins weight density st = (OK tt, st')) <->
     inputs_valid self bins weight /\
     Z.of_nat (length (bin_edges st)) = last (sizes self) 0 /\
     dtype (hist st) = dtype self /\
     Forall (fun e => dtype e = dtype self) (bin_edges st) /\
     Forall (fun b => 2 <= numel b) bins) /\
    (inputs_valid self bins weight ->
     Z.of_nat (length (bin_edges st)) <> last (sizes self) 0 ->
     histogramdd_out_cpu self bins weight density st =
     (Err (InternalAssert prepare_bin_edges_size), st)).
Proof.
  intros self bins weight density st. rewrite histogramdd_out_cpu_tail. split.
  - apply explicit_edges_tail_succeeds_iff.
  - intros Hv Hne. rewrite explicit_edges_tail_run.
    rewrite (proj2 (histogramdd_check_inputs_OK _ _ _) Hv).
    unfold histogramdd_prepare_out_bins. rewrite histogramdd_prepare_out_eq.
    rewrite (dim_ge_2_size_m1 _ (proj1 Hv)). rewrite length_map.
    rewrite (proj2 (Z.eqb_eq _ _) (proj1 (proj2 Hv))). cbn [negb].
    now rewrite (proj2 (Z.eqb_neq _ _) Hne).
Qed.

(** An instance of X10: valid inputs for one dimension, and no output edge
    tensor at all. *)
Lemma histogramdd_out_cpu_completes_iff_witness :
  histogramdd_out_cpu (mkTensor Double [2; 1] [1; 2]%float)
    [mkTensor Double [3] [0; 1; 2]%float] None false
    (mkStore (empty0 Double) [] []) =
  (Err (InternalAssert prepare_bin_edges_size), mkStore (empty0 Double) [] []).
Proof.
  apply (proj2 (histogramdd_out_cpu_completes_iff (mkTensor Double [2; 1] [1; 2]%float)
                  [mkTensor Double [3] [0; 1; 2]%float] None false
                  (mkStore (empty0 Double) [] []))).
  - unfold inputs_valid, edges_ok, dim, numel. simpl.
    split; [lia|]. split; [reflexivity|]. split; [|exact I].
    constructor; [|constructor]. split; [reflexivity|]. split; [reflexivity|].
    vm_compute. discriminate.
  - simpl. lia.
Defined.

(** The run of the allocating entry point on explicit edges. *)
Lemma histogramdd_cpu_run (self : Tensor) (bins : list Tensor)
    (weight : option Tensor) (density : bool) :
  histogramdd_cpu self bins weight density =
  if 2 <=? dim self then
    match explicit_edges_tail histogramdd_stub self bins weight density
            (mkStore (empty0 (dtype self))
               (repeat (empty0 (dtype self)) (Z.to_nat (last (sizes self) 0))) []) with
    | (OK _, st) => OK (hist st)
    | (Err e, _) => Err e
    end
  else Err (InvalidArgument input_rank).
Proof.
  unfold histogramdd_cpu. rewrite allocate_bin_edges_tensors_eq.
  destruct (2 <=? dim self); cbn [bindR]; auto.
  unfold run_fresh. rewrite histogramdd_out_cpu_tail.
  destruct (explicit_edges_tail _ _ _ _ _ _) as [[u|e] st]; reflexivity.
Qed.

(** X11.  The allocating [histogramdd_cpu] on explicit edges allocates
    outputs that pass every check of the output preparation but the one on
    the bin counts.  So it returns a histogram exactly when the inputs are
    valid and every edge tensor has at least two elements; the histogram
    has the dtype of the input and [numel(bins[d]) - 1] bins in dimension
    [d]; and every failure is a rejected argument, never an internal
    assertion. *)
Theorem histogramdd_cpu_succeeds_iff :
  forall (self : Tensor) (bins : list Tensor) (weight : option Tensor)
         (density : bool),
    ((exists h, histogramdd_cpu self bins weight density = OK h) <->
     inputs_valid self bins weight /\ Forall (fun b => 2 <= numel b) bins) /\
    (forall h, histogramdd_cpu self bins weight density = OK h ->
       dtype h = dtype self /\ sizes h = map (fun b => numel b - 1) bins) /\
    (forall e, histogramdd_cpu self bins weight density = Err e ->
       exists m, e = InvalidArgument m).
Proof.
  intros self bins weight density. rewrite histogramdd_cpu_run.
  set (st0 := mkStore (empty0 (dtype self))
                (repeat (empty0 (dtype self)) (Z.to_nat (last (sizes self) 0))) []).
  pose proof (explicit_edges_tail_succeeds_iff histogramdd_stub self bins weight
                density st0) as Hiff.
  assert (Hfresh : Forall (fun e => dtype e = dtype self) (bin_edges st0)).
  { apply Forall_forall. intros t Ht. apply repeat_spec in Ht. now subst t. }
  destruct (2 <=? dim self) eqn:Ed.
  2:{ apply Z.leb_gt in Ed. split; [split|split].
      - intros [h H]. discriminate.
      - intros [[Hd _] _]. lia.
      - discriminate.
      - intros e H. injection H as <-. eauto. }
  apply Z.leb_le in Ed.
  destruct (explicit_edges_tail histogramdd_stub self bins weight density st0)
    as [[[]|e] st'] eqn:E.
  - assert (Hok : exists st'0, (OK tt, st') = (OK tt, st'0)) by eauto.
    apply Hiff in Hok. destruct Hok as [Hv [_ [_ [_ Hb]]]].
    split; [split; eauto|]. split; [|discriminate].
    intros h H. injection H as <-.
    destruct (explicit_edges_tail_OK _ _ _ _ _ _ _ _ E)
      as [_ [st1 [Hp [Hlen [Hsh [_ [_ ->]]]]]]].
    unfold histogramdd_prepare_out_bins in Hp.
    destruct (prepare_out_inv_OK _ _ _ _ _ Hp) as [N [HN [Hct Hes]]].
    destruct (prepare_out_shaped _ _ _ _ _ HN Hct Hes Hp) as [_ [_ [Hd _]]].
    split; [exact Hd|apply Hsh].
  - split; [split|split].
    + intros [h H]. discriminate.
    + intros [Hv Hb]. exfalso.
      assert (Hok : exists st'0, (Err e, st') = (OK tt, st'0)).
      { apply Hiff. split; [exact Hv|]. split.
        - unfold st0. cbn [bin_edges]. rewrite repeat_length.
          destruct Hv as [_ [Hn _]]. lia.
        - auto. }
      destruct Hok as [? Hok]. discriminate.
    + discriminate.
    + intros e0 H. injection H as <-. rewrite explicit_edges_tail_run in E.
      destruct (histogramdd_check_inputs self bins weight) as [[]|e1] eqn:Ec.
      * apply histogramdd_check_inputs_OK in Ec.
        destruct (histogramdd_prepare_out_bins self bins st0) as [[[]|e2] st1] eqn:Ep;
          try discriminate.
        injection E as <- _. unfold histogramdd_prepare_out_bins in Ep.
        assert (Hct : Z.of_nat (length (map (fun t => numel t - 1) bins)) =
                      last (sizes self) 0).
        { rewrite length_map. apply Ec. }
        assert (Hes : Z.of_nat (length (bin_edges st0)) = last (sizes self) 0).
        { unfold st0. cbn [bin_edges]. rewrite repeat_length.
          destruct Ec as [_ [Hn _]]. lia. }
        rewrite (histogramdd_prepare_out_run _ _ _ _ (dim_ge_2_size_m1 _ Ed) Hct Hes) in Ep.
        destruct (dtype_eqb (dtype self) (dtype (hist st0))).
        2:{ injection Ep as <- _. eauto. }
        destruct (map_idx (prepare_edge self (map (fun t => numel t - 1) bins)) 0
                    (bin_edges st0)) as [[[]|e3] es] eqn:Em; try discriminate.
        injection Ep as <- _.
        destruct (map_idx_Err _ _ _ _ _ Em) as [j [t [Hj [Hf _]]]].
        assert (Hlt : (j < length (map (fun t => (numel t - 1)%Z) bins))%nat).
        { assert (j < length (bin_edges st0))%nat by (apply nth_error_Some; congruence).
          lia. }
        destruct (prepare_edge_Err _ _ _ _ _ Hlt Hf) as [[-> _]|[-> _]]; eauto.
      * injection E as <- _.
        destruct (histogramdd_check_inputs_Err _ _ _ _ Ec) as [m ->]. eauto.
Qed.

(** A witness of X11: one dimension, two bins. *)
Lemma histogramdd_cpu_succeeds_iff_witness :
  exists h,
    histogramdd_cpu (mkTensor Double [2; 1] [1; 2]%float)
      [mkTensor Double [3] [0; 1; 2]%float] None false = OK h.
Proof.
  apply (proj2 (proj1 (histogramdd_cpu_succeeds_iff
                         (mkTensor Double [2; 1] [1; 2]%float)
                         [mkTensor Double [3] [0; 1; 2]%float] None false))).
  split.
  - unfold inputs_valid, edges_ok, dim, numel. simpl.
    split; [lia|]. split; [reflexivity|]. split; [|exact I].
    constructor; [|constructor]. split; [reflexivity|]. split; [reflexivity|].
    vm_compute. discriminate.
  - constructor; [|constructor]. vm_compute. discriminate.
Defined.

(** X12.  The edge tensor the allocating [histogram_cpu] returns beside
    the histogram is the caller's edge tensor: same dtype, same shape,
    same elements.  The histogram has the dtype of the input and one bin
    less than there are edges, of which there are at least two. *)
Theorem histogram_cpu_returns_given_edges :
  forall (self bins : Tensor) (weight : option Tensor) (density : bool)
         (h e : Tensor),
    histogram_cpu self bins weight density = OK (h, e) ->
    e = bins /\ dtype h = dtype self /\ sizes h = [numel bins - 1] /\
    2 <= numel bins.
Proof.
  intros self bins weight density h e.
  unfold histogram_cpu, histogram_out_cpu, run_fresh.
  rewrite histogramdd_out_cpu_tail, explicit_edges_tail_run.
  set (rs := reshape self [numel self; 1]).
  destruct (histogramdd_check_inputs rs [bins] (reshape_weight weight)) as [[]|e0] eqn:Ec;
    cbn [bindR]; try discriminate.
  apply histogramdd_check_inputs_OK in Ec. destruct Ec as [_ [_ [Hb _]]].
  inversion Hb as [|? ? [Hd [Hdim Hnum]] _]; subst.
  change (dtype rs) with (dtype self) in Hd.
  destruct (histogramdd_prepare_out_bins rs [bins]
              (mkStore (empty0 (dtype self)) [empty0 (dtype bins)] []))
    as [[u|e1] st1] eqn:Ep; cbn [bindR]; try discriminate.
  unfold histogramdd_prepare_out_bins in Ep. cbn [map] in Ep.
  destruct (prepare_out_1d_OK rs _ _ _ _ eq_refl Ep) as [e0 [He0 [Hk [_ [_ ->]]]]].
  cbn [bin_edges] in He0. injection He0 as <-.
  cbn [after_stub bin_edges hist calls zip_copy combine map fst snd hist_and_edges
       vec_at nth_error bindR].
  intro H. injection H as <- <-.
  split; [|split; [|split]].
  - unfold copy_. rewrite dtype_resize_output, sizes_resize_output.
    destruct bins as [dt sz dat]. unfold dim, numel in *. cbn [dtype sizes data] in *.
    destruct sz as [|n [|? ?]]; simpl in Hdim; try lia.
    cbn [fold_right]. do 2 f_equal. lia.
  - cbn [histogramdd_kernel dtype]. now rewrite dtype_resize_output.
  - cbn [histogramdd_kernel sizes]. now rewrite sizes_resize_output.
  - lia.
Qed.

(** An instance of X12: three edges for two samples. *)
Lemma histogram_cpu_returns_given_edges_witness :
  mkTensor Double [3] [0; 1; 2]%float = mkTensor Double [3] [0; 1; 2]%float /\
  dtype (mkTensor Double [2] [1; 0]%float) = Double /\
  sizes (mkTensor Double [2] [1; 0]%float) =
    [numel (mkTensor Double [3] [0; 1; 2]%float) - 1] /\
  2 <= numel (mkTensor Double [3] [0; 1; 2]%float).
Proof.
  apply (histogram_cpu_returns_given_edges
           (mkTensor Double [1] [0.5]%float) (mkTensor Double [3] [0; 1; 2]%float)
           None false
           (mkTensor Double [2] [1; 0]%float) (mkTensor Double [3] [0; 1; 2]%float)).
  vm_compute. reflexivity.
Defined.

(** The generated edges pass input validation exactly when the weight
    does. *)
Lemma check_inputs_generated_weight (self e1 : Tensor) (weight : option Tensor)
    (lo hi : float) (k : Z) :
  0 < k -> dtype e1 = dtype self ->
  (histogramdd_check_inputs (reshape self [numel self; 1])
     [linspace_cpu_out lo hi (k + 1) e1] (reshape_weight weight) = OK tt <->
   match weight with
   | None => True
   | Some w => dtype w = dtype self /\ numel w = numel self
   end).
Proof.
  intros Hk Hd. rewrite histogramdd_check_inputs_OK. unfold inputs_valid.
  assert (He : edges_ok (reshape self [numel self; 1])
                 (linspace_cpu_out lo hi (k + 1) e1)).
  { unfold edges_ok. cbn [reshape dtype linspace_cpu_out].
    split; [exact Hd|]. split; [reflexivity|].
    rewrite numel_linspace_cpu_out. lia. }
  split.
  - intros [_ [_ [_ Hw]]]. destruct weight as [w|]; [|exact I].
    cbn [reshape_weight weight_ok reshape dtype sizes weight_sizes_of removelast] in Hw.
    destruct Hw as [H1 H2]. split; congruence.
  - intro Hw. split; [unfold dim; simpl; lia|]. split; [reflexivity|].
    split; [constructor; [exact He|constructor]|].
    destruct weight as [w|]; [|exact I].
    cbn [reshape_weight weight_ok reshape dtype sizes weight_sizes_of removelast].
    destruct Hw as [H1 H2]. split; congruence.
Qed.

(** The run of the allocating one-dimensional entry point on a bin
    count. *)
Lemma histogram_cpu_bin_ct_run (self : Tensor) (k : Z)
    (range : option (list float)) (weight : option Tensor) (density : bool) :
  wf_tensor self ->
  histogram_cpu_bin_ct self k range weight density =
  if 0 <? k then
    match select_outer_bin_edges (reshape self [numel self; 1]) range with
    | Err e => Err e
    | OK (ls, rs) =>
        match add_int64 k 1 with
        | Err e => Err e
        | OK steps =>
            let edges := linspace_cpu_out (hd 0%float ls) (hd 0%float rs) steps
                           (resize_output (empty0 (dtype self)) [k + 1]) in
            match histogramdd_check_inputs (reshape self [numel self; 1]) [edges]
                    (reshape_weight weight) with
            | Err e => Err e
            | OK _ =>
                OK (histogramdd_kernel (histogramdd_linear_stub true)
                      (reshape self [numel self; 1]) (reshape_weight weight) density
                      (resize_output (empty0 (dtype self)) [k]) [edges],
                    edges)
            end
        end
    end
  else Err (InvalidArgument (bins_positive 0)).
Proof.
  intro Hwf. unfold histogram_cpu_bin_ct, run_fresh.
  rewrite (histogram_out_cpu_bin_ct_run _ _ _ _ _ _ Hwf).
  rewrite (prepare_out_1d_run self) by reflexivity.
  destruct (0 <? k); [|reflexivity].
  destruct (select_outer_bin_edges (reshape self [numel self; 1]) range)
    as [[ls rs]|e]; [|reflexivity].
  rewrite linspace_check_accumulate_run.
  destruct (add_int64 k 1) as [steps|e]; [|reflexivity]. cbv zeta.
  destruct (histogramdd_check_inputs _ _ _) as [[]|e]; reflexivity.
Qed.

(** X13.  The allocating one-dimensional [histogram_cpu] on a bin count
    returns a result exactly when the count is positive and below
    INT64_MAX, so that [bin_ct + 1] fits [int64_t], the outer edges can be
    selected, and the weight, if any, has the dtype of the input and as
    many elements, whatever its shape.  The histogram then has [bin_ct]
    elements and the edge tensor [bin_ct + 1], both of the dtype of the
    input.  A count that is not positive is rejected before the range or
    the data are looked at. *)
Theorem histogram_cpu_bin_ct_succeeds_iff :
  forall (self : Tensor) (k : Z) (range : option (list float))
         (weight : option Tensor) (density : bool),
    wf_tensor self ->
    ((exists h e, histogram_cpu_bin_ct self k range weight density = OK (h, e)) <->
     0 < k /\ k < int64_max /\
     (exists ls rs,
         select_outer_bin_edges (reshape self [numel self; 1]) range = OK (ls, rs)) /\
     match weight with
     | None => True
     | Some w => dtype w = dtype self /\ numel w = numel self
     end) /\
    (forall h e, histogram_cpu_bin_ct self k range weight density = OK (h, e) ->
       dtype h = dtype self /\ sizes h = [k] /\
       dtype e = dtype self /\ sizes e = [k + 1]) /\
    (k <= 0 ->
     histogram_cpu_bin_ct self k range weight density =
     Err (InvalidArgument (bins_positive 0))).
Proof.
  intros self k range weight density Hwf.
  rewrite (histogram_cpu_bin_ct_run _ _ _ _ _ Hwf).
  destruct (0 <? k) eqn:Ek.
  2:{ apply Z.ltb_ge in Ek. split; [split|split].
      - intros [h [e H]]. discriminate.
      - intros [Hk _]. lia.
      - discriminate.
      - reflexivity. }
  apply Z.ltb_lt in Ek.
  destruct (select_outer_bin_edges (reshape self [numel self; 1]) range)
    as [[ls rs]|e0] eqn:Es.
  2:{ split; [split|split].
      - intros [h [e H]]. discriminate.
      - intros [_ [_ [[ls [rs H]] _]]]. discriminate.
      - discriminate.
      - lia. }
  destruct (add_int64 k 1) as [steps|eo] eqn:Ea.
  2:{ apply add_int64_Err in Ea. destruct Ea as [_ Ea]. split; [split|split].
      - intros [h [e H]]. discriminate.
      - intros [_ [Hmax _]]. unfold int64_min, int64_max in *. lia.
      - discriminate.
      - lia. }
  apply add_int64_OK in Ea. destruct Ea as [-> Hfit]. cbv zeta.
  assert (Hmax : k < int64_max) by (unfold int64_max in *; lia).
  pose proof (check_inputs_generated_weight self
                (resize_output (empty0 (dtype self)) [k + 1]) weight
                (hd 0%float ls) (hd 0%float rs) k Ek
                (dtype_resize_output _ _)) as Hw.
  destruct (histogramdd_check_inputs _ _ _) as [[]|e0] eqn:Ec.
  - split; [split|split].
    + intros _. split; [exact Ek|]. split; [exact Hmax|]. split; [eauto|].
      exact (proj1 Hw eq_refl).
    + intros _. eexists _, _. reflexivity.
    + intros h e H. injection H as <- <-.
      cbn [histogramdd_kernel dtype sizes].
      rewrite !dtype_resize_output, sizes_resize_output.
      rewrite (sizes_linspace_cpu_out _ _ _ _ Ek).
      cbn [linspace_cpu_out dtype]. rewrite dtype_resize_output.
      split; [reflexivity|]. split; [reflexivity|]. split; reflexivity.
    + lia.
  - split; [split|split].
    + intros [h [e H]]. discriminate.
    + intros [_ [_ [_ H]]]. apply (proj2 Hw) in H. discriminate.
    + discriminate.
    + lia.
Qed.

(** An instance of X13: no bins at all, on a dtype for which no range
    could be inferred. *)
Lemma histogram_cpu_bin_ct_succeeds_iff_witness :
  histogram_cpu_bin_ct (mkTensor Long [1] [5]%float) 0 None None false =
  Err (InvalidArgument (bins_positive 0)).
Proof.
  apply (proj2 (proj2 (histogram_cpu_bin_ct_succeeds_iff
                         (mkTensor Long [1] [5]%float) 0 None None false
                         (conj eq_refl (Forall_cons 1 Z.le_0_1 (Forall_nil _)))))).
  lia.
Defined.

(** The run of the allocating histc entry point. *)
Lemma histogram_histc_cpu_run (self : Tensor) (k : Z) (min max : float) :
  histogram_histc_cpu self k min max =
  if 0 <? k then
    match histc_select_outer_bin_edges self min max with
    | Err e => Err e
    | OK (lo, hi) =>
        match add_int64 k 1 with
        | Err e => Err e
        | OK steps =>
            OK (histogramdd_kernel (histogramdd_linear_stub false)
                  (reshape self [numel self; 1]) None false
                  (resize_output (empty0 (dtype self)) [k])
                  [linspace_cpu_out lo hi steps
                     (resize_output (empty0 (dtype self)) [k + 1])])
        end
    end
  else Err (InvalidArgument (bins_positive 0)).
Proof.
  unfold histogram_histc_cpu, run_fresh.
  rewrite histogram_histc_cpu_out_run. cbn [hist calls].
  rewrite (prepare_out_1d_run self) by reflexivity.
  destruct (0 <? k) eqn:Ek; [|reflexivity]. apply Z.ltb_lt in Ek.
  destruct (histc_select_outer_bin_edges self min max) as [[lo hi]|e]; [|reflexivity].
  rewrite linspace_check_accumulate_run.
  destruct (add_int64 k 1) as [steps|e] eqn:Ea; [|reflexivity].
  apply add_int64_OK in Ea. destruct Ea as [-> _].
  rewrite (check_inputs_generated self (resize_output (empty0 (dtype self)) [k + 1])
             lo hi k Ek (dtype_resize_output (empty0 (dtype self)) [k + 1])).
  reflexivity.
Qed.

(** X14.  The allocating [histogram_histc_cpu] returns a histogram exactly
    when the bin count is positive and below INT64_MAX, so that
    [bin_ct + 1] fits [int64_t], and the outer edges can be selected from
    [min] and [max]: its local edge tensor and its missing weight can fail
    no check.  The histogram has [bin_ct] elements and the dtype of the
    input.  A count that is not positive is rejected before [min], [max]
    or the data are looked at. *)
Theorem histogram_histc_cpu_succeeds_iff :
  forall (self : Tensor) (k : Z) (min max : float),
    ((exists h, histogram_histc_cpu self k min max = OK h) <->
     0 < k /\ k < int64_max /\
     exists lo hi, histc_select_outer_bin_edges self min max = OK (lo, hi)) /\
    (forall h, histogram_histc_cpu self k min max = OK h ->
       dtype h = dtype self /\ sizes h = [k]) /\
    (k <= 0 ->
     histogram_histc_cpu self k min max = Err (InvalidArgument (bins_positive 0))).
Proof.
  intros self k mn mx. rewrite histogram_histc_cpu_run.
  destruct (0 <? k) eqn:Ek.
  2:{ apply Z.ltb_ge in Ek. split; [split|split].
      - intros [h H]. discriminate.
      - intros [Hk _]. lia.
      - discriminate.
      - reflexivity. }
  apply Z.ltb_lt in Ek.
  destruct (histc_select_outer_bin_edges self mn mx) as [[lo hi]|e0] eqn:Es.
  2:{ split; [split|split].
      - intros [h H]. discriminate.
      - intros [_ [_ [lo [hi H]]]]. discriminate.
      - discriminate.
      - lia. }
  destruct (add_int64 k 1) as [steps|eo] eqn:Ea.
  - apply add_int64_OK in Ea. destruct Ea as [-> Hfit].
    split; [split|split].
    + intros _. split; [exact Ek|]. split; [unfold int64_max in *; lia|eauto].
    + intros _. eexists. reflexivity.
    + intros h H. injection H as <-. cbn [histogramdd_kernel dtype sizes].
      rewrite dtype_resize_output, sizes_resize_output. auto.
    + lia.
  - apply add_int64_Err in Ea. destruct Ea as [_ Ea]. split; [split|split].
    + intros [h H]. discriminate.
    + intros [_ [Hmax _]]. unfold int64_min, int64_max in *. lia.
    + discriminate.
    + lia.
Qed.

(** An instance of X14: no bins at all and a NaN bound. *)
Lemma histogram_histc_cpu_succeeds_iff_witness :
  histogram_histc_cpu (mkTensor Double [1] [5]%float) 0 nan 1%float =
  Err (InvalidArgument (bins_positive 0)).
Proof.
  apply (proj2 (proj2 (histogram_histc_cpu_succeeds_iff
                         (mkTensor Double [1] [5]%float) 0 nan 1%float))).
  lia.
Defined.

Lemma for_range_ext_in {S : Type} (body body' : nat -> S -> Res S) :
  forall (count start : nat) (s : S),
    (forall i s', (start <= i < start + count)%nat -> body i s' = body' i s') ->
    for_range start count body s = for_range start count body' s.
Proof.
  induction count as [|c IH]; intros start s Hext; simpl; auto.
  rewrite Hext by lia. destruct (body' start s); simpl; auto.
  apply IH. intros i s' Hi. apply Hext. lia.
Qed.

Lemma vec_at_firstn {A} (l : list A) (n i : nat) :
  (i < n)%nat -> vec_at (firstn n l) i = vec_at l i.
Proof.
  intro Hi. unfold vec_at. rewrite nth_error_firstn.
  now rewrite (proj2 (Nat.ltb_lt _ _) Hi).
Qed.

Lemma bin_edges_cpu_firstn (self : Tensor) (bin_ct : list Z)
    (range : option (list float)) (weight : option Tensor) (density : bool) :
  histogramdd_bin_edges_cpu self bin_ct range weight density =
  histogramdd_bin_edges_cpu self
    (firstn (Z.to_nat (last (sizes self) 0)) bin_ct) range weight density.
Proof.
  unfold histogramdd_bin_edges_cpu.
  destruct (allocate_bin_edges_tensors self) as [outs|e]; cbn [bindR]; auto.
  unfold histogramdd_bin_edges_out_cpu.
  assert (HN : forall N, size_m1 self = OK N -> N = last (sizes self) 0).
  { unfold size_m1. destruct (sizes self); intros N H; [discriminate|congruence]. }
  destruct (size_m1 self) as [N|e] eqn:EN; cbn [bindR]; auto.
  rewrite (HN N eq_refl).
  destruct (select_outer_bin_edges _ range) as [outer|e]; cbn [bindR]; auto.
  apply for_range_ext_in. intros i v Hi. unfold linspace_dim.
  now rewrite vec_at_firstn by lia.
Qed.

(** X15.  The entry points on bin counts read one count for each of the N
    dimensions of the input and nothing beyond: counts after the N-th are
    never looked at, neither when the edges are generated nor when the
    histogram is computed. *)
Theorem surplus_bin_counts_are_ignored :
  forall (self : Tensor) (bin_ct : list Z) (range : option (list float))
         (weight : option Tensor) (density : bool),
    histogramdd_bin_edges_cpu self bin_ct range weight density =
    histogramdd_bin_edges_cpu self
      (firstn (Z.to_nat (last (sizes self) 0)) bin_ct) range weight density /\
    histogramdd_cpu_bin_ct self bin_ct range weight density =
    histogramdd_cpu_bin_ct self
      (firstn (Z.to_nat (last (sizes self) 0)) bin_ct) range weight density.
Proof.
  intros self bin_ct range weight density. split.
  - apply bin_edges_cpu_firstn.
  - unfold histogramdd_cpu_bin_ct, histogramdd_out_cpu_bin_ct.
    now rewrite <- bin_edges_cpu_firstn.
Qed.

(** No histogram has INT64_MAX bins: [bin_ct + 1] does not fit
    [int64_t]. *)
Example histc_int64_max_bins :
  forall (self : Tensor) (min max : float) (h : Tensor),
    histogram_histc_cpu self int64_max min max <> OK h.
Proof.
  intros self mn mx h. rewrite histogram_histc_cpu_run.
  change (add_int64 int64_max 1) with (@Err Z Overflow).
  destruct (0 <? int64_max); [|discriminate].
  destruct (histc_select_outer_bin_edges self mn mx) as [[lo hi]|e]; discriminate.
Qed.

Example bin_edges_int64_max_bins :
  histogramdd_bin_edges_cpu (mkTensor Double [1; 1] [5]%float) [int64_max]
    (Some [0; 1]%float) None false = Err Overflow.
Proof. vm_compute. reflexivity. Qed.
